(** * AmethystFlame: grid engine and extreme-market protection

    A shallow embedding of the XRP perpetual-futures grid bot:
    [grid_core.py] (class [GridCore]), [extreme_market_protection.py]
    (class [ExtremeMarketProtection], with its state file and both of its
    data modes), the order/position bookkeeping, the emergency routine and
    the spacing adjustment of [grid_strategy_XRP.py] (class
    [GridTradingBot]), the price cache and the kline request of
    [exchange_interface.py], the adjustment recommendation of
    [ema_adx_signal_module.py] and the constants of [config.py].

    Conventions.
    - Python numbers ([int] and [float]) are exact rationals [Q]; rounding
      error of binary floating point is not modelled.  Wall-clock instants
      ([time.time()], [datetime.now()]) are seconds, as [Q].
    - Attribute mutation on [self] is explicit state passing; everything the
      program asks of the outside (the exchange adapter, the state file) is a
      [Call] appended to the [trace] of a [World], answered by the world's
      [oracle].  A theorem quantified over every [World] therefore speaks of
      every behaviour of the exchange, failures included.
    - Python exceptions are the [Raised] outcome; attribute updates made
      before the exception are kept, as in Python. *)

From Stdlib Require Import QArith Qabs Qround Qminmax ZArith List String Bool.
From Stdlib Require Import Lia Lqa.
Import ListNotations.

Open Scope Q_scope.

(** ** Python numerics on rationals *)

Module PyNum.

(** [a < b] and [a <= b] as Python evaluates them on numbers. *)
Definition Qltb (a b : Q) : bool := negb (Qle_bool b a).
Definition Qleb (a b : Q) : bool := Qle_bool a b.

(** [min(a, b)] and [max(a, b)]: the first argument wins ties. *)
Definition py_min (a b : Q) : Q := if Qltb b a then b else a.
Definition py_max (a b : Q) : Q := if Qltb a b then b else a.

(** Truth value of a number, and of an attribute that may hold [None]. *)
Definition truthy (a : Q) : bool := negb (Qeq_bool a 0).
Definition truthy_opt (a : option Q) : bool :=
  match a with Some q => truthy q | None => false end.

(** [x == 'lit'] where [x] may be [None]. *)
Definition is_str (x : option string) (lit : string) : bool :=
  match x with Some s => String.eqb s lit | None => false end.

End PyNum.
Import PyNum.

(** ** config.py *)

Module Config.

Record Config := {
  COIN_NAME : string;
  CONTRACT_TYPE : string;
  GRID_SPACING : Q;
  INITIAL_QUANTITY : Q;
  POSITION_THRESHOLD : Q;
  POSITION_LIMIT : Q;
  ORDER_FIRST_TIME : Q
}.

(** The global instance [config = Config()]. *)
Definition config : Config := {|
  COIN_NAME := "XRP";
  CONTRACT_TYPE := "USDC";
  GRID_SPACING := 1 # 1000;
  INITIAL_QUANTITY := 3;
  POSITION_THRESHOLD := 500;
  POSITION_LIMIT := 200;
  ORDER_FIRST_TIME := 10
|}.

(** [get_ccxt_symbol]: [f"{COIN_NAME}/{CONTRACT_TYPE}:{CONTRACT_TYPE}"]. *)
Definition get_ccxt_symbol (c : Config) : string :=
  (COIN_NAME c ++ "/" ++ CONTRACT_TYPE c ++ ":" ++ CONTRACT_TYPE c)%string.

End Config.
Import Config.

(** ** Data exchanged with the outside *)

(** An open order as the adapter returns it.  [o_side] is [order.get('side')],
    [o_positionSide] is [order.get('info', {}).get('positionSide')] (both may
    be absent), [o_reduceOnly] is [order.get('reduceOnly', False)], [o_origQty]
    is [float(order.get('info', {}).get('origQty', 0))]. *)
Record Order := {
  o_id : string;
  o_side : option string;
  o_reduceOnly : bool;
  o_positionSide : option string;
  o_origQty : Q
}.

(** One entry of ccxt's [fetch_positions]. *)
Record RawPosition := {
  rp_symbol : string;
  rp_contracts : Q;
  rp_side : option string
}.

Inductive Direction := up | down | neutral.

Definition Direction_eqb (a b : Direction) : bool :=
  match a, b with
  | up, up | down, down | neutral, neutral => true
  | _, _ => false
  end.

(** The JSON record written by [ExtremeMarketProtection._save_state]. *)
Record SavedState := {
  sv_protection_active : bool;
  sv_hibernation_start_time : option Q;
  sv_baseline_atr : option Q;
  sv_consecutive_trend_direction : Direction;
  sv_consecutive_kline_count : Z;
  sv_cumulative_change_percent : Q;
  sv_consecutive_trend_start_time : option Q;
  sv_consecutive_trend_start_price : option Q;
  sv_last_update : Q
}.

(** Requests that leave the program.  The first group is the
    [ExchangeInterface] used by [GridCore] and [GridTradingBot]; the second is
    the [self.exchange] object used by [ExtremeMarketProtection]; the last is
    the state file. *)
Inductive Call :=
| FetchOpenOrders
| CancelOrder (id : string)
| FetchPositions
| PlaceOrder (side : string) (price : option Q) (quantity : Q)
             (is_reduce_only : bool) (position_side : string)
             (order_type : string)
| PlaceTakeProfitOrder (side : string) (price : Q) (quantity : Q)
| GetOpenOrders
| ExCancelOrder (id : string)
| GetPosition
| ExPlaceOrder (side : string) (price : Q) (quantity : Q)
               (reduce_only : bool) (position_side : string)
               (order_type : string)
| GetOrderStatus (id : option string)
| SaveState (state : SavedState).

(** What comes back.  [RRaise] is an exception escaping the call. *)
Inductive Reply :=
| ROrders (orders : list Order)
| RPositions (positions : list RawPosition)
| RPositionDict (long short : option Q)
| ROrderResult (id : option string)
| RStatus (status : option string)
| RNone
| RRaise.

(** The outside world: an oracle answering the n-th request, the requests made
    so far, and the wall clock. *)
Record World := {
  oracle : nat -> Reply;
  trace : list Call;
  now : Q
}.

(** ** A state-and-exception monad for the methods *)

Module Py.

Inductive Outcome (A : Type) :=
| Returned (a : A)
| Raised.
Arguments Returned {A} a.
Arguments Raised {A}.

Definition M (S A : Type) : Type := S -> World -> Outcome A * S * World.

Definition ret {S A} (a : A) : M S A := fun s w => (Returned a, s, w).

Definition bind {S A B} (m : M S A) (k : A -> M S B) : M S B :=
  fun s w =>
    match m s w with
    | (Returned a, s', w') => k a s' w'
    | (Raised, s', w') => (Raised, s', w')
    end.

Definition raise {S A} : M S A := fun s w => (Raised, s, w).

(** [try: m  except Exception: h]. *)
Definition try_except {S A} (m : M S A) (h : M S A) : M S A :=
  fun s w =>
    match m s w with
    | (Returned a, s', w') => (Returned a, s', w')
    | (Raised, s', w') => h s' w'
    end.

Definition get {S} : M S S := fun s w => (Returned s, s, w).
Definition modify {S} (f : S -> S) : M S unit :=
  fun s w => (Returned tt, f s, w).

(** Run a method of a sub-object ([self.grid_core.f()]) on the enclosing
    object's state. *)
Definition zoom {S T A} (proj : T -> S) (upd : S -> T -> T) (m : M S A)
  : M T A :=
  fun t w =>
    match m (proj t) w with
    | (r, s', w') => (r, upd s' t, w')
    end.

(** Issue a request: it is logged, and the oracle's answer for its position
    in the trace is returned, or raised. *)
Definition call {S} (c : Call) : M S Reply :=
  fun s w =>
    let r := oracle w (List.length (trace w)) in
    let w' := {| oracle := oracle w; trace := trace w ++ [c]; now := now w |} in
    match r with
    | RRaise => (Raised, s, w')
    | _ => (Returned r, s, w')
    end.

(** [time.time()] / [datetime.now()]. *)
Definition time_time {S} : M S Q := fun s w => (Returned (now w), s, w).

(** [await asyncio.sleep(d)]. *)
Definition sleep {S} (d : Q) : M S unit :=
  fun s w =>
    (Returned tt, s,
     {| oracle := oracle w; trace := trace w; now := now w + d |}).

Declare Scope py_scope.
Delimit Scope py_scope with py.
Notation "x <- c1 ;; c2" := (bind c1 (fun x => c2))
  (at level 61, c1 at next level, right associativity) : py_scope.
Notation "c1 ;; c2" := (bind c1 (fun _ => c2))
  (at level 61, right associativity) : py_scope.

End Py.
Import Py.
Open Scope py_scope.

(** ** grid_core.py *)

Module GridCore.

(** The attributes set in [GridCore.__init__]. *)
Record GridCore := {
  long_initial_quantity : Q;
  short_initial_quantity : Q;
  long_position : Q;
  short_position : Q;
  buy_long_orders : Q;
  sell_long_orders : Q;
  sell_short_orders : Q;
  buy_short_orders : Q;
  last_long_order_time : Q;
  last_short_order_time : Q;
  last_position_update_time : Q;
  last_orders_update_time : Q;
  latest_price : Q;
  best_bid_price : option Q;
  best_ask_price : option Q;
  mid_price_long : Q;
  lower_price_long : Q;
  upper_price_long : Q;
  mid_price_short : Q;
  lower_price_short : Q;
  upper_price_short : Q;
  long_grid_spacing : Q;
  short_grid_spacing : Q;
  long_profit_spacing : Q;
  short_profit_spacing : Q
}.

(** [GridCore(exchange_interface)]. *)
Definition init : GridCore := {|
  long_initial_quantity := 0; short_initial_quantity := 0;
  long_position := 0; short_position := 0;
  buy_long_orders := 0; sell_long_orders := 0;
  sell_short_orders := 0; buy_short_orders := 0;
  last_long_order_time := 0; last_short_order_time := 0;
  last_position_update_time := 0; last_orders_update_time := 0;
  latest_price := 0; best_bid_price := None; best_ask_price := None;
  mid_price_long := 0; lower_price_long := 0; upper_price_long := 0;
  mid_price_short := 0; lower_price_short := 0; upper_price_short := 0;
  long_grid_spacing := GRID_SPACING config;
  short_grid_spacing := GRID_SPACING config;
  long_profit_spacing := GRID_SPACING config;
  short_profit_spacing := GRID_SPACING config
|}.

(** Attribute assignment [self.<field> = v]. *)

Definition set_long_initial_quantity (v : Q) (g : GridCore) : GridCore :=
  Build_GridCore
    v (short_initial_quantity g) (long_position g) (short_position g)
    (buy_long_orders g) (sell_long_orders g) (sell_short_orders g)
    (buy_short_orders g) (last_long_order_time g) (last_short_order_time g)
    (last_position_update_time g) (last_orders_update_time g)
    (latest_price g) (best_bid_price g) (best_ask_price g)
    (mid_price_long g) (lower_price_long g) (upper_price_long g)
    (mid_price_short g) (lower_price_short g) (upper_price_short g)
    (long_grid_spacing g) (short_grid_spacing g) (long_profit_spacing g)
    (short_profit_spacing g).

Definition set_short_initial_quantity (v : Q) (g : GridCore) : GridCore :=
  Build_GridCore
    (long_initial_quantity g) v (long_position g) (short_position g)
    (buy_long_orders g) (sell_long_orders g) (sell_short_orders g)
    (buy_short_orders g) (last_long_order_time g) (last_short_order_time g)
    (last_position_update_time g) (last_orders_update_time g)
    (latest_price g) (best_bid_price g) (best_ask_price g)
    (mid_price_long g) (lower_price_long g) (upper_price_long g)
    (mid_price_short g) (lower_price_short g) (upper_price_short g)
    (long_grid_spacing g) (short_grid_spacing g) (long_profit_spacing g)
    (short_profit_spacing g).

Definition set_long_position (v : Q) (g : GridCore) : GridCore :=
  Build_GridCore
    (long_initial_quantity g) (short_initial_quantity g) v
    (short_position g) (buy_long_orders g) (sell_long_orders g)
    (sell_short_orders g) (buy_short_orders g) (last_long_order_time g)
    (last_short_order_time g) (last_position_update_time g)
    (last_orders_update_time g) (latest_price g) (best_bid_price g)
    (best_ask_price g) (mid_price_long g) (lower_price_long g)
    (upper_price_long g) (mid_price_short g) (lower_price_short g)
    (upper_price_short g) (long_grid_spacing g) (short_grid_spacing g)
    (long_profit_spacing g) (short_profit_spacing g).

Definition set_short_position (v : Q) (g : GridCore) : GridCore :=
  Build_GridCore
    (long_initial_quantity g) (short_initial_quantity g) (long_position g) v
    (buy_long_orders g) (sell_long_orders g) (sell_short_orders g)
    (buy_short_orders g) (last_long_order_time g) (last_short_order_time g)
    (last_position_update_time g) (last_orders_update_time g)
    (latest_price g) (best_bid_price g) (best_ask_price g)
    (mid_price_long g) (lower_price_long g) (upper_price_long g)
    (mid_price_short g) (lower_price_short g) (upper_price_short g)
    (long_grid_spacing g) (short_grid_spacing g) (long_profit_spacing g)
    (short_profit_spacing g).

Definition set_buy_long_orders (v : Q) (g : GridCore) : GridCore :=
  Build_GridCore
    (long_initial_quantity g) (short_initial_quantity g) (long_position g)
    (short_position g) v (sell_long_orders g) (sell_short_orders g)
    (buy_short_orders g) (last_long_order_time g) (last_short_order_time g)
    (last_position_update_time g) (last_orders_update_time g)
    (latest_price g) (best_bid_price g) (best_ask_price g)
    (mid_price_long g) (lower_price_long g) (upper_price_long g)
    (mid_price_short g) (lower_price_short g) (upper_price_short g)
    (long_grid_spacing g) (short_grid_spacing g) (long_profit_spacing g)
    (short_profit_spacing g).

Definition set_sell_long_orders (v : Q) (g : GridCore) : GridCore :=
  Build_GridCore
    (long_initial_quantity g) (short_initial_quantity g) (long_position g)
    (short_position g) (buy_long_orders g) v (sell_short_orders g)
    (buy_short_orders g) (last_long_order_time g) (last_short_order_time g)
    (last_position_update_time g) (last_orders_update_time g)
    (latest_price g) (best_bid_price g) (best_ask_price g)
    (mid_price_long g) (lower_price_long g) (upper_price_long g)
    (mid_price_short g) (lower_price_short g) (upper_price_short g)
    (long_grid_spacing g) (short_grid_spacing g) (long_profit_spacing g)
    (short_profit_spacing g).

Definition set_sell_short_orders (v : Q) (g : GridCore) : GridCore :=
  Build_GridCore
    (long_initial_quantity g) (short_initial_quantity g) (long_position g)
    (short_position g) (buy_long_orders g) (sell_long_orders g) v
    (buy_short_orders g) (last_long_order_time g) (last_short_order_time g)
    (last_position_update_time g) (last_orders_update_time g)
    (latest_price g) (best_bid_price g) (best_ask_price g)
    (mid_price_long g) (lower_price_long g) (upper_price_long g)
    (mid_price_short g) (lower_price_short g) (upper_price_short g)
    (long_grid_spacing g) (short_grid_spacing g) (long_profit_spacing g)
    (short_profit_spacing g).

Definition set_buy_short_orders (v : Q) (g : GridCore) : GridCore :=
  Build_GridCore
    (long_initial_quantity g) (short_initial_quantity g) (long_position g)
    (short_position g) (buy_long_orders g) (sell_long_orders g)
    (sell_short_orders g) v (last_long_order_time g)
    (last_short_order_time g) (last_position_update_time g)
    (last_orders_update_time g) (latest_price g) (best_bid_price g)
    (best_ask_price g) (mid_price_long g) (lower_price_long g)
    (upper_price_long g) (mid_price_short g) (lower_price_short g)
    (upper_price_short g) (long_grid_spacing g) (short_grid_spacing g)
    (long_profit_spacing g) (short_profit_spacing g).

Definition set_last_long_order_time (v : Q) (g : GridCore) : GridCore :=
  Build_GridCore
    (long_initial_quantity g) (short_initial_quantity g) (long_position g)
    (short_position g) (buy_long_orders g) (sell_long_orders g)
    (sell_short_orders g) (buy_short_orders g) v (last_short_order_time g)
    (last_position_update_time g) (last_orders_update_time g)
    (latest_price g) (best_bid_price g) (best_ask_price g)
    (mid_price_long g) (lower_price_long g) (upper_price_long g)
    (mid_price_short g) (lower_price_short g) (upper_price_short g)
    (long_grid_spacing g) (short_grid_spacing g) (long_profit_spacing g)
    (short_profit_spacing g).

Definition set_last_short_order_time (v : Q) (g : GridCore) : GridCore :=
  Build_GridCore
    (long_initial_quantity g) (short_initial_quantity g) (long_position g)
    (short_position g) (buy_long_orders g) (sell_long_orders g)
    (sell_short_orders g) (buy_short_orders g) (last_long_order_time g) v
    (last_position_update_time g) (last_orders_update_time g)
    (latest_price g) (best_bid_price g) (best_ask_price g)
    (mid_price_long g) (lower_price_long g) (upper_price_long g)
    (mid_price_short g) (lower_price_short g) (upper_price_short g)
    (long_grid_spacing g) (short_grid_spacing g) (long_profit_spacing g)
    (short_profit_spacing g).

Definition set_last_position_update_time (v : Q) (g : GridCore) : GridCore :=
  Build_GridCore
    (long_initial_quantity g) (short_initial_quantity g) (long_position g)
    (short_position g) (buy_long_orders g) (sell_long_orders g)
    (sell_short_orders g) (buy_short_orders g) (last_long_order_time g)
    (last_short_order_time g) v (last_orders_update_time g) (latest_price g)
    (best_bid_price g) (best_ask_price g) (mid_price_long g)
    (lower_price_long g) (upper_price_long g) (mid_price_short g)
    (lower_price_short g) (upper_price_short g) (long_grid_spacing g)
    (short_grid_spacing g) (long_profit_spacing g) (short_profit_spacing g).

Definition set_last_orders_update_time (v : Q) (g : GridCore) : GridCore :=
  Build_GridCore
    (long_initial_quantity g) (short_initial_quantity g) (long_position g)
    (short_position g) (buy_long_orders g) (sell_long_orders g)
    (sell_short_orders g) (buy_short_orders g) (last_long_order_time g)
    (last_short_order_time g) (last_position_update_time g) v
    (latest_price g) (best_bid_price g) (best_ask_price g)
    (mid_price_long g) (lower_price_long g) (upper_price_long g)
    (mid_price_short g) (lower_price_short g) (upper_price_short g)
    (long_grid_spacing g) (short_grid_spacing g) (long_profit_spacing g)
    (short_profit_spacing g).

Definition set_latest_price (v : Q) (g : GridCore) : GridCore :=
  Build_GridCore
    (long_initial_quantity g) (short_initial_quantity g) (long_position g)
    (short_position g) (buy_long_orders g) (sell_long_orders g)
    (sell_short_orders g) (buy_short_orders g) (last_long_order_time g)
    (last_short_order_time g) (last_position_update_time g)
    (last_orders_update_time g) v (best_bid_price g) (best_ask_price g)
    (mid_price_long g) (lower_price_long g) (upper_price_long g)
    (mid_price_short g) (lower_price_short g) (upper_price_short g)
    (long_grid_spacing g) (short_grid_spacing g) (long_profit_spacing g)
    (short_profit_spacing g).

Definition set_best_bid_price (v : option Q) (g : GridCore) : GridCore :=
  Build_GridCore
    (long_initial_quantity g) (short_initial_quantity g) (long_position g)
    (short_position g) (buy_long_orders g) (sell_long_orders g)
    (sell_short_orders g) (buy_short_orders g) (last_long_order_time g)
    (last_short_order_time g) (last_position_update_time g)
    (last_orders_update_time g) (latest_price g) v (best_ask_price g)
    (mid_price_long g) (lower_price_long g) (upper_price_long g)
    (mid_price_short g) (lower_price_short g) (upper_price_short g)
    (long_grid_spacing g) (short_grid_spacing g) (long_profit_spacing g)
    (short_profit_spacing g).

Definition set_best_ask_price (v : option Q) (g : GridCore) : GridCore :=
  Build_GridCore
    (long_initial_quantity g) (short_initial_quantity g) (long_position g)
    (short_position g) (buy_long_orders g) (sell_long_orders g)
    (sell_short_orders g) (buy_short_orders g) (last_long_order_time g)
    (last_short_order_time g) (last_position_update_time g)
    (last_orders_update_time g) (latest_price g) (best_bid_price g) v
    (mid_price_long g) (lower_price_long g) (upper_price_long g)
    (mid_price_short g) (lower_price_short g) (upper_price_short g)
    (long_grid_spacing g) (short_grid_spacing g) (long_profit_spacing g)
    (short_profit_spacing g).

Definition set_mid_price_long (v : Q) (g : GridCore) : GridCore :=
  Build_GridCore
    (long_initial_quantity g) (short_initial_quantity g) (long_position g)
    (short_position g) (buy_long_orders g) (sell_long_orders g)
    (sell_short_orders g) (buy_short_orders g) (last_long_order_time g)
    (last_short_order_time g) (last_position_update_time g)
    (last_orders_update_time g) (latest_price g) (best_bid_price g)
    (best_ask_price g) v (lower_price_long g) (upper_price_long g)
    (mid_price_short g) (lower_price_short g) (upper_price_short g)
    (long_grid_spacing g) (short_grid_spacing g) (long_profit_spacing g)
    (short_profit_spacing g).

Definition set_lower_price_long (v : Q) (g : GridCore) : GridCore :=
  Build_GridCore
    (long_initial_quantity g) (short_initial_quantity g) (long_position g)
    (short_position g) (buy_long_orders g) (sell_long_orders g)
    (sell_short_orders g) (buy_short_orders g) (last_long_order_time g)
    (last_short_order_time g) (last_position_update_time g)
    (last_orders_update_time g) (latest_price g) (best_bid_price g)
    (best_ask_price g) (mid_price_long g) v (upper_price_long g)
    (mid_price_short g) (lower_price_short g) (upper_price_short g)
    (long_grid_spacing g) (short_grid_spacing g) (long_profit_spacing g)
    (short_profit_spacing g).

Definition set_upper_price_long (v : Q) (g : GridCore) : GridCore :=
  Build_GridCore
    (long_initial_quantity g) (short_initial_quantity g) (long_position g)
    (short_position g) (buy_long_orders g) (sell_long_orders g)
    (sell_short_orders g) (buy_short_orders g) (last_long_order_time g)
    (last_short_order_time g) (last_position_update_time g)
    (last_orders_update_time g) (latest_price g) (best_bid_price g)
    (best_ask_price g) (mid_price_long g) (lower_price_long g) v
    (mid_price_short g) (lower_price_short g) (upper_price_short g)
    (long_grid_spacing g) (short_grid_spacing g) (long_profit_spacing g)
    (short_profit_spacing g).

Definition set_mid_price_short (v : Q) (g : GridCore) : GridCore :=
  Build_GridCore
    (long_initial_quantity g) (short_initial_quantity g) (long_position g)
    (short_position g) (buy_long_orders g) (sell_long_orders g)
    (sell_short_orders g) (buy_short_orders g) (last_long_order_time g)
    (last_short_order_time g) (last_position_update_time g)
    (last_orders_update_time g) (latest_price g) (best_bid_price g)
    (best_ask_price g) (mid_price_long g) (lower_price_long g)
    (upper_price_long g) v (lower_price_short g) (upper_price_short g)
    (long_grid_spacing g) (short_grid_spacing g) (long_profit_spacing g)
    (short_profit_spacing g).

Definition set_lower_price_short (v : Q) (g : GridCore) : GridCore :=
  Build_GridCore
    (long_initial_quantity g) (short_initial_quantity g) (long_position g)
    (short_position g) (buy_long_orders g) (sell_long_orders g)
    (sell_short_orders g) (buy_short_orders g) (last_long_order_time g)
    (last_short_order_time g) (last_position_update_time g)
    (last_orders_update_time g) (latest_price g) (best_bid_price g)
    (best_ask_price g) (mid_price_long g) (lower_price_long g)
    (upper_price_long g) (mid_price_short g) v (upper_price_short g)
    (long_grid_spacing g) (short_grid_spacing g) (long_profit_spacing g)
    (short_profit_spacing g).

Definition set_upper_price_short (v : Q) (g : GridCore) : GridCore :=
  Build_GridCore
    (long_initial_quantity g) (short_initial_quantity g) (long_position g)
    (short_position g) (buy_long_orders g) (sell_long_orders g)
    (sell_short_orders g) (buy_short_orders g) (last_long_order_time g)
    (last_short_order_time g) (last_position_update_time g)
    (last_orders_update_time g) (latest_price g) (best_bid_price g)
    (best_ask_price g) (mid_price_long g) (lower_price_long g)
    (upper_price_long g) (mid_price_short g) (lower_price_short g) v
    (long_grid_spacing g) (short_grid_spacing g) (long_profit_spacing g)
    (short_profit_spacing g).

(** *** The exchange adapter as [GridCore] and the bot call it
    ([exchange_interface.py]) *)

(** [fetch_open_orders()]: a list of orders; anything else cannot be iterated. *)
Definition fetch_open_orders {S} : M S (list Order) :=
  r <- call FetchOpenOrders ;;
  match r with
  | ROrders orders => ret orders
  | _ => raise
  end.

(** [cancel_order(order_id)]; the result is not used. *)
Definition cancel_order {S} (order_id : string) : M S unit :=
  _ <- call (CancelOrder order_id) ;; ret tt.

(** [place_order(side, price, quantity, is_reduce_only, position_side,
    order_type)]; the result is not used. *)
Definition place_order {S} (side : string) (price : option Q) (quantity : Q)
    (is_reduce_only : bool) (position_side order_type : string) : M S unit :=
  _ <- call (PlaceOrder side price quantity is_reduce_only position_side
               order_type) ;;
  ret tt.

(** [place_take_profit_order(side, price, quantity)]: always reduce-only. *)
Definition place_take_profit_order {S} (side : string) (price quantity : Q)
  : M S unit :=
  _ <- call (PlaceTakeProfitOrder side price quantity) ;; ret tt.

(** The loop body of [ExchangeInterface.get_position]. *)
Definition get_position_step (symbol : string) (acc : Q * Q)
    (position : RawPosition) : Q * Q :=
  let '(long_position, short_position) := acc in
  if String.eqb (rp_symbol position) symbol then
    let contracts := rp_contracts position in
    if is_str (rp_side position) "long" then (contracts, short_position)
    else if is_str (rp_side position) "short" then
      (long_position, Qabs contracts)
    else (long_position, short_position)
  else (long_position, short_position).

Section WithConfig.

Variable cfg : Config.

(** [ExchangeInterface.get_position]: any failure yields [(0, 0)]. *)
Definition get_position {S} : M S (Q * Q) :=
  try_except
    (r <- call FetchPositions ;;
     match r with
     | RPositions positions =>
         ret (fold_left (get_position_step (get_ccxt_symbol cfg)) positions
                (0, 0))
     | _ => raise
     end)
    (ret (0, 0)).

(** The four local counters of [check_orders_status]. *)
Record Counters := {
  c_buy_long_orders : Q;
  c_sell_long_orders : Q;
  c_buy_short_orders : Q;
  c_sell_short_orders : Q
}.

Definition zero_counters : Counters :=
  {| c_buy_long_orders := 0; c_sell_long_orders := 0;
     c_buy_short_orders := 0; c_sell_short_orders := 0 |}.

(** The loop body of [check_orders_status]. *)
Definition count_order (c : Counters) (order : Order) : Counters :=
  let orig_quantity := Qabs (o_origQty order) in
  let side := o_side order in
  let position_side := o_positionSide order in
  if is_str side "buy" && is_str position_side "LONG" then
    {| c_buy_long_orders := c_buy_long_orders c + orig_quantity;
       c_sell_long_orders := c_sell_long_orders c;
       c_buy_short_orders := c_buy_short_orders c;
       c_sell_short_orders := c_sell_short_orders c |}
  else if is_str side "sell" && is_str position_side "LONG" then
    {| c_buy_long_orders := c_buy_long_orders c;
       c_sell_long_orders := c_sell_long_orders c + orig_quantity;
       c_buy_short_orders := c_buy_short_orders c;
       c_sell_short_orders := c_sell_short_orders c |}
  else if is_str side "buy" && is_str position_side "SHORT" then
    {| c_buy_long_orders := c_buy_long_orders c;
       c_sell_long_orders := c_sell_long_orders c;
       c_buy_short_orders := c_buy_short_orders c + orig_quantity;
       c_sell_short_orders := c_sell_short_orders c |}
  else if is_str side "sell" && is_str position_side "SHORT" then
    {| c_buy_long_orders := c_buy_long_orders c;
       c_sell_long_orders := c_sell_long_orders c;
       c_buy_short_orders := c_buy_short_orders c;
       c_sell_short_orders := c_sell_short_orders c + orig_quantity |}
  else c.

Definition count_orders (orders : list Order) : Counters :=
  fold_left count_order orders zero_counters.

Definition store_counters (c : Counters) (g : GridCore) : GridCore :=
  set_sell_short_orders (c_sell_short_orders c)
    (set_buy_short_orders (c_buy_short_orders c)
       (set_sell_long_orders (c_sell_long_orders c)
          (set_buy_long_orders (c_buy_long_orders c) g))).

Definition check_orders_status : M GridCore unit :=
  orders <- fetch_open_orders ;;
  modify (store_counters (count_orders orders)).

(** The test deciding, in [cancel_orders_for_side], whether [order] is
    cancelled. *)
Definition cancels (position_side : string) (order : Order) : bool :=
  let side := o_side order in
  let reduce_only := o_reduceOnly order in
  let position_side_order :=
    match o_positionSide order with Some s => s | None => "BOTH"%string end in
  if String.eqb position_side "long" then
    if negb reduce_only && is_str side "buy"
       && String.eqb position_side_order "LONG" then true
    else if reduce_only && is_str side "sell"
            && String.eqb position_side_order "LONG" then true
    else false
  else if String.eqb position_side "short" then
    if negb reduce_only && is_str side "sell"
       && String.eqb position_side_order "SHORT" then true
    else if reduce_only && is_str side "buy"
            && String.eqb position_side_order "SHORT" then true
    else false
  else false.

Fixpoint cancel_each (position_side : string) (orders : list Order)
  : M GridCore unit :=
  match orders with
  | [] => ret tt
  | order :: rest =>
      (if cancels position_side order then cancel_order (o_id order)
       else ret tt) ;;
      cancel_each position_side rest
  end.

Definition cancel_orders_for_side (position_side : string) : M GridCore unit :=
  orders <- fetch_open_orders ;;
  if (List.length orders =? 0)%nat then ret tt
  else try_except (cancel_each position_side orders) check_orders_status.

Definition update_mid_price (position_side : string) (latest_price : Q)
    (g : GridCore) : GridCore :=
  if String.eqb position_side "long" then
    let g := set_mid_price_long latest_price g in
    let g := set_lower_price_long
               (mid_price_long g * (1 - long_grid_spacing g)) g in
    set_upper_price_long (mid_price_long g * (1 + long_profit_spacing g)) g
  else if String.eqb position_side "short" then
    let g := set_mid_price_short latest_price g in
    let g := set_lower_price_short
               (mid_price_short g * (1 - short_profit_spacing g)) g in
    set_upper_price_short (mid_price_short g * (1 + short_grid_spacing g)) g
  else g.

(** The method returns nothing: the quantity is left in
    [long_initial_quantity] or [short_initial_quantity]. *)
Definition get_take_profit_quantity (position : Q) (position_side : string)
    (g : GridCore) : GridCore :=
  if String.eqb position_side "long" then
    if Qltb (POSITION_LIMIT cfg) position then
      set_long_initial_quantity (py_min position (INITIAL_QUANTITY cfg * 2)) g
    else
      set_long_initial_quantity (py_min position (INITIAL_QUANTITY cfg)) g
  else if String.eqb position_side "short" then
    if Qltb (POSITION_LIMIT cfg) position then
      set_short_initial_quantity (py_min position (INITIAL_QUANTITY cfg * 2)) g
    else
      set_short_initial_quantity (py_min position (INITIAL_QUANTITY cfg)) g
  else g.

Definition initialize_long_orders : M GridCore unit :=
  current_time <- time_time ;;
  g <- get ;;
  if Qltb (current_time - last_long_order_time g) (ORDER_FIRST_TIME cfg)
  then ret tt
  else
    cancel_orders_for_side "long" ;;
    g <- get ;;
    place_order "buy" (best_bid_price g) (INITIAL_QUANTITY cfg) false "long"
      "limit" ;;
    t <- time_time ;;
    modify (set_last_long_order_time t).

Definition initialize_short_orders : M GridCore unit :=
  current_time <- time_time ;;
  g <- get ;;
  if Qltb (current_time - last_short_order_time g) (ORDER_FIRST_TIME cfg)
  then ret tt
  else
    cancel_orders_for_side "short" ;;
    g <- get ;;
    place_order "sell" (best_ask_price g) (INITIAL_QUANTITY cfg) false "short"
      "limit" ;;
    t <- time_time ;;
    modify (set_last_short_order_time t).

Definition place_long_orders (latest_price' : Q) : M GridCore unit :=
  try_except
    (g <- get ;;
     modify (get_take_profit_quantity (long_position g) "long") ;;
     g <- get ;;
     if Qltb 0 (long_position g) then
       if Qltb (POSITION_THRESHOLD cfg) (long_position g) then
         if Qleb (sell_long_orders g) 0 then
           let ratio :=
             (long_position g / py_max (short_position g) 1) / 100 + 1 in
           let profit_price := latest_price g * ratio in
           place_take_profit_order "long" profit_price
             (long_initial_quantity g)
         else ret tt
       else
         modify (update_mid_price "long" latest_price') ;;
         cancel_orders_for_side "long" ;;
         g <- get ;;
         place_take_profit_order "long" (upper_price_long g)
           (long_initial_quantity g) ;;
         place_order "buy" (Some (lower_price_long g))
           (long_initial_quantity g) false "long" "limit"
     else ret tt)
    (ret tt).

Definition place_short_orders (latest_price' : Q) : M GridCore unit :=
  try_except
    (g <- get ;;
     modify (get_take_profit_quantity (short_position g) "short") ;;
     g <- get ;;
     if Qltb 0 (short_position g) then
       if Qltb (POSITION_THRESHOLD cfg) (short_position g) then
         if Qleb (buy_short_orders g) 0 then
           let ratio :=
             (short_position g / py_max (long_position g) 1) / 100 + 1 in
           let profit_price := latest_price g / ratio in
           place_take_profit_order "short" profit_price
             (short_initial_quantity g)
         else ret tt
       else
         modify (update_mid_price "short" latest_price') ;;
         cancel_orders_for_side "short" ;;
         g <- get ;;
         place_take_profit_order "short" (lower_price_short g)
           (short_initial_quantity g) ;;
         place_order "sell" (Some (upper_price_short g))
           (short_initial_quantity g) false "short" "limit"
     else ret tt)
    (ret tt).

Definition check_and_reduce_positions : M GridCore unit :=
  try_except
    (g <- get ;;
     if Qltb (POSITION_THRESHOLD cfg) (long_position g)
        && Qltb (POSITION_THRESHOLD cfg) (short_position g) then
       let reduce_quantity :=
         py_min (long_position g) (short_position g) * (5 # 10) in
       if Qltb 0 reduce_quantity then
         let aggressive_sell_price := latest_price g * (999 # 1000) in
         let aggressive_buy_price := latest_price g * (1001 # 1000) in
         place_order "sell" (Some aggressive_sell_price) reduce_quantity true
           "long" "limit" ;;
         place_order "buy" (Some aggressive_buy_price) reduce_quantity true
           "short" "limit"
       else ret tt
     else ret tt)
    (ret tt).

(** [0 < a <= b]. *)
Definition within (a b : Q) : bool := Qltb 0 a && Qleb a b.

Definition adjust_long : M GridCore unit :=
  g <- get ;;
  if Qeq_bool (long_position g) 0 then initialize_long_orders
  else
    let orders_valid :=
      negb (within (buy_long_orders g) (long_initial_quantity g))
      || negb (within (sell_long_orders g) (long_initial_quantity g)) in
    if orders_valid then
      if Qltb (long_position g) (POSITION_THRESHOLD cfg) then
        check_orders_status ;;
        if orders_valid then
          g <- get ;; place_long_orders (latest_price g)
        else ret tt
      else place_long_orders (latest_price g)
    else ret tt.

Definition adjust_short : M GridCore unit :=
  g <- get ;;
  if Qeq_bool (short_position g) 0 then initialize_short_orders
  else
    let orders_valid :=
      negb (within (sell_short_orders g) (short_initial_quantity g))
      || negb (within (buy_short_orders g) (short_initial_quantity g)) in
    if orders_valid then
      if Qltb (short_position g) (POSITION_THRESHOLD cfg) then
        check_orders_status ;;
        if orders_valid then
          g <- get ;; place_short_orders (latest_price g)
        else ret tt
      else place_short_orders (latest_price g)
    else ret tt.

(** The two halves of the method body are [adjust_long] ("检测多头持仓") and
    [adjust_short] ("检测空头持仓"). *)
Definition adjust_grid_strategy : M GridCore unit :=
  check_and_reduce_positions ;;
  adjust_long ;;
  adjust_short.

End WithConfig.

End GridCore.

(** ** extreme_market_protection.py *)

Module Protection.

Record KlineData := {
  timestamp : Q;
  open_price : Q;
  high_price : Q;
  low_price : Q;
  close_price : Q;
  volume : Q;
  direction : Direction;
  change_percent : Q
}.

Record MarketState := {
  ms_timestamp : Q;
  price : Q;
  trend_start_price : Q;
  trend_start_time : Q;
  trend_direction : Direction;
  trend_magnitude : Q;
  consecutive_klines : Z;
  atr_value : Q;
  is_extreme : bool;
  protection_triggered : bool
}.

Record ProtectionConfig := {
  extreme_threshold : Q;
  hibernation_hours : Q;
  atr_recovery_multiplier : Q;
  trend_detection_window : Z;
  min_trend_duration : Q;
  emergency_close_timeout : Q
}.

(** The dataclass defaults. *)
Definition default_config : ProtectionConfig := {|
  extreme_threshold := 11;
  hibernation_hours := 24;
  atr_recovery_multiplier := 15 # 10;
  trend_detection_window := 20;
  min_trend_duration := 3;
  emergency_close_timeout := 30
|}.

(** The attributes set in [ExtremeMarketProtection.__init__]; [self_config] is
    [self.config]. *)
Record ExtremeMarketProtection := {
  self_config : ProtectionConfig;
  kline_buffer : list KlineData;
  price_buffer : list (Q * Q);
  consecutive_trend_start_price : option Q;
  consecutive_trend_start_time : option Q;
  consecutive_trend_direction : Direction;
  consecutive_kline_count : Z;
  cumulative_change_percent : Q;
  current_trend_start_price : option Q;
  current_trend_start_time : option Q;
  current_trend_direction : Direction;
  protection_active : bool;
  hibernation_start_time : option Q;
  last_atr_values : list Q;
  baseline_atr : option Q
}.

(** Attribute assignment [self.<field> = v]. *)

Definition set_kline_buffer (v : list KlineData)
    (p : ExtremeMarketProtection) : ExtremeMarketProtection :=
  Build_ExtremeMarketProtection
    (self_config p) v (price_buffer p) (consecutive_trend_start_price p)
    (consecutive_trend_start_time p) (consecutive_trend_direction p)
    (consecutive_kline_count p) (cumulative_change_percent p)
    (current_trend_start_price p) (current_trend_start_time p)
    (current_trend_direction p) (protection_active p)
    (hibernation_start_time p) (last_atr_values p) (baseline_atr p).

Definition set_price_buffer (v : list (Q * Q))
    (p : ExtremeMarketProtection) : ExtremeMarketProtection :=
  Build_ExtremeMarketProtection
    (self_config p) (kline_buffer p) v (consecutive_trend_start_price p)
    (consecutive_trend_start_time p) (consecutive_trend_direction p)
    (consecutive_kline_count p) (cumulative_change_percent p)
    (current_trend_start_price p) (current_trend_start_time p)
    (current_trend_direction p) (protection_active p)
    (hibernation_start_time p) (last_atr_values p) (baseline_atr p).

Definition set_consecutive_trend_start_price (v : option Q)
    (p : ExtremeMarketProtection) : ExtremeMarketProtection :=
  Build_ExtremeMarketProtection
    (self_config p) (kline_buffer p) (price_buffer p) v
    (consecutive_trend_start_time p) (consecutive_trend_direction p)
    (consecutive_kline_count p) (cumulative_change_percent p)
    (current_trend_start_price p) (current_trend_start_time p)
    (current_trend_direction p) (protection_active p)
    (hibernation_start_time p) (last_atr_values p) (baseline_atr p).

Definition set_consecutive_trend_start_time (v : option Q)
    (p : ExtremeMarketProtection) : ExtremeMarketProtection :=
  Build_ExtremeMarketProtection
    (self_config p) (kline_buffer p) (price_buffer p)
    (consecutive_trend_start_price p) v (consecutive_trend_direction p)
    (consecutive_kline_count p) (cumulative_change_percent p)
    (current_trend_start_price p) (current_trend_start_time p)
    (current_trend_direction p) (protection_active p)
    (hibernation_start_time p) (last_atr_values p) (baseline_atr p).

Definition set_consecutive_trend_direction (v : Direction)
    (p : ExtremeMarketProtection) : ExtremeMarketProtection :=
  Build_ExtremeMarketProtection
    (self_config p) (kline_buffer p) (price_buffer p)
    (consecutive_trend_start_price p) (consecutive_trend_start_time p) v
    (consecutive_kline_count p) (cumulative_change_percent p)
    (current_trend_start_price p) (current_trend_start_time p)
    (current_trend_direction p) (protection_active p)
    (hibernation_start_time p) (last_atr_values p) (baseline_atr p).

Definition set_consecutive_kline_count (v : Z)
    (p : ExtremeMarketProtection) : ExtremeMarketProtection :=
  Build_ExtremeMarketProtection
    (self_config p) (kline_buffer p) (price_buffer p)
    (consecutive_trend_start_price p) (consecutive_trend_start_time p)
    (consecutive_trend_direction p) v (cumulative_change_percent p)
    (current_trend_start_price p) (current_trend_start_time p)
    (current_trend_direction p) (protection_active p)
    (hibernation_start_time p) (last_atr_values p) (baseline_atr p).

Definition set_cumulative_change_percent (v : Q)
    (p : ExtremeMarketProtection) : ExtremeMarketProtection :=
  Build_ExtremeMarketProtection
    (self_config p) (kline_buffer p) (price_buffer p)
    (consecutive_trend_start_price p) (consecutive_trend_start_time p)
    (consecutive_trend_direction p) (consecutive_kline_count p) v
    (current_trend_start_price p) (current_trend_start_time p)
    (current_trend_direction p) (protection_active p)
    (hibernation_start_time p) (last_atr_values p) (baseline_atr p).

Definition set_protection_active (v : bool)
    (p : ExtremeMarketProtection) : ExtremeMarketProtection :=
  Build_ExtremeMarketProtection
    (self_config p) (kline_buffer p) (price_buffer p)
    (consecutive_trend_start_price p) (consecutive_trend_start_time p)
    (consecutive_trend_direction p) (consecutive_kline_count p)
    (cumulative_change_percent p) (current_trend_start_price p)
    (current_trend_start_time p) (current_trend_direction p) v
    (hibernation_start_time p) (last_atr_values p) (baseline_atr p).

Definition set_hibernation_start_time (v : option Q)
    (p : ExtremeMarketProtection) : ExtremeMarketProtection :=
  Build_ExtremeMarketProtection
    (self_config p) (kline_buffer p) (price_buffer p)
    (consecutive_trend_start_price p) (consecutive_trend_start_time p)
    (consecutive_trend_direction p) (consecutive_kline_count p)
    (cumulative_change_percent p) (current_trend_start_price p)
    (current_trend_start_time p) (current_trend_direction p)
    (protection_active p) v (last_atr_values p) (baseline_atr p).

Definition set_last_atr_values (v : list Q)
    (p : ExtremeMarketProtection) : ExtremeMarketProtection :=
  Build_ExtremeMarketProtection
    (self_config p) (kline_buffer p) (price_buffer p)
    (consecutive_trend_start_price p) (consecutive_trend_start_time p)
    (consecutive_trend_direction p) (consecutive_kline_count p)
    (cumulative_change_percent p) (current_trend_start_price p)
    (current_trend_start_time p) (current_trend_direction p)
    (protection_active p) (hibernation_start_time p) v (baseline_atr p).

Definition set_baseline_atr (v : option Q)
    (p : ExtremeMarketProtection) : ExtremeMarketProtection :=
  Build_ExtremeMarketProtection
    (self_config p) (kline_buffer p) (price_buffer p)
    (consecutive_trend_start_price p) (consecutive_trend_start_time p)
    (consecutive_trend_direction p) (consecutive_kline_count p)
    (cumulative_change_percent p) (current_trend_start_price p)
    (current_trend_start_time p) (current_trend_direction p)
    (protection_active p) (hibernation_start_time p) (last_atr_values p) v.

Definition max_kline_buffer_size : nat := 168.
Definition max_buffer_size : nat := 100.

(** [ExtremeMarketProtection(config)] when no state file is found. *)
Definition init (c : ProtectionConfig) : ExtremeMarketProtection := {|
  self_config := c;
  kline_buffer := [];
  price_buffer := [];
  consecutive_trend_start_price := None;
  consecutive_trend_start_time := None;
  consecutive_trend_direction := neutral;
  consecutive_kline_count := 0;
  cumulative_change_percent := 0;
  current_trend_start_price := None;
  current_trend_start_time := None;
  current_trend_direction := neutral;
  protection_active := false;
  hibernation_start_time := None;
  last_atr_values := [];
  baseline_atr := None
|}.

Definition saved_state (p : ExtremeMarketProtection) (last_update : Q)
  : SavedState := {|
  sv_protection_active := protection_active p;
  sv_hibernation_start_time := hibernation_start_time p;
  sv_baseline_atr := baseline_atr p;
  sv_consecutive_trend_direction := consecutive_trend_direction p;
  sv_consecutive_kline_count := consecutive_kline_count p;
  sv_cumulative_change_percent := cumulative_change_percent p;
  sv_consecutive_trend_start_time := consecutive_trend_start_time p;
  sv_consecutive_trend_start_price := consecutive_trend_start_price p;
  sv_last_update := last_update
|}.

(** A failed write is logged and swallowed. *)
Definition _save_state : M ExtremeMarketProtection unit :=
  try_except
    (p <- get ;;
     t <- time_time ;;
     _ <- call (SaveState (saved_state p t)) ;;
     ret tt)
    (ret tt).

Definition _reset_consecutive_trend (p : ExtremeMarketProtection)
  : ExtremeMarketProtection :=
  let p := set_consecutive_trend_direction neutral p in
  let p := set_consecutive_trend_start_price None p in
  let p := set_consecutive_trend_start_time None p in
  let p := set_consecutive_kline_count 0%Z p in
  set_cumulative_change_percent 0 p.

Definition _detect_consecutive_trend (kline_data : KlineData)
    (p : ExtremeMarketProtection) : ExtremeMarketProtection :=
  let current_direction := direction kline_data in
  if Direction_eqb current_direction (consecutive_trend_direction p)
     && negb (Direction_eqb current_direction neutral) then
    let p := set_consecutive_kline_count (consecutive_kline_count p + 1)%Z p in
    match consecutive_trend_start_price p with
    | Some start =>
        if truthy start then
          let p := set_cumulative_change_percent
                     ((close_price kline_data - start) / start * 100) p in
          if Direction_eqb (consecutive_trend_direction p) down then
            set_cumulative_change_percent
              (Qabs (cumulative_change_percent p)) p
          else p
        else p
    | None => p
    end
  else if negb (Direction_eqb current_direction neutral)
          && negb (Direction_eqb current_direction
                     (consecutive_trend_direction p)) then
    let p := set_consecutive_trend_direction current_direction p in
    let p := set_consecutive_trend_start_price
               (Some (open_price kline_data)) p in
    let p := set_consecutive_trend_start_time
               (Some (timestamp kline_data)) p in
    let p := set_consecutive_kline_count 1%Z p in
    set_cumulative_change_percent (Qabs (change_percent kline_data)) p
  else if Direction_eqb current_direction neutral then
    _reset_consecutive_trend p
  else p.

(** [sum(l)] and [len(l)] as numbers. *)
Definition py_sum (l : list Q) : Q := fold_left Qplus l 0.
Definition py_len {A} (l : list A) : Q := inject_Z (Z.of_nat (List.length l)).

(** [l.append(x)] followed by [l.pop(0)] when the list is longer than [cap]. *)
Definition append_capped {A} (cap : nat) (l : list A) (x : A) : list A :=
  let l := l ++ [x] in
  if (cap <? List.length l)%nat then tl l else l.

(** The list built by the loop of [_calculate_atr]: [newest_first] is the
    price buffer read from its end, [n] the number of iterations. *)
Fixpoint true_ranges (newest_first : list Q) (n : nat) : list Q :=
  match n, newest_first with
  | S k, current_price :: ((previous_price :: _) as rest) =>
      Qabs (current_price - previous_price) :: true_ranges rest k
  | _, _ => []
  end.

(** Returns the ATR and updates [last_atr_values] and [baseline_atr]. *)
Definition _calculate_atr (period : nat) (p : ExtremeMarketProtection)
  : Q * ExtremeMarketProtection :=
  let n := List.length (price_buffer p) in
  if (n <? period + 1)%nat then (0, p)
  else
    let ranges :=
      true_ranges (rev (map snd (price_buffer p)))
        (Nat.min n (period + 1) - 1) in
    match ranges with
    | [] => (0, p)
    | _ =>
        let atr := py_sum ranges / py_len ranges in
        let p := set_last_atr_values
                   (append_capped 50 (last_atr_values p) atr) p in
        let p :=
          match baseline_atr p with
          | None =>
              if (20 <=? List.length (last_atr_values p))%nat then
                set_baseline_atr
                  (Some (py_sum (last_atr_values p)
                         / py_len (last_atr_values p))) p
              else p
          | Some _ => p
          end in
        (atr, p)
    end.

(** The direction of a bar from its percent change: beyond 0.1 either way, or
    neutral. *)
Definition bar_direction (change_percent' : Q) : Direction :=
  if Qltb (1 # 10) change_percent' then up
  else if Qltb change_percent' (- (1 # 10)) then down
  else neutral.

(** The [KlineData] that [update_kline_data] builds from its arguments. *)
Definition make_kline_data (current_time open_price' high_price' low_price'
    close_price' volume' : Q) : KlineData :=
  let change_percent' := (close_price' - open_price') / open_price' * 100 in
  {| timestamp := current_time;
     open_price := open_price';
     high_price := high_price';
     low_price := low_price';
     close_price := close_price';
     volume := volume';
     direction := bar_direction change_percent';
     change_percent := change_percent' |}.

(** [timestamp=None] means [datetime.now()].  A zero [open_price] raises
    [ZeroDivisionError] before anything is updated. *)
Definition update_kline_data (open_price' high_price' low_price' close_price'
    volume' : Q) (timestamp' : option Q)
  : M ExtremeMarketProtection MarketState :=
  current_time <-
    match timestamp' with Some t => ret t | None => time_time end ;;
  if Qeq_bool open_price' 0 then raise
  else
    let kline_data :=
      make_kline_data current_time open_price' high_price' low_price'
        close_price' volume' in
    modify (fun p =>
      set_kline_buffer
        (append_capped max_kline_buffer_size (kline_buffer p) kline_data) p) ;;
    modify (_detect_consecutive_trend kline_data) ;;
    modify (fun p =>
      set_price_buffer
        (append_capped max_buffer_size (price_buffer p)
           (current_time, close_price')) p) ;;
    p <- get ;;
    let '(atr_value', p) := _calculate_atr 14 p in
    modify (fun _ => p) ;;
    let is_extreme' :=
      Qleb (extreme_threshold (self_config p))
        (Qabs (cumulative_change_percent p)) in
    ret {|
      ms_timestamp := current_time;
      price := close_price';
      trend_start_price :=
        match consecutive_trend_start_price p with
        | Some x => if truthy x then x else close_price'
        | None => close_price'
        end;
      trend_start_time :=
        match consecutive_trend_start_time p with
        | Some t => t | None => current_time end;
      trend_direction := consecutive_trend_direction p;
      trend_magnitude := cumulative_change_percent p;
      consecutive_klines := consecutive_kline_count p;
      atr_value := atr_value';
      is_extreme := is_extreme';
      protection_triggered := protection_active p
    |}.

(** *** The emergency sequence

    [asyncio.gather] with [return_exceptions=True]: each task contributes
    its result or its exception, in the order of creation.  Here the tasks
    are run one after the other, each to its end.  That is what the event
    loop does with tasks that never suspend, such as the cancel tasks, and
    with a single task.  Two close tasks that both wait for a fill suspend
    in [asyncio.sleep], and the event loop then alternates between them:
    for that case the results, the requests each task makes and the
    attributes of [self] (the tasks touch none) are as given here, while
    the order in which the status polls of the two tasks reach the exchange
    and the readings of the clock are those of a run without overlap. *)
Fixpoint gather {S} (tasks : list (M S bool)) : M S (list (Outcome bool)) :=
  match tasks with
  | [] => ret []
  | task :: rest =>
      fun s w =>
        match task s w with
        | (r, s', w') =>
            match gather rest s' w' with
            | (Returned rs, s'', w'') => (Returned (r :: rs), s'', w'')
            | (Raised, s'', w'') => (Raised, s'', w'')
            end
        end
  end.

(** [sum(1 for r in results if r is True)]. *)
Definition success_count (results : list (Outcome bool)) : nat :=
  List.length
    (filter (fun r => match r with Returned true => true | _ => false end)
       results).

Definition _cancel_single_order {S} (order_id : string) : M S bool :=
  try_except
    (_ <- call (ExCancelOrder order_id) ;; ret true)
    (ret false).

Definition _cancel_all_orders {S} : M S bool :=
  try_except
    (r <- call GetOpenOrders ;;
     match r with
     | RNone | ROrders [] => ret true
     | ROrders open_orders =>
         results <-
           gather (map (fun order => _cancel_single_order (o_id order))
                     open_orders) ;;
         ret (success_count results =? List.length open_orders)%nat
     | _ => raise
     end)
    (ret false).

(** One pass of the [while] loop of [_wait_for_order_fill] per unit of
    [fuel]; every pass that does not return sleeps one second. *)
Fixpoint wait_loop {S} (fuel : nat) (order_id : option string)
    (start_time timeout : Q) : M S bool :=
  match fuel with
  | O => ret false
  | Datatypes.S fuel' =>
      t <- time_time ;;
      if Qltb (t - start_time) timeout then
        verdict <-
          try_except
            (r <- call (GetOrderStatus order_id) ;;
             match r with
             | RStatus status =>
                 if is_str status "filled" then ret (Some true)
                 else if is_str status "canceled" || is_str status "rejected"
                 then ret (Some false)
                 else sleep 1 ;; ret None
             | RNone => sleep 1 ;; ret None
             | _ => raise
             end)
            (sleep 1 ;; ret None) ;;
        match verdict with
        | Some b => ret b
        | None => wait_loop fuel' order_id start_time timeout
        end
      else ret false
  end.

(** Passes that the loop can make before the clock, advanced by one second
    per pass, reaches [timeout]. *)
Definition passes (timeout : Q) : nat := Datatypes.S (Z.to_nat (Qceiling timeout)).

Definition _wait_for_order_fill {S} (order_id : option string) (timeout : Q)
  : M S bool :=
  start_time <- time_time ;;
  wait_loop (passes timeout) order_id start_time timeout.

Definition _place_emergency_close_order (side : string) (quantity price' : Q)
    (position_side : string) : M ExtremeMarketProtection bool :=
  try_except
    (let aggressive_price :=
       if String.eqb side "sell" then price' * (995 # 1000)
       else price' * (1005 # 1000) in
     order_result <-
       call (ExPlaceOrder side aggressive_price quantity true position_side
               "limit") ;;
     match order_result with
     | ROrderResult id =>
         p <- get ;;
         _ <- _wait_for_order_fill id
                (emergency_close_timeout (self_config p)) ;;
         ret true
     | RNone => ret false
     | _ => raise
     end)
    (ret false).

(** [positions.get(key, 0)]. *)
Definition dict_get (v : option Q) : Q :=
  match v with Some q => q | None => 0 end.

Definition _emergency_close_all_positions (current_price : Q)
  : M ExtremeMarketProtection bool :=
  try_except
    (r <- call GetPosition ;;
     match r with
     | RNone => ret true
     | RPositionDict long short =>
         let long_position := dict_get long in
         let close_tasks :=
           if Qltb 0 long_position then
             [_place_emergency_close_order "sell" long_position current_price
                "long"]
           else [] in
         let short_position := dict_get short in
         let close_tasks :=
           if Qltb 0 short_position then
             close_tasks ++
             [_place_emergency_close_order "buy" short_position current_price
                "short"]
           else close_tasks in
         match close_tasks with
         | [] => ret true
         | _ =>
             results <- gather close_tasks ;;
             ret (success_count results =? List.length close_tasks)%nat
         end
     | _ => raise
     end)
    (ret false).

Definition _trigger_emergency_protection (market_state : MarketState)
  : M ExtremeMarketProtection bool :=
  try_except
    (cancel_success <- _cancel_all_orders ;;
     close_success <- _emergency_close_all_positions (price market_state) ;;
     if cancel_success && close_success then
       modify (set_protection_active true) ;;
       t <- time_time ;;
       modify (set_hibernation_start_time (Some t)) ;;
       _save_state ;;
       ret true
     else ret false)
    (ret false).

Definition _is_atr_recovered (current_atr : Q) (p : ExtremeMarketProtection)
  : bool :=
  match baseline_atr p with
  | None => false
  | Some baseline =>
      if negb (truthy baseline) || Qleb current_atr 0 then false
      else
        let recovery_threshold :=
          baseline * atr_recovery_multiplier (self_config p) in
        Qleb current_atr recovery_threshold
  end.

Definition _check_hibernation_end (market_state : MarketState)
  : M ExtremeMarketProtection bool :=
  p <- get ;;
  match hibernation_start_time p with
  | None => ret false
  | Some start =>
      t <- time_time ;;
      let hibernation_hours' := (t - start) / 3600 in
      if Qltb hibernation_hours' (hibernation_hours (self_config p)) then
        ret false
      else if _is_atr_recovered (atr_value market_state) p then
        modify (set_protection_active false) ;;
        modify (set_hibernation_start_time None) ;;
        _save_state ;;
        ret true
      else ret false
  end.

Definition check_extreme_protection (market_state : MarketState)
  : M ExtremeMarketProtection bool :=
  p <- get ;;
  if protection_active p then _check_hibernation_end market_state
  else if is_extreme market_state && negb (protection_active p) then
    if (0 <? consecutive_klines market_state)%Z then
      _trigger_emergency_protection market_state
    else
      (* [market_state.trend_start_time] is a datetime: always true *)
      let trend_duration :=
        (ms_timestamp market_state - trend_start_time market_state) / 60 in
      if Qleb (min_trend_duration (self_config p)) trend_duration then
        _trigger_emergency_protection market_state
      else ret false
  else ret false.

Definition is_protection_active (p : ExtremeMarketProtection) : bool :=
  protection_active p.

End Protection.

(** ** grid_strategy_XRP.py *)

Module Bot.

Import GridCore.

(** The attributes of [GridTradingBot] that the modelled methods use. *)
Record GridTradingBot := {
  grid_core : GridCore;
  is_sleeping : bool;
  sleep_start_time : Q
}.

Definition set_grid_core (v : GridCore) (b : GridTradingBot) : GridTradingBot :=
  {| grid_core := v; is_sleeping := is_sleeping b;
     sleep_start_time := sleep_start_time b |}.
Definition set_is_sleeping (v : bool) (b : GridTradingBot) : GridTradingBot :=
  {| grid_core := grid_core b; is_sleeping := v;
     sleep_start_time := sleep_start_time b |}.
Definition set_sleep_start_time (v : Q) (b : GridTradingBot) : GridTradingBot :=
  {| grid_core := grid_core b; is_sleeping := is_sleeping b;
     sleep_start_time := v |}.

(** [GridTradingBot()]. *)
Definition init : GridTradingBot :=
  {| grid_core := GridCore.init; is_sleeping := false; sleep_start_time := 0 |}.

(** [self.grid_core.<method>()] and [self.grid_core.<field> = ...]. *)
Definition on_grid {A} (m : M GridCore A) : M GridTradingBot A :=
  zoom grid_core set_grid_core m.
Definition modify_grid (f : GridCore -> GridCore) : M GridTradingBot unit :=
  modify (fun b => set_grid_core (f (grid_core b)) b).

Section WithConfig.

Variable cfg : Config.

(** The sleep check of [handle_ticker_update] ("检查是否处于休眠状态").  The
    result [true] means that the handler returns at once. *)
Definition check_sleeping (current_time : Q) (b : GridTradingBot)
  : bool * GridTradingBot :=
  if is_sleeping b then
    if Qltb (current_time - sleep_start_time b) (24 * 3600) then (true, b)
    else (false, set_sleep_start_time 0 (set_is_sleeping false b))
  else (false, b).

(** [long_pos, short_pos = self.exchange_interface.get_position()] followed by
    the two assignments, as in [run], [handle_order_update] and
    [handle_ticker_update]. *)
Definition reconcile_position : M GridTradingBot unit :=
  pos <- get_position cfg ;;
  let '(long_pos, short_pos) := pos in
  modify_grid (set_long_position long_pos) ;;
  modify_grid (set_short_position short_pos).

(** The periodic position sync of [handle_ticker_update] ("定期同步持仓"). *)
Definition sync_position (current_time : Q) : M GridTradingBot unit :=
  b <- get ;;
  if Qltb 30 (current_time - last_position_update_time (grid_core b)) then
    reconcile_position ;;
    modify_grid (set_last_position_update_time current_time)
  else ret tt.

(** The cancellation loop of [trigger_emergency_protection]: a failure is
    logged and the loop goes on. *)
Fixpoint cancel_all (orders : list Order) : M GridTradingBot unit :=
  match orders with
  | [] => ret tt
  | order :: rest =>
      try_except (cancel_order (o_id order)) (ret tt) ;;
      cancel_all rest
  end.

Definition trigger_emergency_protection : M GridTradingBot unit :=
  try_except
    (current_time <- time_time ;;
     try_except
       (orders <- fetch_open_orders ;;
        cancel_all orders)
       (ret tt) ;;
     try_except
       (pos <- get_position cfg ;;
        let '(long_pos, short_pos) := pos in
        (if Qltb 0 long_pos then
           place_order "sell" (Some 0) long_pos true "long" "limit"
         else ret tt) ;;
        (if Qltb 0 short_pos then
           place_order "buy" (Some 0) short_pos true "short" "limit"
         else ret tt))
       (ret tt) ;;
     modify (set_is_sleeping true) ;;
     modify (set_sleep_start_time current_time) ;;
     modify_grid (set_buy_long_orders 0) ;;
     modify_grid (set_sell_long_orders 0) ;;
     modify_grid (set_sell_short_orders 0) ;;
     modify_grid (set_buy_short_orders 0) ;;
     modify_grid (set_long_position 0) ;;
     modify_grid (set_short_position 0))
    (ret tt).

Definition _update_pending_orders (side position_side : option string)
    (quantity : Q) (action : string) (g : GridCore) : GridCore :=
  if String.eqb action "add" then
    if is_str side "BUY" && is_str position_side "LONG" then
      set_buy_long_orders (buy_long_orders g + quantity) g
    else if is_str side "SELL" && is_str position_side "LONG" then
      set_sell_long_orders (sell_long_orders g + quantity) g
    else if is_str side "BUY" && is_str position_side "SHORT" then
      set_buy_short_orders (buy_short_orders g + quantity) g
    else if is_str side "SELL" && is_str position_side "SHORT" then
      set_sell_short_orders (sell_short_orders g + quantity) g
    else g
  else if String.eqb action "remove" then
    if is_str side "BUY" && is_str position_side "LONG" then
      set_buy_long_orders (py_max 0 (buy_long_orders g - quantity)) g
    else if is_str side "SELL" && is_str position_side "LONG" then
      set_sell_long_orders (py_max 0 (sell_long_orders g - quantity)) g
    else if is_str side "BUY" && is_str position_side "SHORT" then
      set_buy_short_orders (py_max 0 (buy_short_orders g - quantity)) g
    else if is_str side "SELL" && is_str position_side "SHORT" then
      set_sell_short_orders (py_max 0 (sell_short_orders g - quantity)) g
    else g
  else g.

Definition _update_position_and_orders (side position_side : option string)
    (filled_quantity : Q) (g : GridCore) : GridCore :=
  if is_str side "BUY" then
    if is_str position_side "LONG" then
      let g := set_long_position (long_position g + filled_quantity) g in
      set_buy_long_orders (py_max 0 (buy_long_orders g - filled_quantity)) g
    else if is_str position_side "SHORT" then
      let g := set_short_position
                 (py_max 0 (short_position g - filled_quantity)) g in
      set_buy_short_orders (py_max 0 (buy_short_orders g - filled_quantity)) g
    else g
  else if is_str side "SELL" then
    if is_str position_side "LONG" then
      let g := set_long_position
                 (py_max 0 (long_position g - filled_quantity)) g in
      set_sell_long_orders (py_max 0 (sell_long_orders g - filled_quantity)) g
    else if is_str position_side "SHORT" then
      let g := set_short_position (short_position g + filled_quantity) g in
      set_sell_short_orders
        (py_max 0 (sell_short_orders g - filled_quantity)) g
    else g
  else g.

(** The fields read from the ["o"] object of an ORDER_TRADE_UPDATE message:
    ["s"], ["S"], ["ps"], ["X"], ["q"], ["z"]. *)
Record OrderUpdate := {
  symbol : option string;
  side : option string;
  position_side : option string;
  order_status : option string;
  quantity : Q;
  filled : Q
}.

Definition handle_order_update (u : OrderUpdate) : M GridTradingBot unit :=
  try_except
    (let remaining := quantity u - filled u in
     let expected_symbol := (COIN_NAME cfg ++ CONTRACT_TYPE cfg)%string in
     if negb (is_str (symbol u) expected_symbol) then ret tt
     else
       (if is_str (order_status u) "NEW" then
          modify_grid
            (_update_pending_orders (side u) (position_side u) remaining "add")
        else if is_str (order_status u) "FILLED" then
          modify_grid
            (_update_position_and_orders (side u) (position_side u) (filled u))
        else if is_str (order_status u) "CANCELED"
                || is_str (order_status u) "EXPIRED" then
          modify_grid
            (_update_pending_orders (side u) (position_side u) remaining
               "remove")
        else ret tt) ;;
       if is_str (order_status u) "FILLED"
          || is_str (order_status u) "CANCELED"
          || is_str (order_status u) "EXPIRED" then
         on_grid check_orders_status ;;
         if is_str (order_status u) "FILLED" then reconcile_position
         else ret tt
       else ret tt)
    (ret tt).

(** The steps of the event loop that touch the positions: an order update
    from the stream, the timer-gated position sync of a ticker update, the
    grid adjustment pass that ends a ticker update, and the emergency
    routine.  Each runs inside the [try] of its handler. *)
Inductive Event :=
| OrderUpdateEvent (u : OrderUpdate)
| PositionSyncEvent (current_time : Q)
| AdjustEvent
| EmergencyEvent.

Definition handle (e : Event) : M GridTradingBot unit :=
  match e with
  | OrderUpdateEvent u => handle_order_update u
  | PositionSyncEvent current_time =>
      try_except (sync_position current_time) (ret tt)
  | AdjustEvent => try_except (on_grid (adjust_grid_strategy cfg)) (ret tt)
  | EmergencyEvent => trigger_emergency_protection
  end.

Fixpoint run_events (events : list Event) : M GridTradingBot unit :=
  match events with
  | [] => ret tt
  | e :: rest => handle e ;; run_events rest
  end.

End WithConfig.

End Bot.

(** ** Conditions named by the statements below *)

Module Conditions.

Import Protection.

(** The hibernation has lasted at least [hibernation_hours]. *)
Definition hibernation_elapsed (p : ExtremeMarketProtection) (w : World)
  : Prop :=
  exists start,
    hibernation_start_time p = Some start
    /\ hibernation_hours (self_config p) <= (now w - start) / 3600.

(** The current ATR is at most baseline x [atr_recovery_multiplier]. *)
Definition volatility_recovered (ms : MarketState)
    (p : ExtremeMarketProtection) : Prop :=
  exists baseline,
    baseline_atr p = Some baseline
    /\ atr_value ms <= baseline * atr_recovery_multiplier (self_config p).

(** The total of [abs(origQty)] over the open orders with the given order
    side and position side. *)
Definition quantity_of (side position_side : string) (orders : list Order)
  : Q :=
  py_sum
    (map (fun order => Qabs (o_origQty order))
       (filter (fun order =>
                  is_str (o_side order) side
                  && is_str (o_positionSide order) position_side)
          orders)).

(** The classification in the words of the specification, which sorts each
    order on (side, position side, reduce-only flag): an entry order is not
    reduce-only, has the matching position side and the side's own direction;
    a take-profit order is reduce-only, has the matching position side and
    the opposite direction.  The four counters are buy-long (entry),
    sell-long (take-profit), sell-short (entry) and buy-short
    (take-profit). *)
Definition spec_count_order (c : GridCore.Counters) (order : Order)
  : GridCore.Counters :=
  let q := Qabs (o_origQty order) in
  let is_long := is_str (o_positionSide order) "LONG" in
  let is_short := is_str (o_positionSide order) "SHORT" in
  let buy := is_str (o_side order) "buy" in
  let sell := is_str (o_side order) "sell" in
  let reduce_only := o_reduceOnly order in
  {| GridCore.c_buy_long_orders :=
       GridCore.c_buy_long_orders c
       + (if buy && is_long && negb reduce_only then q else 0);
     GridCore.c_sell_long_orders :=
       GridCore.c_sell_long_orders c
       + (if sell && is_long && reduce_only then q else 0);
     GridCore.c_buy_short_orders :=
       GridCore.c_buy_short_orders c
       + (if buy && is_short && reduce_only then q else 0);
     GridCore.c_sell_short_orders :=
       GridCore.c_sell_short_orders c
       + (if sell && is_short && negb reduce_only then q else 0) |}.

Definition spec_count_orders (orders : list Order) : GridCore.Counters :=
  fold_left spec_count_order orders GridCore.zero_counters.

(** A replenishment (or entry) order for [position_side]: a [place_order]
    request that is not reduce-only. *)
Definition replenishes (position_side : string) (c : Call) : bool :=
  match c with
  | PlaceOrder _ _ _ false position_side' _ =>
      String.eqb position_side' position_side
  | _ => false
  end.

(** Any request that places an order for [position_side]. *)
Definition places_order_for (position_side : string) (c : Call) : bool :=
  match c with
  | PlaceOrder _ _ _ _ position_side' _ =>
      String.eqb position_side' position_side
  | PlaceTakeProfitOrder position_side' _ _ =>
      String.eqb position_side' position_side
  | _ => false
  end.

(** The position of a side, and the half of the adjustment pass that deals
    with it. *)
Definition position_of (position_side : string) (g : GridCore.GridCore) : Q :=
  if String.eqb position_side "long" then GridCore.long_position g
  else GridCore.short_position g.

Definition adjust_side (cfg : Config) (position_side : string)
  : M GridCore.GridCore unit :=
  if String.eqb position_side "long" then GridCore.adjust_long cfg
  else GridCore.adjust_short cfg.

(** Both positions are as given. *)
Definition positions_are (long short : Q) (g : GridCore.GridCore) : Prop :=
  GridCore.long_position g = long /\ GridCore.short_position g = short.




End Conditions.

(** ** Reasoning about methods *)

Module ProgramLogic.

(** [quiet m]: [m] changes no attribute (it may talk to the outside and it
    may raise). *)
Definition quiet {S A} (m : M S A) : Prop :=
  forall s w, exists r w', m s w = (r, s, w').

(** [reports m]: [m] changes no attribute and always returns a value. *)
Definition reports {S A} (m : M S A) : Prop :=
  forall s w, exists a w', m s w = (Returned a, s, w').

(** [hoare O I P m]: run from a state satisfying [I], in a world whose oracle
    satisfies [O], [m] ends in a state satisfying [I], leaves the oracle as
    it was, and every request it adds to the trace satisfies [P]. *)
Definition hoare {S A} (O : (nat -> Reply) -> Prop) (I : S -> Prop)
    (P : Call -> Prop) (m : M S A) : Prop :=
  forall s w, O (oracle w) -> I s ->
    match m s w with
    | (_, s', w') =>
        I s' /\ oracle w' = oracle w
        /\ exists new, trace w' = trace w ++ new /\ Forall P new
    end.

End ProgramLogic.


(** ** Conditions on the exchange named by further statements *)

Module Exchange.

(** No request ever raises. *)
Definition never_raises (o : nat -> Reply) : Prop :=
  forall n, o n <> RRaise.

(** The reply to the [k]-th request made from now on. *)
Definition reply_at (w : World) (k : nat) : Reply :=
  oracle w (List.length (trace w) + k).

(** The world after the requests [new] have been made. *)
Definition after_requests (w : World) (new : list Call) : World :=
  {| oracle := oracle w; trace := trace w ++ new; now := now w |}.

(** The ids that [cancel_orders_for_side] asks to cancel, in order. *)
Definition cancel_targets (position_side : string) (orders : list Order)
  : list string :=
  map o_id (filter (GridCore.cancels position_side) orders).

End Exchange.


(** ** Order roles named by further statements *)

Module Roles.

(** The role test of [cancel_orders_for_side], spelled out: an open order
    belongs to a side when it carries the side's position side and is either
    the side's entry order (not reduce-only, the side's own direction) or its
    take-profit order (reduce-only, the opposite direction). *)
Definition belongs_to (position_side : string) (order : Order) : Prop :=
  if String.eqb position_side "long" then
    o_positionSide order = Some "LONG"%string
    /\ ((o_reduceOnly order = false /\ o_side order = Some "buy"%string)
        \/ (o_reduceOnly order = true /\ o_side order = Some "sell"%string))
  else if String.eqb position_side "short" then
    o_positionSide order = Some "SHORT"%string
    /\ ((o_reduceOnly order = false /\ o_side order = Some "sell"%string)
        \/ (o_reduceOnly order = true /\ o_side order = Some "buy"%string))
  else False.

End Roles.


(** ** Quantities and requests named by further statements *)

Module GridRequests.

Import GridCore.

(** The order size for a position: the base quantity, doubled above
    POSITION_LIMIT, and never more than the position. *)
Definition sized_quantity (cfg : Config) (position : Q) : Q :=
  if Qltb (POSITION_LIMIT cfg) position
  then Qmin position (INITIAL_QUANTITY cfg * 2)
  else Qmin position (INITIAL_QUANTITY cfg).

(** Both pending-order counters of a side look consistent: each lies in
    (0, quantity]. *)
Definition counters_consistent (entry take_profit quantity' : Q) : Prop :=
  0 < entry /\ entry <= quantity'
  /\ 0 < take_profit /\ take_profit <= quantity'.

(** The two orders of the risk valve. *)
Definition valve_sell (g : GridCore) : Call :=
  PlaceOrder "sell" (Some (latest_price g * (999 # 1000)))
    (Qmin (long_position g) (short_position g) * (5 # 10)) true "long"
    "limit".

Definition valve_buy (g : GridCore) : Call :=
  PlaceOrder "buy" (Some (latest_price g * (1001 # 1000)))
    (Qmin (long_position g) (short_position g) * (5 # 10)) true "short"
    "limit".

(** The risk valve fires: both positions exceed POSITION_THRESHOLD (and half
    the smaller one is positive). *)
Definition valve_fires (cfg : Config) (g : GridCore) : Prop :=
  POSITION_THRESHOLD cfg < long_position g
  /\ POSITION_THRESHOLD cfg < short_position g
  /\ 0 < Qmin (long_position g) (short_position g) * (5 # 10).

(** The valve's reduce-only close of a side. *)
Definition valve_close (position_side : string) (g : GridCore) : Call :=
  if String.eqb position_side "long" then valve_sell g else valve_buy g.

End GridRequests.


(** ** Bar sequences and state shapes named by further statements *)

Module KlineFeed.

Import Protection.

(** The arguments of one call of [update_kline_data]. *)
Record Bar := {
  bar_open : Q;
  bar_high : Q;
  bar_low : Q;
  bar_close : Q;
  bar_volume : Q;
  bar_timestamp : option Q
}.

Definition process_bar (b : Bar) : M ExtremeMarketProtection MarketState :=
  update_kline_data (bar_open b) (bar_high b) (bar_low b) (bar_close b)
    (bar_volume b) (bar_timestamp b).

(** A caller feeding bars one after the other, going on after a bar that
    raised. *)
Fixpoint feed (bars : list Bar) : M ExtremeMarketProtection unit :=
  match bars with
  | [] => ret tt
  | b :: rest =>
      try_except (_ <- process_bar b ;; ret tt) (ret tt) ;;
      feed rest
  end.

(** The state once an accepted bar has been stored and classified, before
    the ATR bookkeeping, and the state that the bar leaves. *)
Definition with_bar (current_time : Q) (b : Bar)
    (p : ExtremeMarketProtection) : ExtremeMarketProtection :=
  let kline_data :=
    make_kline_data current_time (bar_open b) (bar_high b) (bar_low b)
      (bar_close b) (bar_volume b) in
  let p := set_kline_buffer
             (append_capped max_kline_buffer_size (kline_buffer p) kline_data)
             p in
  let p := _detect_consecutive_trend kline_data p in
  set_price_buffer
    (append_capped max_buffer_size (price_buffer p)
       (current_time, bar_close b)) p.

Definition after_bar (current_time : Q) (b : Bar)
    (p : ExtremeMarketProtection) : ExtremeMarketProtection :=
  snd (_calculate_atr 14 (with_bar current_time b p)).

(** The three buffers are within their capacities. *)
Definition buffers_bounded (p : ExtremeMarketProtection) : Prop :=
  (List.length (kline_buffer p) <= max_kline_buffer_size)%nat
  /\ (List.length (price_buffer p) <= max_buffer_size)%nat
  /\ (List.length (last_atr_values p) <= 50)%nat.

(** The shape of the run state: no run (neutral, no bars, no move, no start)
    or a run of at least one bar with a non-zero start price; the move of a
    down-run is a magnitude. *)
Definition run_well_formed (p : ExtremeMarketProtection) : Prop :=
  match consecutive_trend_direction p with
  | neutral =>
      consecutive_kline_count p = 0%Z
      /\ cumulative_change_percent p = 0
      /\ consecutive_trend_start_price p = None
      /\ consecutive_trend_start_time p = None
  | up =>
      (1 <= consecutive_kline_count p)%Z
      /\ exists start,
           consecutive_trend_start_price p = Some start /\ ~ start == 0
  | down =>
      (1 <= consecutive_kline_count p)%Z
      /\ 0 <= cumulative_change_percent p
      /\ exists start,
           consecutive_trend_start_price p = Some start /\ ~ start == 0
  end.

End KlineFeed.


(** ** Replies and requests of the emergency sequence named by further
    statements *)

Module Emergency.

(** The reply stands for an exception. *)
Definition is_raise (r : Reply) : bool :=
  match r with RRaise => true | _ => false end.

(** The requests that the emergency sequence of the protection machine may
    make: listing and cancelling open orders, reading the positions, polling
    an order, writing the state file, and reduce-only limit orders of a
    positive quantity that sell the long side or buy the short side. *)
Definition emergency_request (c : Call) : Prop :=
  match c with
  | GetOpenOrders | ExCancelOrder _ | GetPosition | GetOrderStatus _
  | SaveState _ => True
  | ExPlaceOrder side _ quantity is_reduce_only position_side order_type =>
      is_reduce_only = true
      /\ order_type = "limit"%string
      /\ 0 < quantity
      /\ ((side = "sell"%string /\ position_side = "long"%string)
          \/ (side = "buy"%string /\ position_side = "short"%string))
  | _ => False
  end.

End Emergency.


(** ** extreme_market_protection.py: the state file *)

Module StateFile.

Import Protection.

(** The value found under a timestamp key of the state file: nothing that
    counts (key missing, [null] or the empty string), a string that
    [datetime.fromisoformat] rejects, or the [isoformat()] of an instant. *)
Inductive IsoString :=
| NoString
| NotIso
| Iso (t : Q).

(** The keys of the state file that [_load_state] reads; [None] is a missing
    key for the keys read with a default, and a missing key or [null] for
    the others.  (["last_update"] is written but never read.) *)
Record JsonState := {
  js_protection_active : option bool;
  js_hibernation_start_time : IsoString;
  js_baseline_atr : option Q;
  js_consecutive_trend_direction : option Direction;
  js_consecutive_kline_count : option Z;
  js_cumulative_change_percent : option Q;
  js_consecutive_trend_start_time : IsoString;
  js_consecutive_trend_start_price : option Q
}.

(** What [open] and [json.load] find. *)
Inductive FileContent :=
| Missing
| NotJson
| Json (state : JsonState).

(** [x.isoformat() if x else None]. *)
Definition isoformat (x : option Q) : IsoString :=
  match x with Some t => Iso t | None => NoString end.

(** The file that [json.dump] leaves for the dictionary built by
    [_save_state]. *)
Definition json_dump (s : SavedState) : JsonState := {|
  js_protection_active := Some (sv_protection_active s);
  js_hibernation_start_time := isoformat (sv_hibernation_start_time s);
  js_baseline_atr := sv_baseline_atr s;
  js_consecutive_trend_direction := Some (sv_consecutive_trend_direction s);
  js_consecutive_kline_count := Some (sv_consecutive_kline_count s);
  js_cumulative_change_percent := Some (sv_cumulative_change_percent s);
  js_consecutive_trend_start_time :=
    isoformat (sv_consecutive_trend_start_time s);
  js_consecutive_trend_start_price := sv_consecutive_trend_start_price s
|}.

(** [state.get(key, default)]. *)
Definition get_or {A} (v : option A) (default : A) : A :=
  match v with Some x => x | None => default end.

Definition fromisoformat {S} (s : IsoString) : M S Q :=
  match s with
  | Iso t => ret t
  | _ => raise
  end.

(** Both [except] clauses only log: what was assigned before the exception
    stays assigned. *)
Definition _load_state (file : FileContent) : M ExtremeMarketProtection unit :=
  try_except
    (state <- match file with
              | Json state => ret state
              | _ => raise
              end ;;
     modify (set_protection_active
               (get_or (js_protection_active state) false)) ;;
     match js_hibernation_start_time state with
     | NoString => ret tt
     | hibernation_start =>
         t <- fromisoformat hibernation_start ;;
         modify (set_hibernation_start_time (Some t))
     end ;;
     modify (set_baseline_atr (js_baseline_atr state)) ;;
     modify (set_consecutive_trend_direction
               (get_or (js_consecutive_trend_direction state) neutral)) ;;
     modify (set_consecutive_kline_count
               (get_or (js_consecutive_kline_count state) 0%Z)) ;;
     modify (set_cumulative_change_percent
               (get_or (js_cumulative_change_percent state) 0)) ;;
     match js_consecutive_trend_start_time state with
     | NoString => ret tt
     | start_time =>
         t <- fromisoformat start_time ;;
         modify (set_consecutive_trend_start_time (Some t))
     end ;;
     modify (set_consecutive_trend_start_price
               (js_consecutive_trend_start_price state)))
    (ret tt).

(** [ExtremeMarketProtection(config)] with the state file [file] on disk. *)
Definition construct (c : ProtectionConfig) (file : FileContent)
  : ExtremeMarketProtection :=
  let w := {| oracle := fun _ => RNone; trace := []; now := 0 |} in
  snd (fst (_load_state file (Protection.init c) w)).

End StateFile.


(** ** extreme_market_protection.py: the real-time price mode *)

Module Realtime.

Import Protection.

Definition set_current_trend_start_price (v : option Q)
    (p : ExtremeMarketProtection) : ExtremeMarketProtection :=
  Build_ExtremeMarketProtection
    (self_config p) (kline_buffer p) (price_buffer p)
    (consecutive_trend_start_price p) (consecutive_trend_start_time p)
    (consecutive_trend_direction p) (consecutive_kline_count p)
    (cumulative_change_percent p) v (current_trend_start_time p)
    (current_trend_direction p) (protection_active p)
    (hibernation_start_time p) (last_atr_values p) (baseline_atr p).

Definition set_current_trend_start_time (v : option Q)
    (p : ExtremeMarketProtection) : ExtremeMarketProtection :=
  Build_ExtremeMarketProtection
    (self_config p) (kline_buffer p) (price_buffer p)
    (consecutive_trend_start_price p) (consecutive_trend_start_time p)
    (consecutive_trend_direction p) (consecutive_kline_count p)
    (cumulative_change_percent p) (current_trend_start_price p) v
    (current_trend_direction p) (protection_active p)
    (hibernation_start_time p) (last_atr_values p) (baseline_atr p).

Definition set_current_trend_direction (v : Direction)
    (p : ExtremeMarketProtection) : ExtremeMarketProtection :=
  Build_ExtremeMarketProtection
    (self_config p) (kline_buffer p) (price_buffer p)
    (consecutive_trend_start_price p) (consecutive_trend_start_time p)
    (consecutive_trend_direction p) (consecutive_kline_count p)
    (cumulative_change_percent p) (current_trend_start_price p)
    (current_trend_start_time p) v (protection_active p)
    (hibernation_start_time p) (last_atr_values p) (baseline_atr p).

(** [l[-n:]] for an integer [n]: the last [n] items for a positive [n], the
    whole list for 0, and [l[k:]] with [k = -n] for a negative [n]. *)
Definition py_slice_last {A} (n : Z) (l : list A) : list A :=
  if (0 <? n)%Z then skipn (List.length l - Z.to_nat n) l
  else skipn (Z.to_nat (- n)) l.

(** [max] and [min] of a non-empty list; the first of equal items wins. *)
Definition py_max_list (first : Q) (rest : list Q) : Q :=
  fold_left py_max rest first.
Definition py_min_list (first : Q) (rest : list Q) : Q :=
  fold_left py_min rest first.

(** The direction of the current price against the middle of the window. *)
Definition window_direction (window_mid current_price : Q) : Direction :=
  if Qltb (window_mid * (102 # 100)) current_price then up
  else if Qltb current_price (window_mid * (98 # 100)) then down
  else neutral.

(** The dictionary returned is not used by the caller; [max] of an empty
    window raises [ValueError]. *)
Definition _detect_trend_change (current_price current_time : Q)
  : M ExtremeMarketProtection unit :=
  p <- get ;;
  let window := trend_detection_window (self_config p) in
  if (Z.of_nat (List.length (price_buffer p)) <? window)%Z then ret tt
  else
    let recent_prices := map snd (py_slice_last window (price_buffer p)) in
    match recent_prices with
    | [] => raise
    | first :: rest =>
        let window_high := py_max_list first rest in
        let window_low := py_min_list first rest in
        let window_mid := (window_high + window_low) / 2 in
        let new_direction := window_direction window_mid current_price in
        if negb (Direction_eqb new_direction (current_trend_direction p))
           && negb (Direction_eqb new_direction neutral) then
          modify (set_current_trend_direction new_direction) ;;
          modify (set_current_trend_start_price (Some current_price)) ;;
          modify (set_current_trend_start_time (Some current_time))
        else ret tt
    end.

(** The move of [price] against the start of the current trend, in
    percent; the move of a down trend is taken as a magnitude. *)
Definition current_trend_magnitude (price' : Q)
    (p : ExtremeMarketProtection) : Q :=
  match current_trend_start_price p with
  | Some start =>
      if truthy start
         && negb (Direction_eqb (current_trend_direction p) neutral) then
        let trend_magnitude := (price' - start) / start * 100 in
        if Direction_eqb (current_trend_direction p) down
        then Qabs trend_magnitude else trend_magnitude
      else 0
  | None => 0
  end.

(** [update_market_data(price, volume=None)]; [volume] is not used. *)
Definition update_market_data (price' : Q)
  : M ExtremeMarketProtection MarketState :=
  current_time <- time_time ;;
  modify (fun p =>
    set_price_buffer
      (append_capped max_buffer_size (price_buffer p) (current_time, price'))
      p) ;;
  p <- get ;;
  let '(atr_value', p) := _calculate_atr 14 p in
  modify (fun _ => p) ;;
  _detect_trend_change price' current_time ;;
  p <- get ;;
  let trend_magnitude' := current_trend_magnitude price' p in
  let is_extreme' :=
    Qleb (extreme_threshold (self_config p)) (Qabs trend_magnitude') in
  ret {|
    ms_timestamp := current_time;
    price := price';
    trend_start_price :=
      match current_trend_start_price p with
      | Some x => if truthy x then x else price'
      | None => price'
      end;
    trend_start_time :=
      match current_trend_start_time p with
      | Some t => t | None => current_time end;
    trend_direction := current_trend_direction p;
    trend_magnitude := trend_magnitude';
    consecutive_klines := 0%Z;
    atr_value := atr_value';
    is_extreme := is_extreme';
    protection_triggered := protection_active p
  |}.

Definition force_reset_protection : M ExtremeMarketProtection unit :=
  modify (set_protection_active false) ;;
  modify (set_hibernation_start_time None) ;;
  modify (set_current_trend_direction neutral) ;;
  modify (set_current_trend_start_price None) ;;
  modify (set_current_trend_start_time None) ;;
  _save_state.

End Realtime.


(** ** exchange_interface.py: the price cache *)

Module PriceCache.

(** The price attributes of [ExchangeInterface]. *)
Record ExchangeInterface := {
  websocket_price : option Q;
  last_valid_price : option Q;
  last_price_update_time : Q
}.

(** [ExchangeInterface()]. *)
Definition init : ExchangeInterface :=
  {| websocket_price := None; last_valid_price := None;
     last_price_update_time := 0 |}.

Definition set_websocket_price (v : option Q) (e : ExchangeInterface)
  : ExchangeInterface :=
  {| websocket_price := v; last_valid_price := last_valid_price e;
     last_price_update_time := last_price_update_time e |}.
Definition set_last_valid_price (v : option Q) (e : ExchangeInterface)
  : ExchangeInterface :=
  {| websocket_price := websocket_price e; last_valid_price := v;
     last_price_update_time := last_price_update_time e |}.
Definition set_last_price_update_time (v : Q) (e : ExchangeInterface)
  : ExchangeInterface :=
  {| websocket_price := websocket_price e;
     last_valid_price := last_valid_price e;
     last_price_update_time := v |}.

Definition _validate_price (price' : option Q) (e : ExchangeInterface)
  : bool :=
  match price' with
  | None => false
  | Some price' =>
      if Qleb price' 0 then false
      else
        match last_valid_price e with
        | Some last =>
            if truthy last then
              let change_ratio := Qabs (price' - last) / last in
              if Qltb (1 # 10) change_ratio then false else true
            else true
        | None => true
        end
  end.

Definition update_price_cache (price' : option Q) : M ExchangeInterface unit :=
  e <- get ;;
  if _validate_price price' e then
    modify (set_last_valid_price price') ;;
    t <- time_time ;;
    modify (set_last_price_update_time t)
  else ret tt.

Definition update_websocket_price (price' : option Q)
  : M ExchangeInterface unit :=
  e <- get ;;
  if _validate_price price' e then
    modify (set_websocket_price price') ;;
    update_price_cache price'
  else ret tt.

(** The stream handing one mid price after the other to
    [update_websocket_price]. *)
Fixpoint stream (prices : list Q) : M ExchangeInterface unit :=
  match prices with
  | [] => ret tt
  | price' :: rest => update_websocket_price (Some price') ;; stream rest
  end.

(** [price'] is acceptable next to the cached price [last]: positive and
    within 10% of it. *)
Definition within_band (last price' : Q) : Prop :=
  0 < price' /\ Qabs (price' - last) <= last * (1 # 10).

End PriceCache.


(** ** The signal-driven grid adjustment
    (ema_adx_signal_module.py, grid_strategy_XRP.py, exchange_interface.py) *)

Module SignalAdjustment.

Import GridCore.

(** The numeric entries of the dictionary returned by
    [get_grid_adjustment_recommendation]. *)
Record Adjustment := {
  long_grid_spacing_multiplier : Q;
  short_grid_spacing_multiplier : Q;
  long_profit_spacing_multiplier : Q;
  short_profit_spacing_multiplier : Q
}.

(** [current_signal]: 1 strong up-trend, -1 strong down-trend, anything else
    ranging. *)
Definition get_grid_adjustment_recommendation (current_signal : Z)
  : Adjustment :=
  if (current_signal =? 1)%Z then
    {| long_grid_spacing_multiplier := 1;
       short_grid_spacing_multiplier := 2;
       long_profit_spacing_multiplier := 1;
       short_profit_spacing_multiplier := 2 |}
  else if (current_signal =? -1)%Z then
    {| long_grid_spacing_multiplier := 2;
       short_grid_spacing_multiplier := 1;
       long_profit_spacing_multiplier := 2;
       short_profit_spacing_multiplier := 1 |}
  else
    {| long_grid_spacing_multiplier := 1;
       short_grid_spacing_multiplier := 1;
       long_profit_spacing_multiplier := 1;
       short_profit_spacing_multiplier := 1 |}.

Definition set_spacings (long_grid short_grid long_profit short_profit : Q)
    (g : GridCore) : GridCore :=
  Build_GridCore
    (long_initial_quantity g) (short_initial_quantity g) (long_position g)
    (short_position g) (buy_long_orders g) (sell_long_orders g)
    (sell_short_orders g) (buy_short_orders g) (last_long_order_time g)
    (last_short_order_time g) (last_position_update_time g)
    (last_orders_update_time g) (latest_price g) (best_bid_price g)
    (best_ask_price g) (mid_price_long g) (lower_price_long g)
    (upper_price_long g) (mid_price_short g) (lower_price_short g)
    (upper_price_short g) long_grid short_grid long_profit short_profit.

(** [apply_grid_adjustment(adjustment)]: the four spacings of the grid core
    are multiplied in place. *)
Definition apply_grid_adjustment (adjustment : Adjustment) (g : GridCore)
  : GridCore :=
  let new_long_spacing :=
    long_grid_spacing g * long_grid_spacing_multiplier adjustment in
  let new_short_spacing :=
    short_grid_spacing g * short_grid_spacing_multiplier adjustment in
  let new_long_profit :=
    long_profit_spacing g * long_profit_spacing_multiplier adjustment in
  let new_short_profit :=
    short_profit_spacing g * short_profit_spacing_multiplier adjustment in
  set_spacings new_long_spacing new_short_spacing new_long_profit
    new_short_profit g.

(** A dictionary key: a name or a number. *)
Inductive Key :=
| KStr (s : string)
| KInt (i : Z).

Definition Key_eqb (a b : Key) : bool :=
  match a, b with
  | KStr s, KStr t => String.eqb s t
  | KInt i, KInt j => (i =? j)%Z
  | _, _ => false
  end.

(** A dictionary of numbers, in insertion order. *)
Definition Dict := list (Key * Q).

(** [d[k]] on a dictionary: [KeyError] when the key is missing. *)
Definition getitem {S} (d : Dict) (k : Key) : M S Q :=
  match find (fun entry => Key_eqb (fst entry) k) d with
  | Some entry => ret (snd entry)
  | None => raise
  end.

(** [l[i]] on a list, for [i >= 0]: [IndexError] out of range. *)
Definition index {S} (l : list Q) (i : nat) : M S Q :=
  match nth_error l i with
  | Some x => ret x
  | None => raise
  end.

(** [out = []; for x in xs: out.append(f(x))]. *)
Fixpoint for_each {S A B} (f : A -> M S B) (xs : list A) : M S (list B) :=
  match xs with
  | [] => ret []
  | x :: rest => y <- f x ;; ys <- for_each f rest ;; ret (y :: ys)
  end.

(** The dictionary that [get_klines] builds from one candle. *)
Definition kline_of_candle {S} (candle : list Q) : M S Dict :=
  timestamp' <- index candle 0 ;;
  open' <- index candle 1 ;;
  high' <- index candle 2 ;;
  low' <- index candle 3 ;;
  close' <- index candle 4 ;;
  volume' <- index candle 5 ;;
  ret [ (KStr "timestamp", timestamp'); (KStr "open", open');
        (KStr "high", high'); (KStr "low", low'); (KStr "close", close');
        (KStr "volume", volume') ].

(** exchange_interface.py, [get_klines].  [ohlcv] is what
    [self.exchange.fetch_ohlcv(symbol, timeframe, limit=limit)] does: it
    returns a list of candles, each a list of numbers, or raises. *)
Definition get_klines {S} (ohlcv : Outcome (list (list Q)))
  : M S (list Dict) :=
  try_except
    (candles <- match ohlcv with
                | Returned candles => ret candles
                | Raised => raise
                end ;;
     for_each kline_of_candle candles)
    (ret []).

(** A dictionary without numeric keys. *)
Definition name_keyed (d : Dict) : Prop :=
  forall i, find (fun entry => Key_eqb (fst entry) (KInt i)) d = None.

(** A row of the data frame built by [update_signal_and_adjust_grid]. *)
Record Row := {
  row_timestamp : Q;
  row_open : Q;
  row_high : Q;
  row_low : Q;
  row_close : Q;
  row_volume : Q
}.

(** The attributes of [EMAADXSignalModule] that the bot reads or writes. *)
Record SignalModule := {
  current_signal : Z;
  signal_start_time : option Q;
  data_buffer : list Row
}.

Definition set_current_signal (v : Z) (m : SignalModule) : SignalModule :=
  {| current_signal := v;
     signal_start_time := signal_start_time m;
     data_buffer := data_buffer m |}.

Definition set_signal_start_time (v : option Q) (m : SignalModule)
  : SignalModule :=
  {| current_signal := current_signal m;
     signal_start_time := v;
     data_buffer := data_buffer m |}.

Definition set_data_buffer (v : list Row) (m : SignalModule) : SignalModule :=
  {| current_signal := current_signal m;
     signal_start_time := signal_start_time m;
     data_buffer := v |}.

(** The row that [update_signal_and_adjust_grid] builds from one kline; the
    entries of the dictionary literal are evaluated in order, [kline[0]]
    first. *)
Definition row_of_kline {S} (kline : Dict) : M S Row :=
  timestamp' <- getitem kline (KInt 0) ;;
  open' <- getitem kline (KInt 1) ;;
  high' <- getitem kline (KInt 2) ;;
  low' <- getitem kline (KInt 3) ;;
  close' <- getitem kline (KInt 4) ;;
  volume' <- getitem kline (KInt 5) ;;
  ret {| row_timestamp := timestamp' / 1000;
         row_open := open';
         row_high := high';
         row_low := low';
         row_close := close';
         row_volume := volume' |}.

Section WithSignalModule.

(** [self.signal_module.calculate_signals()], as far as the bot uses it:
    the ['signal'] entry of its result, computed from the module's
    attributes; any method of the module will do. *)
Variable calculate_signals : M SignalModule Z.

(** grid_strategy_XRP.py, [update_signal_and_adjust_grid], on the signal
    module and the grid core of the bot. *)
Definition update_signal_and_adjust_grid (ohlcv : Outcome (list (list Q)))
  : M (SignalModule * GridCore) unit :=
  try_except
    (klines <- get_klines ohlcv ;;
     if match klines with [] => true | _ => false end
        || (List.length klines <? 200)%nat then
       ret tt
     else
       df_data <- for_each row_of_kline klines ;;
       modify (fun self => (set_data_buffer df_data (fst self), snd self)) ;;
       new_signal <- zoom fst (fun m self => (m, snd self))
                       calculate_signals ;;
       self <- get ;;
       let old_signal := current_signal (fst self) in
       if negb (new_signal =? old_signal)%Z then
         modify
           (fun self => (set_current_signal new_signal (fst self), snd self)) ;;
         t <- time_time ;;
         modify
           (fun self =>
              (set_signal_start_time (Some t) (fst self), snd self)) ;;
         self <- get ;;
         let adjustment :=
           get_grid_adjustment_recommendation (current_signal (fst self)) in
         modify
           (fun self => (fst self, apply_grid_adjustment adjustment (snd self)))
       else ret tt)
    (ret tt).

End WithSignalModule.

End SignalAdjustment.


(** ** Snapshots named by further statements *)

Module Snapshot.

Import GridCore.

(** The positions that [get_position] reports for a reply to its request:
    the positions read off the list, or (0, 0) after any failure. *)
Definition reported_positions (cfg : Config) (r : Reply) : Q * Q :=
  match r with
  | RPositions positions =>
      fold_left (get_position_step (get_ccxt_symbol cfg)) positions (0, 0)
  | _ => (0, 0)
  end.

End Snapshot.


(** * Properties *)

Import GridCore Protection Bot Conditions ProgramLogic.

(** ** Comparisons and min/max *)

Lemma Qltb_lt (a b : Q) : Qltb a b = true <-> a < b.
Proof.
  unfold Qltb. rewrite negb_true_iff.
  split; intro H.
  - apply Qnot_le_lt. intro Hle. apply Qle_bool_iff in Hle. congruence.
  - destruct (Qle_bool b a) eqn:E; [|reflexivity].
    apply Qle_bool_iff in E. exfalso. exact (Qlt_not_le _ _ H E).
Qed.

Lemma Qltb_ge (a b : Q) : Qltb a b = false <-> b <= a.
Proof.
  unfold Qltb. rewrite negb_false_iff. apply Qle_bool_iff.
Qed.

Lemma Qleb_le (a b : Q) : Qleb a b = true <-> a <= b.
Proof. apply Qle_bool_iff. Qed.

Lemma Qleb_gt (a b : Q) : Qleb a b = false <-> b < a.
Proof.
  unfold Qleb. split; intro H.
  - apply Qnot_le_lt. intro Hle. apply Qle_bool_iff in Hle. congruence.
  - destruct (Qle_bool a b) eqn:E; [|reflexivity].
    apply Qle_bool_iff in E. exfalso. exact (Qlt_not_le _ _ H E).
Qed.

Lemma py_min_Qmin (a b : Q) : py_min a b = Qmin a b.
Proof.
  unfold py_min, Qltb, Qle_bool, Qmin, GenericMinMax.gmin, Qcompare, Z.leb.
  destruct (Qnum a * QDen b ?= Qnum b * QDen a)%Z; reflexivity.
Qed.

Lemma py_max_Qmax (a b : Q) : py_max a b = Qmax a b.
Proof.
  unfold py_max, Qltb, Qle_bool, Qmax, GenericMinMax.gmax, Qcompare, Z.leb.
  rewrite (Z.compare_antisym (Qnum a * QDen b) (Qnum b * QDen a)).
  destruct (Qnum a * QDen b ?= Qnum b * QDen a)%Z; reflexivity.
Qed.


(** ** C5: take-profit quantity *)

(** C5.  [get_take_profit_quantity] leaves in the side's quantity field
    min(position, INITIAL_QUANTITY) when the position does not exceed
    POSITION_LIMIT and min(position, 2 * INITIAL_QUANTITY) when it does, for
    both sides and every configuration; under the shipped configuration
    (base 3, limit 200) a position of 199 gives 3 and a position of 201
    gives 6. *)
Theorem get_take_profit_quantity_sizes (cfg : Config) (position : Q)
    (g : GridCore) :
  (position <= POSITION_LIMIT cfg ->
     long_initial_quantity (get_take_profit_quantity cfg position "long" g)
       = Qmin position (INITIAL_QUANTITY cfg)
     /\ short_initial_quantity
          (get_take_profit_quantity cfg position "short" g)
        = Qmin position (INITIAL_QUANTITY cfg))
  /\ (POSITION_LIMIT cfg < position ->
        long_initial_quantity (get_take_profit_quantity cfg position "long" g)
          = Qmin position (INITIAL_QUANTITY cfg * 2)
        /\ short_initial_quantity
             (get_take_profit_quantity cfg position "short" g)
           = Qmin position (INITIAL_QUANTITY cfg * 2))
  /\ long_initial_quantity (get_take_profit_quantity config 199 "long" g) = 3
  /\ long_initial_quantity (get_take_profit_quantity config 201 "long" g) = 6
  /\ short_initial_quantity (get_take_profit_quantity config 199 "short" g) = 3
  /\ short_initial_quantity (get_take_profit_quantity config 201 "short" g) = 6.
Proof.
  repeat split; try reflexivity; unfold get_take_profit_quantity; cbn.
  - apply Qltb_ge in H. rewrite H. cbn. apply py_min_Qmin.
  - apply Qltb_ge in H. rewrite H. cbn. apply py_min_Qmin.
  - apply Qltb_lt in H. rewrite H. cbn. apply py_min_Qmin.
  - apply Qltb_lt in H. rewrite H. cbn. apply py_min_Qmin.
Qed.

(** ** C4: a neutral bar ends the run *)

Lemma bar_direction_neutral (change_percent' : Q) :
  Qabs change_percent' <= 1 # 10 -> bar_direction change_percent' = neutral.
Proof.
  intro H. apply Qabs_Qle_condition in H. destruct H as [Hlo Hhi].
  unfold bar_direction.
  apply Qltb_ge in Hhi. rewrite Hhi.
  apply Qltb_ge in Hlo. rewrite Hlo. reflexivity.
Qed.

Lemma _detect_consecutive_trend_neutral (kline_data : KlineData)
    (p : ExtremeMarketProtection) :
  direction kline_data = neutral ->
  _detect_consecutive_trend kline_data p = _reset_consecutive_trend p.
Proof.
  intro H. unfold _detect_consecutive_trend. rewrite H.
  destruct (consecutive_trend_direction p); reflexivity.
Qed.

(** [_calculate_atr] touches only [last_atr_values] and [baseline_atr]. *)
Lemma _calculate_atr_frame (period : nat) (p : ExtremeMarketProtection) :
  let p' := snd (_calculate_atr period p) in
  self_config p' = self_config p
  /\ consecutive_trend_direction p' = consecutive_trend_direction p
  /\ consecutive_kline_count p' = consecutive_kline_count p
  /\ cumulative_change_percent p' = cumulative_change_percent p
  /\ consecutive_trend_start_price p' = consecutive_trend_start_price p
  /\ consecutive_trend_start_time p' = consecutive_trend_start_time p
  /\ protection_active p' = protection_active p
  /\ hibernation_start_time p' = hibernation_start_time p.
Proof.
  unfold _calculate_atr.
  destruct (_ <? _)%nat; [cbn; tauto|].
  destruct (true_ranges _ _); [cbn; tauto|].
  cbn [snd set_last_atr_values baseline_atr].
  destruct (baseline_atr p); [cbn; tauto|].
  cbn [last_atr_values].
  destruct (20 <=? _)%nat; cbn; tauto.
Qed.

(** C4.  From every state of the protection machine (so after every bar
    sequence), a bar whose percent change is within the 0.1 noise band is
    accepted by [update_kline_data] and leaves the run at direction neutral,
    bar count 0 and cumulative move 0 (and no run start); the returned market
    state reports the same. *)
Theorem neutral_bar_resets_run
    (open_price' high_price' low_price' close_price' volume' : Q)
    (timestamp' : option Q) (p : ExtremeMarketProtection) (w : World) :
  ~ open_price' == 0 ->
  Qabs ((close_price' - open_price') / open_price' * 100) <= 1 # 10 ->
  exists ms p',
    update_kline_data open_price' high_price' low_price' close_price' volume'
      timestamp' p w = (Returned ms, p', w)
    /\ consecutive_trend_direction p' = neutral
    /\ consecutive_kline_count p' = 0%Z
    /\ cumulative_change_percent p' = 0
    /\ consecutive_trend_start_price p' = None
    /\ consecutive_trend_start_time p' = None
    /\ trend_direction ms = neutral
    /\ consecutive_klines ms = 0%Z
    /\ trend_magnitude ms = 0.
Proof.
  intros Hopen Hband.
  assert (Hz : Qeq_bool open_price' 0 = false).
  { destruct (Qeq_bool open_price' 0) eqn:E; [|reflexivity].
    apply Qeq_bool_iff in E. contradiction. }
  unfold update_kline_data, bind, modify, get, ret, time_time.
  destruct timestamp' as [t|]; rewrite Hz;
    rewrite _detect_consecutive_trend_neutral
      by (apply bar_direction_neutral; exact Hband);
    match goal with
    | |- context [_calculate_atr 14 ?q] =>
        pose proof (_calculate_atr_frame 14 q) as F;
        destruct (_calculate_atr 14 q) as [atr q'] eqn:E
    end;
    cbn [snd] in F;
    destruct F as (_ & Fd & Fc & Fm & Fp & Ft & _);
    eexists; eexists; (split; [reflexivity|]);
    cbn [trend_direction consecutive_klines trend_magnitude];
    rewrite Fd, Fc, Fm, Fp, Ft; cbn; repeat split; reflexivity.
Qed.

(** A concrete neutral bar (100 -> 100.05) after an up-run of three bars. *)
Lemma neutral_bar_resets_run_witness :
  let p := set_cumulative_change_percent 7
             (set_consecutive_kline_count 3%Z
                (set_consecutive_trend_direction up
                   (set_consecutive_trend_start_price (Some 93)
                      (Protection.init default_config)))) in
  let w := {| oracle := fun _ => RRaise; trace := []; now := 0 |} in
  exists ms p',
    update_kline_data 100 (1001 # 10) 100 (10005 # 100) 1 None p w
      = (Returned ms, p', w)
    /\ consecutive_trend_direction p' = neutral
    /\ consecutive_kline_count p' = 0%Z
    /\ cumulative_change_percent p' = 0
    /\ consecutive_trend_start_price p' = None
    /\ consecutive_trend_start_time p' = None
    /\ trend_direction ms = neutral
    /\ consecutive_klines ms = 0%Z
    /\ trend_magnitude ms = 0.
Proof.
  apply (neutral_bar_resets_run 100 (1001 # 10) 100 (10005 # 100) 1 None).
  - intro H. discriminate H.
  - vm_compute. intro H. discriminate H.
Defined.

(** ** C10 and C1: the end of hibernation *)

Lemma _is_atr_recovered_no_baseline (p : ExtremeMarketProtection) :
  baseline_atr p = None ->
  forall current_atr, _is_atr_recovered current_atr p = false.
Proof. intros H a. unfold _is_atr_recovered. rewrite H. reflexivity. Qed.

Lemma _is_atr_recovered_zero_atr (p : ExtremeMarketProtection)
    (current_atr : Q) :
  current_atr == 0 -> _is_atr_recovered current_atr p = false.
Proof.
  intro H. unfold _is_atr_recovered.
  destruct (baseline_atr p); [|reflexivity].
  assert (E : Qleb current_atr 0 = true).
  { apply Qleb_le. rewrite H. apply Qle_refl. }
  rewrite E, orb_true_r. reflexivity.
Qed.

(** When the check says "recovered", a baseline exists and the ATR is within
    the multiplier of it. *)
Lemma _is_atr_recovered_sound (p : ExtremeMarketProtection) (current_atr : Q) :
  _is_atr_recovered current_atr p = true ->
  exists baseline,
    baseline_atr p = Some baseline
    /\ current_atr <= baseline * atr_recovery_multiplier (self_config p).
Proof.
  unfold _is_atr_recovered. intro H.
  destruct (baseline_atr p) as [baseline|]; [|discriminate].
  exists baseline. split; [reflexivity|].
  destruct (negb (truthy baseline) || Qleb current_atr 0); [discriminate|].
  apply Qleb_le. exact H.
Qed.

(** Whenever the check does not say "recovered", [_check_hibernation_end]
    answers [False] and changes nothing. *)
Lemma _check_hibernation_end_not_recovered (ms : MarketState)
    (p : ExtremeMarketProtection) (w : World) :
  _is_atr_recovered (atr_value ms) p = false ->
  _check_hibernation_end ms p w = (Returned false, p, w).
Proof.
  intro H. unfold _check_hibernation_end, bind, get, time_time, ret.
  destruct (hibernation_start_time p); [|reflexivity].
  destruct (Qltb _ _); [reflexivity|].
  rewrite H. reflexivity.
Qed.

(** [_calculate_atr] fixes a baseline only when the ATR history, with the new
    sample, has reached 20 entries. *)
Lemma _calculate_atr_baseline_needs_20 (period : nat)
    (p : ExtremeMarketProtection) :
  baseline_atr p = None ->
  (List.length (last_atr_values p) < 19)%nat ->
  baseline_atr (snd (_calculate_atr period p)) = None.
Proof.
  intros Hb Hlen. unfold _calculate_atr.
  destruct (_ <? _)%nat; [exact Hb|].
  destruct (true_ranges _ _) as [|r rs]; [exact Hb|].
  cbn [snd set_last_atr_values baseline_atr last_atr_values].
  rewrite Hb.
  set (l := append_capped 50 (last_atr_values p) _).
  assert (Hl : (List.length l < 20)%nat).
  { subst l. unfold append_capped.
    destruct (50 <? _)%nat eqn:E.
    - apply Nat.ltb_lt in E. rewrite length_app in E. cbn in E. lia.
    - rewrite length_app. cbn. lia. }
  destruct (20 <=? List.length l)%nat eqn:E.
  - apply Nat.leb_le in E. lia.
  - exact Hb.
Qed.

(** C10.  If no baseline ATR has been established, or the current ATR is
    zero, the recovery check is false and [_check_hibernation_end] returns
    false leaving the whole state (so [protection_active] and the hibernation
    start) and the world untouched, at every instant of the clock. *)
Theorem no_baseline_or_zero_atr_never_ends_hibernation (ms : MarketState)
    (p : ExtremeMarketProtection) (w : World) :
  baseline_atr p = None \/ atr_value ms == 0 ->
  _is_atr_recovered (atr_value ms) p = false
  /\ _check_hibernation_end ms p w = (Returned false, p, w)
  /\ (forall p' w' r, _check_hibernation_end ms p w = (r, p', w') ->
        protection_active p' = protection_active p).
Proof.
  intro H.
  assert (R : _is_atr_recovered (atr_value ms) p = false).
  { destruct H as [H|H].
    - apply _is_atr_recovered_no_baseline. exact H.
    - apply _is_atr_recovered_zero_atr. exact H. }
  split; [exact R|].
  pose proof (_check_hibernation_end_not_recovered ms p w R) as E.
  split; [exact E|].
  intros p' w' r E'. rewrite E in E'. inversion E'. reflexivity.
Qed.

(** Protection active for 1000 hours, no baseline ever learned. *)
Lemma no_baseline_or_zero_atr_never_ends_hibernation_witness :
  let p := set_hibernation_start_time (Some 0)
             (set_protection_active true (Protection.init default_config)) in
  let w := {| oracle := fun _ => RNone; trace := []; now := 3600000 |} in
  let ms := {| ms_timestamp := 3600000; price := 1; trend_start_price := 1;
               trend_start_time := 3600000; trend_direction := neutral;
               trend_magnitude := 0; consecutive_klines := 0%Z;
               atr_value := 1 # 1000; is_extreme := false;
               protection_triggered := true |} in
  _is_atr_recovered (atr_value ms) p = false
  /\ _check_hibernation_end ms p w = (Returned false, p, w)
  /\ (forall p' w' r, _check_hibernation_end ms p w = (r, p', w') ->
        protection_active p' = protection_active p).
Proof.
  cbv zeta.
  apply no_baseline_or_zero_atr_never_ends_hibernation.
  left. reflexivity.
Defined.

(** The claim C1 read on the whole program fails: the bot's own sleep
    ([check_sleeping], the gate that suppresses trading) ends once 24 hours
    have passed although the ATR (0.01) is far above baseline x multiplier
    (0.002 x 1.5), i.e. although the recovery check is false. *)
Lemma sleep_ends_without_volatility_recovery :
  let b := set_sleep_start_time 0 (set_is_sleeping true Bot.init) in
  let p := set_baseline_atr (Some (2 # 1000))
             (set_hibernation_start_time (Some 0)
                (set_protection_active true
                   (Protection.init default_config))) in
  let ms := {| ms_timestamp := 24 * 3600; price := 1; trend_start_price := 1;
               trend_start_time := 0; trend_direction := neutral;
               trend_magnitude := 0; consecutive_klines := 0%Z;
               atr_value := 1 # 100; is_extreme := false;
               protection_triggered := true |} in
  let w := {| oracle := fun _ => RNone; trace := []; now := 24 * 3600 |} in
  _is_atr_recovered (atr_value ms) p = false
  /\ _check_hibernation_end ms p w = (Returned false, p, w)
  /\ is_sleeping b = true
  /\ check_sleeping (now w) b = (false, Bot.init).
Proof. cbv zeta. repeat split. Qed.

(** [_save_state] always returns, changes no attribute, and issues exactly
    one write of the current state. *)
Lemma _save_state_run (p : ExtremeMarketProtection) (w : World) :
  _save_state p w =
    (Returned tt, p,
     {| oracle := oracle w;
        trace := trace w ++ [SaveState (saved_state p (now w))];
        now := now w |}).
Proof.
  unfold _save_state, try_except, bind, get, time_time, call, ret. cbn.
  destruct (oracle w _); reflexivity.
Qed.

(** C1 (amended).  In the protection machine, [_check_hibernation_end] ends
    hibernation only if the elapsed hours have reached [hibernation_hours] and
    the ATR is at most baseline x [atr_recovery_multiplier]; whenever either
    condition fails it returns false and leaves state and world unchanged.
    The bot's sleep flag is a separate 24-hour timer: while sleeping, the
    ticker handler returns early exactly when fewer than 24 * 3600 seconds
    have passed, and otherwise clears the flag, with no volatility
    condition. *)
Theorem hibernation_end_conditions (ms : MarketState)
    (p : ExtremeMarketProtection) (w : World) (current_time : Q)
    (b : GridTradingBot) :
  (forall p' w',
     _check_hibernation_end ms p w = (Returned true, p', w') ->
     hibernation_elapsed p w /\ volatility_recovered ms p
     /\ protection_active p' = false /\ hibernation_start_time p' = None)
  /\ (~ hibernation_elapsed p w \/ ~ volatility_recovered ms p ->
      _check_hibernation_end ms p w = (Returned false, p, w))
  /\ (is_sleeping b = true ->
      (current_time - sleep_start_time b < 24 * 3600 ->
       check_sleeping current_time b = (true, b))
      /\ (24 * 3600 <= current_time - sleep_start_time b ->
          fst (check_sleeping current_time b) = false
          /\ is_sleeping (snd (check_sleeping current_time b)) = false)).
Proof.
  assert (Cases :
    _check_hibernation_end ms p w = (Returned false, p, w)
    \/ (hibernation_elapsed p w /\ volatility_recovered ms p
        /\ exists p' w',
             _check_hibernation_end ms p w = (Returned true, p', w')
             /\ protection_active p' = false
             /\ hibernation_start_time p' = None)).
  { unfold _check_hibernation_end, bind, get, time_time, ret, modify.
    destruct (hibernation_start_time p) as [start|] eqn:Hs; [|left; reflexivity].
    destruct (Qltb _ _) eqn:Ht; [left; reflexivity|].
    destruct (_is_atr_recovered _ _) eqn:Hr; [|left; reflexivity].
    right. split; [|split].
    - exists start. split; [exact Hs|]. apply Qltb_ge. exact Ht.
    - apply _is_atr_recovered_sound. exact Hr.
    - rewrite _save_state_run. eexists. eexists.
      split; [reflexivity|]. split; reflexivity. }
  split; [|split].
  - intros p' w' E.
    destruct Cases as [C|(He & Hv & q & w1 & C & Ha & Hn)].
    + rewrite C in E. discriminate E.
    + rewrite C in E. inversion E; subst. tauto.
  - intro Hfail.
    destruct Cases as [C|(He & Hv & _)]; [exact C|].
    destruct Hfail as [Hf|Hf]; contradiction.
  - intro Hs. unfold check_sleeping. rewrite Hs. split.
    + intro Hlt. apply Qltb_lt in Hlt. rewrite Hlt. reflexivity.
    + intro Hge. apply Qltb_ge in Hge. rewrite Hge. split; reflexivity.
Qed.

(** ** Rules for [quiet] and [reports] *)

Section QuietRules.

Context {S : Type}.

Lemma quiet_ret {A} (a : A) : quiet (S := S) (ret a).
Proof. intros s w. eexists; eexists; reflexivity. Qed.

Lemma quiet_raise {A} : quiet (S := S) (A := A) raise.
Proof. intros s w. eexists; eexists; reflexivity. Qed.

Lemma quiet_get : quiet (S := S) get.
Proof. intros s w. eexists; eexists; reflexivity. Qed.

Lemma quiet_time_time : quiet (S := S) time_time.
Proof. intros s w. eexists; eexists; reflexivity. Qed.

Lemma quiet_sleep (d : Q) : quiet (S := S) (sleep d).
Proof. intros s w. eexists; eexists; reflexivity. Qed.

Lemma quiet_call (c : Call) : quiet (S := S) (call c).
Proof.
  intros s w. unfold call.
  destruct (oracle w _); eexists; eexists; reflexivity.
Qed.

Lemma quiet_bind {A B} (m : M S A) (k : A -> M S B) :
  quiet m -> (forall a, quiet (k a)) -> quiet (bind m k).
Proof.
  intros Hm Hk s w. unfold bind.
  destruct (Hm s w) as (r & w1 & E). rewrite E.
  destruct r as [a|].
  - apply Hk.
  - eexists; eexists; reflexivity.
Qed.

Lemma quiet_try_except {A} (m h : M S A) :
  quiet m -> quiet h -> quiet (try_except m h).
Proof.
  intros Hm Hh s w. unfold try_except.
  destruct (Hm s w) as (r & w1 & E). rewrite E.
  destruct r as [a|].
  - eexists; eexists; reflexivity.
  - apply Hh.
Qed.

Lemma reports_ret {A} (a : A) : reports (S := S) (ret a).
Proof. intros s w. eexists; eexists; reflexivity. Qed.

Lemma reports_quiet {A} (m : M S A) : reports m -> quiet m.
Proof.
  intros H s w. destruct (H s w) as (a & w' & E).
  eexists; eexists; exact E.
Qed.

(** A [try] whose handler returns a value always returns. *)
Lemma reports_try_except {A} (m h : M S A) :
  quiet m -> reports h -> reports (try_except m h).
Proof.
  intros Hm Hh s w. unfold try_except.
  destruct (Hm s w) as (r & w1 & E). rewrite E.
  destruct r as [a|].
  - eexists; eexists; reflexivity.
  - apply Hh.
Qed.

Lemma reports_bind {A B} (m : M S A) (k : A -> M S B) :
  reports m -> (forall a, reports (k a)) -> reports (bind m k).
Proof.
  intros Hm Hk s w. unfold bind.
  destruct (Hm s w) as (a & w1 & E). rewrite E. apply Hk.
Qed.

(** [gather] of quiet tasks changes nothing and returns one result per
    task. *)
Lemma gather_reports (tasks : list (M S bool)) :
  Forall quiet tasks ->
  forall s w, exists rs w',
    gather tasks s w = (Returned rs, s, w')
    /\ List.length rs = List.length tasks.
Proof.
  induction 1 as [|task rest Ht _ IH]; intros s w.
  - exists [], w. split; reflexivity.
  - cbn [gather].
    destruct (Ht s w) as (r & w1 & E). rewrite E.
    destruct (IH s w1) as (rs & w2 & E2 & L). rewrite E2.
    exists (r :: rs), w2. split; [reflexivity|]. cbn. rewrite L. reflexivity.
Qed.

End QuietRules.

Create HintDb quiet.

#[local] Hint Resolve quiet_ret quiet_raise quiet_get quiet_time_time
  quiet_sleep quiet_call quiet_bind quiet_try_except reports_ret
  reports_quiet reports_try_except : quiet.

(** ** The emergency sequence of the protection machine *)

Lemma _cancel_single_order_reports {S} (order_id : string) :
  reports (S := S) (_cancel_single_order order_id).
Proof.
  unfold _cancel_single_order. auto 10 with quiet.
Qed.

Lemma _cancel_all_orders_reports {S} : reports (S := S) _cancel_all_orders.
Proof.
  unfold _cancel_all_orders.
  apply reports_try_except; [|apply reports_ret].
  apply quiet_bind; [apply quiet_call|].
  intros r. destruct r; auto with quiet.
  destruct orders as [|o os]; [apply quiet_ret|].
  apply quiet_bind; [|intro; apply quiet_ret].
  intros s w.
  destruct (gather_reports
              (map (fun order => _cancel_single_order (o_id order)) (o :: os))
              (S := S)) with (s := s) (w := w) as (rs & w' & E & _).
  - apply Forall_forall. intros t Ht. apply in_map_iff in Ht.
    destruct Ht as (x & <- & _).
    apply reports_quiet, _cancel_single_order_reports.
  - eexists; eexists; exact E.
Qed.

Lemma wait_loop_reports {S} (fuel : nat) (order_id : option string)
    (start_time timeout : Q) :
  reports (S := S) (wait_loop fuel order_id start_time timeout).
Proof.
  induction fuel as [|fuel IH]; cbn [wait_loop]; [apply reports_ret|].
  apply reports_bind.
  { intros s w. eexists; eexists; reflexivity. }
  intro t. destruct (Qltb _ _); [|apply reports_ret].
  apply reports_bind.
  - apply reports_try_except.
    + apply quiet_bind; [apply quiet_call|].
      intro r. destruct r; auto with quiet.
      destruct (is_str status "filled"); [apply quiet_ret|].
      destruct (_ || _); auto with quiet.
    + apply reports_bind; [|intro; apply reports_ret].
      intros s w. eexists; eexists; reflexivity.
  - intros [b|]; [apply reports_ret|apply IH].
Qed.

Lemma _place_emergency_close_order_reports (side : string)
    (quantity price' : Q) (position_side : string) :
  reports (_place_emergency_close_order side quantity price' position_side).
Proof.
  unfold _place_emergency_close_order.
  apply reports_try_except; [|apply reports_ret].
  apply quiet_bind; [apply quiet_call|].
  intro r. destruct r; auto with quiet.
  apply quiet_bind; [apply quiet_get|]. intro p.
  apply quiet_bind; [|intro; apply quiet_ret].
  unfold _wait_for_order_fill.
  apply quiet_bind; [apply quiet_time_time|]. intro t.
  apply reports_quiet, wait_loop_reports.
Qed.

Lemma _emergency_close_all_positions_reports (current_price : Q) :
  reports (_emergency_close_all_positions current_price).
Proof.
  unfold _emergency_close_all_positions.
  apply reports_try_except; [|apply reports_ret].
  apply quiet_bind; [apply quiet_call|].
  intro r. destruct r; auto with quiet.
  set (tasks := if Qltb 0 (dict_get short) then _ else _).
  assert (Hq : Forall quiet tasks).
  { subst tasks.
    destruct (Qltb 0 (dict_get long)), (Qltb 0 (dict_get short));
      repeat constructor;
      apply reports_quiet, _place_emergency_close_order_reports. }
  destruct tasks as [|t ts] eqn:Et; [apply quiet_ret|].
  apply quiet_bind; [|intro; apply quiet_ret].
  intros s w.
  destruct (gather_reports (t :: ts) Hq s w) as (rs & w' & E & _).
  eexists; eexists; exact E.
Qed.

(** One pass of the polling loop, spelled out. *)
Lemma wait_loop_pass {S} (fuel : nat) (order_id : option string)
    (start_time timeout : Q) (s : S) (w : World) :
  let asked := {| oracle := oracle w;
                  trace := trace w ++ [GetOrderStatus order_id];
                  now := now w |} in
  let slept := {| oracle := oracle w;
                  trace := trace w ++ [GetOrderStatus order_id];
                  now := now w + 1 |} in
  wait_loop (Datatypes.S fuel) order_id start_time timeout s w
  = if Qltb (now w - start_time) timeout then
      match oracle w (List.length (trace w)) with
      | RStatus status =>
          if is_str status "filled" then (Returned true, s, asked)
          else if is_str status "canceled" || is_str status "rejected"
          then (Returned false, s, asked)
          else wait_loop fuel order_id start_time timeout s slept
      | _ => wait_loop fuel order_id start_time timeout s slept
      end
    else (Returned false, s, w).
Proof.
  cbn [wait_loop]. unfold bind, try_except, time_time, call, sleep, ret, raise.
  destruct (Qltb (now w - start_time) timeout); [|reflexivity].
  destruct (oracle w (List.length (trace w))) as [| | | |status| |];
    try reflexivity.
  destruct (is_str status "filled"); [reflexivity|].
  destruct (is_str status "canceled" || is_str status "rejected");
    reflexivity.
Qed.

(** The bound on the passes of [_wait_for_order_fill] is never the reason the
    loop stops: once the clock has reached the timeout, extra fuel changes
    nothing. *)
Lemma wait_loop_fuel_irrelevant {S} (n : nat) :
  forall (m : nat) (order_id : option string) (start_time timeout : Q)
         (s : S) (w : World),
    timeout <= now w - start_time + inject_Z (Z.of_nat n) ->
    timeout <= now w - start_time + inject_Z (Z.of_nat m) ->
    wait_loop n order_id start_time timeout s w
    = wait_loop m order_id start_time timeout s w.
Proof.
  assert (Stop : forall (k : nat) order_id start_time timeout (s : S) w,
            timeout <= now w - start_time ->
            wait_loop k order_id start_time timeout s w = (Returned false, s, w)).
  { intros k order_id start_time timeout s w H.
    destruct k as [|k]; [reflexivity|].
    rewrite wait_loop_pass. cbv zeta.
    apply Qltb_ge in H. rewrite H. reflexivity. }
  assert (Step : forall k : nat,
            inject_Z (Z.of_nat (Datatypes.S k)) == inject_Z (Z.of_nat k) + 1).
  { intro k. rewrite Nat2Z.inj_succ. unfold Z.succ.
    rewrite inject_Z_plus. reflexivity. }
  induction n as [|n IH]; intros m order_id start_time timeout s w Hn Hm.
  - change (inject_Z (Z.of_nat 0)) with 0 in Hn.
    rewrite !Stop by lra. reflexivity.
  - destruct m as [|m].
    + change (inject_Z (Z.of_nat 0)) with 0 in Hm.
      rewrite !Stop by lra. reflexivity.
    + rewrite !wait_loop_pass. cbv zeta.
      rewrite Step in Hn, Hm.
      destruct (Qltb (now w - start_time) timeout); [|reflexivity].
      destruct (oracle w (List.length (trace w))) as [| | | |status| |];
        try (apply IH; cbn [now]; lra).
      destruct (is_str status "filled"); [reflexivity|].
      destruct (is_str status "canceled" || is_str status "rejected");
        [reflexivity|].
      apply IH; cbn [now]; lra.
Qed.

Lemma passes_enough (timeout : Q) :
  timeout <= inject_Z (Z.of_nat (passes timeout)).
Proof.
  unfold passes. rewrite Nat2Z.inj_succ. unfold Z.succ.
  rewrite inject_Z_plus.
  pose proof (Qle_ceiling timeout) as Hc.
  assert (Hz : inject_Z (Qceiling timeout)
               <= inject_Z (Z.of_nat (Z.to_nat (Qceiling timeout)))).
  { rewrite <- Zle_Qle. lia. }
  change (inject_Z 1) with 1. lra.
Qed.

(** [_wait_for_order_fill] as modelled is the unbounded loop of the source:
    any larger number of passes gives the same run. *)
Lemma _wait_for_order_fill_fuel {S} (extra : nat)
    (order_id : option string) (timeout : Q) (s : S) (w : World) :
  _wait_for_order_fill order_id timeout s w
  = wait_loop (passes timeout + extra) order_id (now w) timeout s w.
Proof.
  unfold _wait_for_order_fill, bind, time_time.
  apply wait_loop_fuel_irrelevant.
  - pose proof (passes_enough timeout). lra.
  - pose proof (passes_enough timeout) as H.
    rewrite Nat2Z.inj_add, inject_Z_plus.
    assert (0 <= inject_Z (Z.of_nat extra)).
    { change 0 with (inject_Z 0). rewrite <- Zle_Qle. lia. }
    lra.
Qed.

(** ** C2: the protection flag needs both steps to succeed *)

(** The run of [_trigger_emergency_protection] in terms of what its two steps
    report. *)
Lemma _trigger_emergency_protection_run (ms : MarketState)
    (p : ExtremeMarketProtection) (w : World) :
  exists cancel_success close_success w1 w2,
    _cancel_all_orders p w = (Returned cancel_success, p, w1)
    /\ _emergency_close_all_positions (price ms) p w1
       = (Returned close_success, p, w2)
    /\ _trigger_emergency_protection ms p w
       = if cancel_success && close_success then
           let p' := set_hibernation_start_time (Some (now w2))
                       (set_protection_active true p) in
           (Returned true, p',
            {| oracle := oracle w2;
               trace := trace w2 ++ [SaveState (saved_state p' (now w2))];
               now := now w2 |})
         else (Returned false, p, w2).
Proof.
  destruct (_cancel_all_orders_reports p w) as (c & w1 & E1).
  destruct (_emergency_close_all_positions_reports (price ms) p w1)
    as (f & w2 & E2).
  exists c, f, w1, w2. split; [exact E1|]. split; [exact E2|].
  unfold _trigger_emergency_protection, try_except, bind.
  rewrite E1, E2.
  destruct (c && f); [|reflexivity].
  unfold modify, time_time, ret. rewrite _save_state_run. reflexivity.
Qed.

(** C2.  Running the cancel-all step and then the flatten step always yields
    two booleans; [_trigger_emergency_protection] returns true, sets
    [protection_active], stamps [hibernation_start_time] with the clock and
    writes the state exactly when both are true.  If either is false it
    returns false, changes no attribute ([protection_active] and
    [hibernation_start_time] stay as they were) and writes nothing. *)
Theorem emergency_sequence_needs_both_steps (ms : MarketState)
    (p : ExtremeMarketProtection) (w : World) :
  exists cancel_success close_success w1 w2,
    _cancel_all_orders p w = (Returned cancel_success, p, w1)
    /\ _emergency_close_all_positions (price ms) p w1
       = (Returned close_success, p, w2)
    /\ if cancel_success && close_success then
         let p' := set_hibernation_start_time (Some (now w2))
                     (set_protection_active true p) in
         _trigger_emergency_protection ms p w
         = (Returned true, p',
            {| oracle := oracle w2;
               trace := trace w2 ++ [SaveState (saved_state p' (now w2))];
               now := now w2 |})
         /\ protection_active p' = true
         /\ hibernation_start_time p' = Some (now w2)
       else
         _trigger_emergency_protection ms p w = (Returned false, p, w2).
Proof.
  destruct (_trigger_emergency_protection_run ms p w)
    as (c & f & w1 & w2 & E1 & E2 & E).
  exists c, f, w1, w2. split; [exact E1|]. split; [exact E2|].
  rewrite E. destruct (c && f).
  - split; [reflexivity|]. split; reflexivity.
  - reflexivity.
Qed.

(** Three runs of the sequence from the fresh state, price 1: nothing to
    cancel and nothing to flatten (protection becomes active); nothing to
    cancel but the flatten order is refused; and an exchange on which every
    request raises. *)
Example emergency_sequence_runs :
  let p := Protection.init default_config in
  let ms := {| ms_timestamp := 0; price := 1; trend_start_price := 1;
               trend_start_time := 0; trend_direction := up;
               trend_magnitude := 12; consecutive_klines := 2%Z;
               atr_value := 0; is_extreme := true;
               protection_triggered := false |} in
  let run o :=
    let '(r, p', w') :=
      _trigger_emergency_protection ms p
        {| oracle := o; trace := []; now := 50 |} in
    (r, protection_active p', hibernation_start_time p', trace w') in
  run (fun n => match n with O => ROrders [] | _ => RNone end)
  = (Returned true, true, Some 50,
     [GetOpenOrders; GetPosition;
      SaveState (saved_state
                   (set_hibernation_start_time (Some 50)
                      (set_protection_active true p)) 50)])
  /\ run (fun n => match n with
                   | O => ROrders []
                   | 1%nat => RPositionDict (Some 5) None
                   | _ => RNone
                   end)
     = (Returned false, false, None,
        [GetOpenOrders; GetPosition;
         ExPlaceOrder "sell" (1 * (995 # 1000)) 5 true "long" "limit"])
  /\ run (fun _ => RRaise)
     = (Returned false, false, None, [GetOpenOrders; GetPosition]).
Proof. cbv zeta. repeat split. Qed.

(** ** C3: the extreme threshold *)

(** Run detection touches neither the configuration nor the protection
    flag. *)
Lemma _detect_consecutive_trend_frame (kline_data : KlineData)
    (p : ExtremeMarketProtection) :
  let p' := _detect_consecutive_trend kline_data p in
  self_config p' = self_config p
  /\ protection_active p' = protection_active p
  /\ hibernation_start_time p' = hibernation_start_time p
  /\ baseline_atr p' = baseline_atr p.
Proof.
  unfold _detect_consecutive_trend.
  destruct (_ && _).
  - cbn. destruct (consecutive_trend_start_price p) as [start|];
      [|repeat split].
    destruct (truthy start); [|repeat split].
    destruct (Direction_eqb _ _); repeat split.
  - destruct (_ && _); [repeat split|].
    destruct (Direction_eqb _ _); repeat split.
Qed.

(** What [update_kline_data] reports about the run is the state it leaves. *)
Lemma update_kline_data_reports_run
    (open_price' high_price' low_price' close_price' volume' : Q)
    (timestamp' : option Q) (p p' : ExtremeMarketProtection) (w w' : World)
    (ms : MarketState) :
  update_kline_data open_price' high_price' low_price' close_price' volume'
    timestamp' p w = (Returned ms, p', w') ->
  is_extreme ms
    = Qleb (extreme_threshold (self_config p'))
        (Qabs (cumulative_change_percent p'))
  /\ trend_magnitude ms = cumulative_change_percent p'
  /\ consecutive_klines ms = consecutive_kline_count p'
  /\ self_config p' = self_config p.
Proof.
  unfold update_kline_data, bind, modify, get, ret, time_time, raise.
  destruct timestamp' as [t|];
    (destruct (Qeq_bool open_price' 0); [discriminate|]);
    match goal with
    | |- context [_calculate_atr 14 ?q] =>
        pose proof (_calculate_atr_frame 14 q) as F;
        destruct (_calculate_atr 14 q) as [atr q'] eqn:E
    end;
    cbn [snd] in F; destruct F as (Fc & _);
    intro H; inversion H; subst; cbn;
    (repeat split; try reflexivity);
    rewrite Fc; cbn;
    apply (_detect_consecutive_trend_frame _ (set_kline_buffer _ p)).
Qed.

(** The claim C3 as stated fails: with the default threshold 11, a first bar
    from 100 to 111 gives a cumulative move of exactly 11, yet on an exchange
    whose requests fail the protection does not become active. *)
Lemma extreme_move_without_activation :
  let w := {| oracle := fun _ => RRaise; trace := []; now := 0 |} in
  let p := Protection.init default_config in
  exists ms p1 w1 r p2 w2,
    update_kline_data 100 111 100 111 1 (Some 0) p w = (Returned ms, p1, w1)
    /\ check_extreme_protection ms p1 w1 = (r, p2, w2)
    /\ extreme_threshold (self_config p1)
       <= Qabs (cumulative_change_percent p1)
    /\ protection_active p1 = false
    /\ protection_active p2 = false.
Proof.
  cbv zeta. do 6 eexists.
  split; [vm_compute; reflexivity|].
  split; [vm_compute; reflexivity|].
  split; [vm_compute; discriminate|].
  split; reflexivity.
Qed.

(** C3 (amended).  The extreme flag computed by [update_kline_data] is set
    if and only if the magnitude of the run's cumulative move is greater than
    or equal to [extreme_threshold]; with threshold 11, a first bar moving
    exactly 11 percent sets it and one moving 10.99 percent does not.  From
    the inactive state and with a run of at least one bar,
    [check_extreme_protection] makes the protection active if and only if the
    flag is set and both the cancel step and the flatten step report
    success. *)
Theorem extreme_threshold_triggers (ms : MarketState)
    (p : ExtremeMarketProtection) (w : World) :
  (forall open_price' high_price' low_price' close_price' volume' timestamp'
          p0 w0,
     update_kline_data open_price' high_price' low_price' close_price'
       volume' timestamp' p0 w0 = (Returned ms, p, w) ->
     (is_extreme ms = true <->
      extreme_threshold (self_config p)
      <= Qabs (cumulative_change_percent p))
     /\ trend_magnitude ms = cumulative_change_percent p)
  /\ (protection_active p = false ->
      (0 < consecutive_klines ms)%Z ->
      exists cancel_success close_success w1 w2,
        _cancel_all_orders p w = (Returned cancel_success, p, w1)
        /\ _emergency_close_all_positions (price ms) p w1
           = (Returned close_success, p, w2)
        /\ forall r p' w',
             check_extreme_protection ms p w = (r, p', w') ->
             (protection_active p' = true <->
              is_extreme ms = true /\ cancel_success = true
              /\ close_success = true))
  /\ (let fresh := Protection.init default_config in
      let quiet_exchange :=
        {| oracle := fun n => match n with O => ROrders [] | _ => RNone end;
           trace := []; now := 0 |} in
      let after close_price' :=
        match update_kline_data 100 close_price' 100 close_price' 1 (Some 0)
                fresh quiet_exchange with
        | (Returned ms', p1, w1) =>
            match check_extreme_protection ms' p1 w1 with
            | (_, p2, _) =>
                Some (cumulative_change_percent p1, is_extreme ms',
                      protection_active p2)
            end
        | _ => None
        end in
      after 111 = Some (1100 # 100, true, true)
      /\ after (11099 # 100) = Some (109900 # 10000, false, false)).
Proof.
  split; [|split].
  - intros o h l c v ts p0 w0 E.
    destruct (update_kline_data_reports_run _ _ _ _ _ _ _ _ _ _ _ E)
      as (He & Hm & _).
    split; [|exact Hm].
    rewrite He. apply Qleb_le.
  - intros Hinactive Hcount.
    destruct (_trigger_emergency_protection_run ms p w)
      as (c & f & w1 & w2 & E1 & E2 & E).
    exists c, f, w1, w2. split; [exact E1|]. split; [exact E2|].
    intros r p' w'.
    unfold check_extreme_protection, bind, get.
    rewrite Hinactive. cbn [negb].
    apply Z.ltb_lt in Hcount. rewrite Hcount.
    destruct (is_extreme ms); cbn [andb].
    + rewrite E. destruct c, f; cbn [andb]; intro H; inversion H; subst;
        cbn; intuition congruence.
    + unfold ret. intro H. inversion H; subst.
      rewrite Hinactive. intuition congruence.
  - cbv zeta. split; vm_compute; reflexivity.
Qed.

(** ** C6: the full resync of the pending-order counters *)

Lemma is_str_other (x : option string) (a b : string) :
  is_str x a = true -> a <> b -> is_str x b = false.
Proof.
  destruct x as [s|]; cbn; [|discriminate].
  intros Ha Hne. apply String.eqb_eq in Ha. subst s.
  apply String.eqb_neq. exact Hne.
Qed.

(** Each counter computed by the loop of [check_orders_status] is the running
    total of the orders with its (side, position side). *)
Lemma count_order_totals (orders : list Order) :
  forall c : Counters,
    let c' := fold_left count_order orders c in
    let total side position_side init :=
      fold_left Qplus
        (map (fun order => Qabs (o_origQty order))
           (filter (fun order =>
                      is_str (o_side order) side
                      && is_str (o_positionSide order) position_side)
              orders)) init in
    c_buy_long_orders c' = total "buy"%string "LONG"%string (c_buy_long_orders c)
    /\ c_sell_long_orders c'
       = total "sell"%string "LONG"%string (c_sell_long_orders c)
    /\ c_buy_short_orders c'
       = total "buy"%string "SHORT"%string (c_buy_short_orders c)
    /\ c_sell_short_orders c'
       = total "sell"%string "SHORT"%string (c_sell_short_orders c).
Proof.
  induction orders as [|order rest IH]; intro c; cbv zeta.
  - cbn. repeat split.
  - cbn [fold_left filter map].
    specialize (IH (count_order c order)). cbv zeta in IH.
    destruct IH as (I1 & I2 & I3 & I4).
    rewrite I1, I2, I3, I4. clear I1 I2 I3 I4.
    unfold count_order.
    assert (BS : "buy"%string <> "sell"%string) by discriminate.
    assert (SB : "sell"%string <> "buy"%string) by discriminate.
    assert (LS : "LONG"%string <> "SHORT"%string) by discriminate.
    assert (SL : "SHORT"%string <> "LONG"%string) by discriminate.
    destruct (is_str (o_side order) "buy") eqn:Eb.
    + rewrite (is_str_other _ _ _ Eb BS).
      destruct (is_str (o_positionSide order) "LONG") eqn:El.
      * rewrite (is_str_other _ _ _ El LS). cbn. repeat split.
      * destruct (is_str (o_positionSide order) "SHORT"); cbn; repeat split.
    + destruct (is_str (o_side order) "sell") eqn:Es.
      * destruct (is_str (o_positionSide order) "LONG") eqn:El.
        -- rewrite (is_str_other _ _ _ El LS). cbn. repeat split.
        -- destruct (is_str (o_positionSide order) "SHORT"); cbn;
             repeat split.
      * destruct (is_str (o_positionSide order) "LONG"),
          (is_str (o_positionSide order) "SHORT"); cbn; repeat split.
Qed.

(** The reduce-only flag plays no part in the count. *)
Lemma count_order_ignores_reduce_only (c : Counters) (order : Order)
    (flag : bool) :
  count_order c
    {| o_id := o_id order; o_side := o_side order; o_reduceOnly := flag;
       o_positionSide := o_positionSide order;
       o_origQty := o_origQty order |}
  = count_order c order.
Proof. reflexivity. Qed.

(** The claim C6 as stated fails on the reduce-only flag: a resting sell order
    on the LONG side that is not reduce-only is no take-profit order in the
    specification's classification, but the resync counts its quantity in
    [sell_long_orders]. *)
Lemma resync_ignores_reduce_only_flag :
  let order flag := {| o_id := "1"; o_side := Some "sell"%string;
                       o_reduceOnly := flag;
                       o_positionSide := Some "LONG"%string;
                       o_origQty := 5 |} in
  let w flag :=
    {| oracle := fun _ => ROrders [order flag]; trace := []; now := 0 |} in
  let resynced flag :=
    sell_long_orders (snd (fst (check_orders_status GridCore.init (w flag))))
  in
  resynced false = 0 + 5
  /\ c_sell_long_orders (spec_count_orders [order false]) = 0 + 0
  /\ resynced true = 0 + 5
  /\ c_sell_long_orders (spec_count_orders [order true]) = 0 + 5.
Proof. cbv zeta. repeat split. Qed.

(** C6 (amended).  When the exchange answers the resync with a list of open
    orders, [check_orders_status] returns and sets each of the four counters
    to the total of abs(origQty) over the orders with the counter's order
    side and position side (buy/LONG, sell/LONG, buy/SHORT, sell/SHORT); the
    reduce-only flag is not consulted and orders matching no pair are
    skipped.  The new values do not depend on the previous counters (they are
    replaced, not merged), and nothing but the counters changes. *)
Theorem check_orders_status_replaces_counters (g : GridCore) (w : World)
    (orders : list Order) :
  oracle w (List.length (trace w)) = ROrders orders ->
  exists g',
    check_orders_status g w
    = (Returned tt, g',
       {| oracle := oracle w; trace := trace w ++ [FetchOpenOrders];
          now := now w |})
    /\ buy_long_orders g' = quantity_of "buy" "LONG" orders
    /\ sell_long_orders g' = quantity_of "sell" "LONG" orders
    /\ buy_short_orders g' = quantity_of "buy" "SHORT" orders
    /\ sell_short_orders g' = quantity_of "sell" "SHORT" orders
    /\ g' = store_counters (count_orders orders) g
    /\ long_position g' = long_position g
    /\ short_position g' = short_position g
    /\ (forall previous : GridCore,
          exists h w',
            check_orders_status previous w = (Returned tt, h, w')
            /\ buy_long_orders h = buy_long_orders g'
            /\ sell_long_orders h = sell_long_orders g'
            /\ buy_short_orders h = buy_short_orders g'
            /\ sell_short_orders h = sell_short_orders g').
Proof.
  intro Hreply.
  assert (Run : forall x : GridCore,
            check_orders_status x w
            = (Returned tt, store_counters (count_orders orders) x,
               {| oracle := oracle w; trace := trace w ++ [FetchOpenOrders];
                  now := now w |})).
  { intro x.
    unfold check_orders_status, fetch_open_orders, bind, call, modify, ret.
    rewrite Hreply. reflexivity. }
  exists (store_counters (count_orders orders) g).
  destruct (count_order_totals orders zero_counters) as (T1 & T2 & T3 & T4).
  split; [apply Run|].
  split; [exact T1|]. split; [exact T2|]. split; [exact T3|].
  split; [exact T4|]. split; [reflexivity|].
  split; [reflexivity|]. split; [reflexivity|].
  intro previous. eexists; eexists.
  split; [apply Run|]. repeat split.
Qed.

(** One buy/LONG order of 3 and one sell/LONG order of -2 resting, stale
    counters of 7 before the resync. *)
Lemma check_orders_status_replaces_counters_witness :
  let orders :=
    [ {| o_id := "a"; o_side := Some "buy"%string; o_reduceOnly := false;
         o_positionSide := Some "LONG"%string; o_origQty := 3 |};
      {| o_id := "b"; o_side := Some "sell"%string; o_reduceOnly := true;
         o_positionSide := Some "LONG"%string; o_origQty := - (2) |} ] in
  let w := {| oracle := fun _ => ROrders orders; trace := []; now := 0 |} in
  let g := set_sell_short_orders 7 (set_buy_long_orders 7 GridCore.init) in
  exists g',
    check_orders_status g w
    = (Returned tt, g',
       {| oracle := oracle w; trace := trace w ++ [FetchOpenOrders];
          now := now w |})
    /\ buy_long_orders g' = quantity_of "buy" "LONG" orders
    /\ sell_long_orders g' = quantity_of "sell" "LONG" orders
    /\ buy_short_orders g' = quantity_of "buy" "SHORT" orders
    /\ sell_short_orders g' = quantity_of "sell" "SHORT" orders
    /\ g' = store_counters (count_orders orders) g
    /\ long_position g' = long_position g
    /\ short_position g' = short_position g
    /\ (forall previous : GridCore,
          exists h w',
            check_orders_status previous w = (Returned tt, h, w')
            /\ buy_long_orders h = buy_long_orders g'
            /\ sell_long_orders h = sell_long_orders g'
            /\ buy_short_orders h = buy_short_orders g'
            /\ sell_short_orders h = sell_short_orders g').
Proof.
  cbv zeta.
  apply check_orders_status_replaces_counters. reflexivity.
Defined.

(** ** C9: the bot's emergency routine *)

Lemma fetch_open_orders_quiet {S} : quiet (S := S) fetch_open_orders.
Proof.
  unfold fetch_open_orders.
  apply quiet_bind; [apply quiet_call|].
  intro r. destruct r; auto with quiet.
Qed.

Lemma cancel_order_quiet {S} (order_id : string) :
  quiet (S := S) (cancel_order order_id).
Proof. unfold cancel_order. auto with quiet. Qed.

Lemma place_order_quiet {S} (side : string) (price' : option Q)
    (quantity' : Q) (is_reduce_only : bool) (position_side' order_type : string) :
  quiet (S := S)
    (place_order side price' quantity' is_reduce_only position_side'
       order_type).
Proof. unfold place_order. auto with quiet. Qed.

Lemma get_position_reports {S} (cfg : Config) :
  reports (S := S) (get_position cfg).
Proof.
  unfold get_position.
  apply reports_try_except; [|apply reports_ret].
  apply quiet_bind; [apply quiet_call|].
  intro r. destruct r; auto with quiet.
Qed.

Lemma cancel_all_reports (orders : list Order) : reports (cancel_all orders).
Proof.
  induction orders as [|order rest IH]; cbn [cancel_all].
  - apply reports_ret.
  - apply reports_bind; [|intro; exact IH].
    apply reports_try_except; [apply cancel_order_quiet|apply reports_ret].
Qed.

(** C9.  Whatever the exchange does (every oracle, so also when fetching or
    cancelling orders, fetching positions or placing the flatten orders
    raises), [trigger_emergency_protection] returns with the bot asleep, the
    sleep stamped with the time of the call, and the four pending-order
    counters and both positions at zero. *)
Theorem bot_emergency_always_sleeps_and_resets (cfg : Config)
    (b : GridTradingBot) (w : World) :
  exists b' w',
    Bot.trigger_emergency_protection cfg b w = (Returned tt, b', w')
    /\ is_sleeping b' = true
    /\ sleep_start_time b' = now w
    /\ buy_long_orders (grid_core b') = 0
    /\ sell_long_orders (grid_core b') = 0
    /\ sell_short_orders (grid_core b') = 0
    /\ buy_short_orders (grid_core b') = 0
    /\ long_position (grid_core b') = 0
    /\ short_position (grid_core b') = 0.
Proof.
  unfold Bot.trigger_emergency_protection.
  set (cancel_block :=
         try_except (orders <- fetch_open_orders ;; cancel_all orders)
           (ret tt)).
  set (flatten_block := try_except (bind (get_position cfg) _) (ret tt)).
  assert (Hc : reports cancel_block).
  { apply reports_try_except; [|apply reports_ret].
    apply quiet_bind; [apply fetch_open_orders_quiet|].
    intro orders. apply reports_quiet, cancel_all_reports. }
  assert (Hf : reports flatten_block).
  { apply reports_try_except; [|apply reports_ret].
    apply quiet_bind; [apply reports_quiet, get_position_reports|].
    intros [long_pos short_pos].
    apply quiet_bind.
    - destruct (Qltb 0 long_pos);
        [apply place_order_quiet|apply quiet_ret].
    - intro. destruct (Qltb 0 short_pos);
        [apply place_order_quiet|apply quiet_ret]. }
  destruct (Hc b w) as ([] & w1 & E1).
  destruct (Hf b w1) as ([] & w2 & E2).
  unfold try_except at 1. unfold bind at 1. unfold time_time at 1.
  unfold bind at 1. rewrite E1.
  unfold bind at 1. rewrite E2.
  eexists; eexists. split; [reflexivity|].
  cbn. repeat split; reflexivity.
Qed.

(** The routine on an exchange where every request raises, and on one where
    the order list arrives but every later request raises: the bot sleeps and
    is reset all the same. *)
Example bot_emergency_on_failing_exchange :
  let b := set_grid_core
             (set_long_position 40
                (set_short_position 25
                   (set_buy_long_orders 3 GridCore.init))) Bot.init in
  let order := {| o_id := "7"; o_side := Some "buy"%string;
                  o_reduceOnly := false;
                  o_positionSide := Some "LONG"%string; o_origQty := 3 |} in
  let run o :=
    let '(r, b', w') :=
      Bot.trigger_emergency_protection config b
        {| oracle := o; trace := []; now := 1000 |} in
    (r, is_sleeping b', sleep_start_time b', long_position (grid_core b'),
     short_position (grid_core b'), buy_long_orders (grid_core b'),
     trace w') in
  run (fun _ => RRaise)
  = (Returned tt, true, 1000, 0, 0, 0, [FetchOpenOrders; FetchPositions])
  /\ run (fun n => match n with O => ROrders [order] | _ => RRaise end)
     = (Returned tt, true, 1000, 0, 0, 0,
        [FetchOpenOrders; CancelOrder "7"; FetchPositions]).
Proof. cbv zeta. split; reflexivity. Qed.

(** ** Rules for [hoare] *)

Section HoareRules.

Context {S : Type}.
Variable O : (nat -> Reply) -> Prop.
Variable I : S -> Prop.
Variable P : Call -> Prop.

Lemma hoare_ret {A} (a : A) : hoare O I P (ret a).
Proof.
  intros s w _ Hs. cbn. split; [exact Hs|]. split; [reflexivity|].
  exists []. rewrite app_nil_r. split; [reflexivity|constructor].
Qed.

Lemma hoare_raise {A} : hoare O I P (raise (A := A)).
Proof.
  intros s w _ Hs. cbn. split; [exact Hs|]. split; [reflexivity|].
  exists []. rewrite app_nil_r. split; [reflexivity|constructor].
Qed.

Lemma hoare_get : hoare O I P get.
Proof.
  intros s w _ Hs. cbn. split; [exact Hs|]. split; [reflexivity|].
  exists []. rewrite app_nil_r. split; [reflexivity|constructor].
Qed.

Lemma hoare_time_time : hoare O I P time_time.
Proof.
  intros s w _ Hs. cbn. split; [exact Hs|]. split; [reflexivity|].
  exists []. rewrite app_nil_r. split; [reflexivity|constructor].
Qed.

Lemma hoare_sleep (d : Q) : hoare O I P (sleep d).
Proof.
  intros s w _ Hs. cbn. split; [exact Hs|]. split; [reflexivity|].
  exists []. rewrite app_nil_r. split; [reflexivity|constructor].
Qed.

Lemma hoare_modify (f : S -> S) :
  (forall s, I s -> I (f s)) -> hoare O I P (modify f).
Proof.
  intros Hf s w _ Hs. cbn. split; [apply Hf, Hs|]. split; [reflexivity|].
  exists []. rewrite app_nil_r. split; [reflexivity|constructor].
Qed.

Lemma hoare_call (c : Call) : P c -> hoare O I P (call c).
Proof.
  intros Hc s w _ Hs. unfold call.
  assert (G : I s /\ oracle w = oracle w
              /\ exists new, trace w ++ [c] = trace w ++ new /\ Forall P new).
  { split; [exact Hs|]. split; [reflexivity|].
    exists [c]. split; [reflexivity|]. constructor; [exact Hc|constructor]. }
  destruct (oracle w _); exact G.
Qed.

Lemma hoare_bind {A B} (m : M S A) (k : A -> M S B) :
  hoare O I P m -> (forall a, hoare O I P (k a)) -> hoare O I P (bind m k).
Proof.
  intros Hm Hk s w Ho Hs. unfold bind.
  specialize (Hm s w Ho Hs).
  destruct (m s w) as [[r s1] w1].
  destruct Hm as (Hs1 & Ho1 & n1 & Ht1 & Hp1).
  destruct r as [a|].
  - assert (Ho' : O (oracle w1)) by (rewrite Ho1; exact Ho).
    specialize (Hk a s1 w1 Ho' Hs1).
    destruct (k a s1 w1) as [[r2 s2] w2].
    destruct Hk as (Hs2 & Ho2 & n2 & Ht2 & Hp2).
    split; [exact Hs2|]. split; [congruence|].
    exists (n1 ++ n2). split.
    + rewrite Ht2, Ht1, app_assoc. reflexivity.
    + apply Forall_app. split; assumption.
  - split; [exact Hs1|]. split; [exact Ho1|].
    exists n1. split; assumption.
Qed.

(** After [g <- get], the value read satisfies the invariant. *)
Lemma hoare_bind_get {B} (k : S -> M S B) :
  (forall s0, I s0 -> hoare O I P (k s0)) -> hoare O I P (bind get k).
Proof.
  intros Hk s w Ho Hs. unfold bind, get.
  apply (Hk s Hs s w Ho Hs).
Qed.

Lemma hoare_try_except {A} (m h : M S A) :
  hoare O I P m -> hoare O I P h -> hoare O I P (try_except m h).
Proof.
  intros Hm Hh s w Ho Hs. unfold try_except.
  specialize (Hm s w Ho Hs).
  destruct (m s w) as [[r s1] w1].
  destruct Hm as (Hs1 & Ho1 & n1 & Ht1 & Hp1).
  destruct r as [a|].
  - split; [exact Hs1|]. split; [exact Ho1|].
    exists n1. split; assumption.
  - assert (Ho' : O (oracle w1)) by (rewrite Ho1; exact Ho).
    specialize (Hh s1 w1 Ho' Hs1).
    destruct (h s1 w1) as [[r2 s2] w2].
    destruct Hh as (Hs2 & Ho2 & n2 & Ht2 & Hp2).
    split; [exact Hs2|]. split; [congruence|].
    exists (n1 ++ n2). split.
    + rewrite Ht2, Ht1, app_assoc. reflexivity.
    + apply Forall_app. split; assumption.
Qed.

End HoareRules.

(** Structure-directed use of the rules; what is left are the facts about
    single requests and single assignments. *)
Ltac hoare_step :=
  lazymatch goal with
  | |- hoare _ _ _ (ret _) => apply hoare_ret
  | |- hoare _ _ _ raise => apply hoare_raise
  | |- hoare _ _ _ get => apply hoare_get
  | |- hoare _ _ _ time_time => apply hoare_time_time
  | |- hoare _ _ _ (sleep _) => apply hoare_sleep
  | |- hoare _ _ _ (bind get _) => apply hoare_bind_get; intros ? ?
  | |- hoare _ _ _ (bind _ _) => apply hoare_bind; [|intros ?]
  | |- hoare _ _ _ (try_except _ _) => apply hoare_try_except
  | |- hoare _ _ _ (call _) => apply hoare_call
  | |- hoare _ _ _ (modify _) => apply hoare_modify
  | |- hoare _ _ _ (if ?c then _ else _) => destruct c eqn:?
  | |- hoare _ _ _ (match ?r with _ => _ end) => destruct r
  end.

(** ** C7: no replenishment above the position threshold *)

(** No method of [GridCore] assigns a position. *)
Lemma store_counters_positions (c : Counters) (g : GridCore) :
  long_position (store_counters c g) = long_position g
  /\ short_position (store_counters c g) = short_position g.
Proof. split; reflexivity. Qed.

Lemma get_take_profit_quantity_positions (cfg : Config) (position : Q)
    (position_side : string) (g : GridCore) :
  long_position (get_take_profit_quantity cfg position position_side g)
  = long_position g
  /\ short_position (get_take_profit_quantity cfg position position_side g)
     = short_position g.
Proof.
  unfold get_take_profit_quantity.
  destruct (String.eqb position_side "long");
    [destruct (Qltb _ _); split; reflexivity|].
  destruct (String.eqb position_side "short");
    [destruct (Qltb _ _); split; reflexivity|].
  split; reflexivity.
Qed.

Lemma update_mid_price_positions (position_side : string) (latest_price' : Q)
    (g : GridCore) :
  long_position (update_mid_price position_side latest_price' g)
  = long_position g
  /\ short_position (update_mid_price position_side latest_price' g)
     = short_position g.
Proof.
  unfold update_mid_price.
  destruct (String.eqb position_side "long"); [split; reflexivity|].
  destruct (String.eqb position_side "short"); split; reflexivity.
Qed.

Section GridCoreRequests.

Variable cfg : Config.
Variables long short : Q.
Variable P : Call -> Prop.

Hypothesis P_fetch : P FetchOpenOrders.
Hypothesis P_cancel : forall id, P (CancelOrder id).
Hypothesis P_take_profit :
  forall side price' quantity', P (PlaceTakeProfitOrder side price' quantity').
Hypothesis P_reduce_only :
  forall side price' quantity' position_side' order_type,
    P (PlaceOrder side price' quantity' true position_side' order_type).

Let O : (nat -> Reply) -> Prop := fun _ => True.
Let I : GridCore -> Prop := positions_are long short.

Ltac keep_positions :=
  let g := fresh "g" in
  let Hl := fresh "Hl" in
  let Hs := fresh "Hs" in
  intros g [Hl Hs]; split;
  first
    [ rewrite (proj1 (store_counters_positions _ _)); exact Hl
    | rewrite (proj2 (store_counters_positions _ _)); exact Hs
    | rewrite (proj1 (get_take_profit_quantity_positions _ _ _ _)); exact Hl
    | rewrite (proj2 (get_take_profit_quantity_positions _ _ _ _)); exact Hs
    | rewrite (proj1 (update_mid_price_positions _ _ _)); exact Hl
    | rewrite (proj2 (update_mid_price_positions _ _ _)); exact Hs
    | exact Hl
    | exact Hs ].

Ltac grid_step :=
  first
    [ hoare_step
    | apply P_fetch | apply P_cancel | apply P_take_profit
    | apply P_reduce_only
    | keep_positions ].

Lemma hoare_fetch_open_orders : hoare O I P fetch_open_orders.
Proof. unfold fetch_open_orders. repeat grid_step. Qed.

Lemma hoare_check_orders_status : hoare O I P check_orders_status.
Proof.
  unfold check_orders_status.
  apply hoare_bind; [apply hoare_fetch_open_orders|].
  intro orders. repeat grid_step.
Qed.

Lemma hoare_cancel_each (position_side : string) (orders : list Order) :
  hoare O I P (cancel_each position_side orders).
Proof.
  induction orders as [|order rest IH]; cbn [cancel_each].
  - apply hoare_ret.
  - apply hoare_bind; [|intro; exact IH].
    unfold cancel_order. repeat grid_step.
Qed.

Lemma hoare_cancel_orders_for_side (position_side : string) :
  hoare O I P (cancel_orders_for_side position_side).
Proof.
  unfold cancel_orders_for_side.
  apply hoare_bind; [apply hoare_fetch_open_orders|].
  intro orders. destruct (_ =? _)%nat; [apply hoare_ret|].
  apply hoare_try_except;
    [apply hoare_cancel_each|apply hoare_check_orders_status].
Qed.

Lemma hoare_check_and_reduce_positions :
  hoare O I P (check_and_reduce_positions cfg).
Proof.
  unfold check_and_reduce_positions, place_order. repeat grid_step.
Qed.

Section LongSide.

Hypothesis P_long_entry :
  forall side price' quantity' order_type,
    P (PlaceOrder side price' quantity' false "long" order_type).

Lemma hoare_initialize_long_orders : hoare O I P (initialize_long_orders cfg).
Proof.
  unfold initialize_long_orders, place_order.
  repeat first
    [ lazymatch goal with
      | |- hoare _ _ _ (cancel_orders_for_side _) =>
          apply hoare_cancel_orders_for_side
      end
    | apply P_long_entry
    | grid_step ].
Qed.

Lemma hoare_place_long_orders (latest_price' : Q) :
  hoare O I P (place_long_orders cfg latest_price').
Proof.
  unfold place_long_orders, place_order, place_take_profit_order.
  repeat first
    [ lazymatch goal with
      | |- hoare _ _ _ (cancel_orders_for_side _) =>
          apply hoare_cancel_orders_for_side
      end
    | apply P_long_entry
    | grid_step ].
Qed.

Lemma hoare_adjust_long : hoare O I P (adjust_long cfg).
Proof.
  unfold adjust_long.
  repeat first
    [ lazymatch goal with
      | |- hoare _ _ _ (initialize_long_orders _) =>
          apply hoare_initialize_long_orders
      | |- hoare _ _ _ (place_long_orders _ _) =>
          apply hoare_place_long_orders
      end
    | lazymatch goal with
      | |- hoare _ _ _ check_orders_status =>
          apply hoare_check_orders_status
      end
    | grid_step ].
Qed.

End LongSide.

Section ShortSide.

Hypothesis P_short_entry :
  forall side price' quantity' order_type,
    P (PlaceOrder side price' quantity' false "short" order_type).

Lemma hoare_initialize_short_orders :
  hoare O I P (initialize_short_orders cfg).
Proof.
  unfold initialize_short_orders, place_order.
  repeat first
    [ lazymatch goal with
      | |- hoare _ _ _ (cancel_orders_for_side _) =>
          apply hoare_cancel_orders_for_side
      end
    | apply P_short_entry
    | grid_step ].
Qed.

Lemma hoare_place_short_orders (latest_price' : Q) :
  hoare O I P (place_short_orders cfg latest_price').
Proof.
  unfold place_short_orders, place_order, place_take_profit_order.
  repeat first
    [ lazymatch goal with
      | |- hoare _ _ _ (cancel_orders_for_side _) =>
          apply hoare_cancel_orders_for_side
      end
    | apply P_short_entry
    | grid_step ].
Qed.

Lemma hoare_adjust_short : hoare O I P (adjust_short cfg).
Proof.
  unfold adjust_short.
  repeat first
    [ lazymatch goal with
      | |- hoare _ _ _ (initialize_short_orders _) =>
          apply hoare_initialize_short_orders
      | |- hoare _ _ _ (place_short_orders _ _) =>
          apply hoare_place_short_orders
      end
    | lazymatch goal with
      | |- hoare _ _ _ check_orders_status =>
          apply hoare_check_orders_status
      end
    | grid_step ].
Qed.

End ShortSide.

End GridCoreRequests.

(** Above the threshold the side's half of the pass needs no permission to
    place entry orders: it never reaches them. *)
Section ConservativeMode.

Variable cfg : Config.
Variables long short : Q.
Variable P : Call -> Prop.

Hypothesis P_take_profit :
  forall side price' quantity', P (PlaceTakeProfitOrder side price' quantity').

Let O : (nat -> Reply) -> Prop := fun _ => True.
Let I : GridCore -> Prop := positions_are long short.

Lemma I_get_take_profit_quantity (position : Q) (position_side : string) :
  forall g, I g -> I (get_take_profit_quantity cfg position position_side g).
Proof.
  intros g [Hl Hs].
  destruct (get_take_profit_quantity_positions cfg position position_side g)
    as [El Es].
  split; congruence.
Qed.

Lemma hoare_place_long_orders_conservative (latest_price' : Q) :
  POSITION_THRESHOLD cfg < long ->
  hoare O I P (place_long_orders cfg latest_price').
Proof.
  intro Hth. apply Qltb_lt in Hth.
  unfold place_long_orders, place_take_profit_order.
  apply hoare_try_except; [|apply hoare_ret].
  apply hoare_bind_get. intros g0 _.
  apply hoare_bind;
    [apply hoare_modify, I_get_take_profit_quantity|intros _].
  apply hoare_bind_get. intros g [Hl _]. rewrite Hl, Hth.
  destruct (Qltb 0 long); [|apply hoare_ret].
  destruct (Qleb _ _); [|apply hoare_ret].
  apply hoare_bind; [|intro; apply hoare_ret].
  apply hoare_call, P_take_profit.
Qed.

Lemma hoare_place_short_orders_conservative (latest_price' : Q) :
  POSITION_THRESHOLD cfg < short ->
  hoare O I P (place_short_orders cfg latest_price').
Proof.
  intro Hth. apply Qltb_lt in Hth.
  unfold place_short_orders, place_take_profit_order.
  apply hoare_try_except; [|apply hoare_ret].
  apply hoare_bind_get. intros g0 _.
  apply hoare_bind;
    [apply hoare_modify, I_get_take_profit_quantity|intros _].
  apply hoare_bind_get. intros g [_ Hs]. rewrite Hs, Hth.
  destruct (Qltb 0 short); [|apply hoare_ret].
  destruct (Qleb _ _); [|apply hoare_ret].
  apply hoare_bind; [|intro; apply hoare_ret].
  apply hoare_call, P_take_profit.
Qed.

Lemma hoare_adjust_long_conservative :
  ~ long == 0 -> POSITION_THRESHOLD cfg < long ->
  hoare O I P (adjust_long cfg).
Proof.
  intros Hnz Hth.
  assert (Ez : Qeq_bool long 0 = false).
  { destruct (Qeq_bool long 0) eqn:E; [|reflexivity].
    apply Qeq_bool_iff in E. contradiction. }
  assert (Et : Qltb long (POSITION_THRESHOLD cfg) = false).
  { apply Qltb_ge, Qlt_le_weak, Hth. }
  unfold adjust_long.
  apply hoare_bind_get. intros g [Hl _]. rewrite Hl, Ez, Et.
  destruct (_ || _); [|apply hoare_ret].
  apply hoare_place_long_orders_conservative, Hth.
Qed.

Lemma hoare_adjust_short_conservative :
  ~ short == 0 -> POSITION_THRESHOLD cfg < short ->
  hoare O I P (adjust_short cfg).
Proof.
  intros Hnz Hth.
  assert (Ez : Qeq_bool short 0 = false).
  { destruct (Qeq_bool short 0) eqn:E; [|reflexivity].
    apply Qeq_bool_iff in E. contradiction. }
  assert (Et : Qltb short (POSITION_THRESHOLD cfg) = false).
  { apply Qltb_ge, Qlt_le_weak, Hth. }
  unfold adjust_short.
  apply hoare_bind_get. intros g [_ Hs]. rewrite Hs, Ez, Et.
  destruct (_ || _); [|apply hoare_ret].
  apply hoare_place_short_orders_conservative, Hth.
Qed.

End ConservativeMode.

(** The requests of a run, read off a [hoare] fact. *)
Lemma hoare_requests {S A} (I : S -> Prop) (P : Call -> Prop) (m : M S A)
    (s : S) (w : World) :
  hoare (fun _ => True) I P m -> I s ->
  exists new, trace (snd (m s w)) = trace w ++ new /\ Forall P new.
Proof.
  intros H Hs. specialize (H s w Logic.I Hs).
  destruct (m s w) as [[r s'] w']. cbn [snd].
  destruct H as (_ & _ & new & Ht & Hp). exists new. split; assumption.
Qed.

(** Above the threshold, the side's half of the pass places nothing or one
    take-profit order for that side. *)
Lemma adjust_long_conservative_requests (cfg : Config) (g : GridCore)
    (w : World) :
  ~ long_position g == 0 -> POSITION_THRESHOLD cfg < long_position g ->
  exists new,
    trace (snd (adjust_long cfg g w)) = trace w ++ new
    /\ (new = []
        \/ exists price' quantity',
             new = [PlaceTakeProfitOrder "long" price' quantity']).
Proof.
  intros Hnz Hth.
  assert (Ez : Qeq_bool (long_position g) 0 = false).
  { destruct (Qeq_bool (long_position g) 0) eqn:E; [|reflexivity].
    apply Qeq_bool_iff in E. contradiction. }
  assert (Et : Qltb (long_position g) (POSITION_THRESHOLD cfg) = false).
  { apply Qltb_ge, Qlt_le_weak, Hth. }
  apply Qltb_lt in Hth.
  unfold adjust_long, bind at 1, get at 1. rewrite Ez, Et.
  destruct (_ || _); [|exists []; rewrite app_nil_r; split; [reflexivity|left; reflexivity]].
  unfold place_long_orders, place_take_profit_order, try_except, bind, get,
    modify, ret, call.
  rewrite (proj1 (get_take_profit_quantity_positions _ _ _ _)), Hth.
  destruct (Qltb 0 (long_position g));
    [|exists []; rewrite app_nil_r; split; [reflexivity|left; reflexivity]].
  destruct (Qleb _ _);
    [|exists []; rewrite app_nil_r; split; [reflexivity|left; reflexivity]].
  eexists. split.
  - destruct (oracle w _); cbn; reflexivity.
  - right. eexists; eexists; reflexivity.
Qed.

Lemma adjust_short_conservative_requests (cfg : Config) (g : GridCore)
    (w : World) :
  ~ short_position g == 0 -> POSITION_THRESHOLD cfg < short_position g ->
  exists new,
    trace (snd (adjust_short cfg g w)) = trace w ++ new
    /\ (new = []
        \/ exists price' quantity',
             new = [PlaceTakeProfitOrder "short" price' quantity']).
Proof.
  intros Hnz Hth.
  assert (Ez : Qeq_bool (short_position g) 0 = false).
  { destruct (Qeq_bool (short_position g) 0) eqn:E; [|reflexivity].
    apply Qeq_bool_iff in E. contradiction. }
  assert (Et : Qltb (short_position g) (POSITION_THRESHOLD cfg) = false).
  { apply Qltb_ge, Qlt_le_weak, Hth. }
  apply Qltb_lt in Hth.
  unfold adjust_short, bind at 1, get at 1. rewrite Ez, Et.
  destruct (_ || _); [|exists []; rewrite app_nil_r; split; [reflexivity|left; reflexivity]].
  unfold place_short_orders, place_take_profit_order, try_except, bind, get,
    modify, ret, call.
  rewrite (proj2 (get_take_profit_quantity_positions _ _ _ _)), Hth.
  destruct (Qltb 0 (short_position g));
    [|exists []; rewrite app_nil_r; split; [reflexivity|left; reflexivity]].
  destruct (Qleb _ _);
    [|exists []; rewrite app_nil_r; split; [reflexivity|left; reflexivity]].
  eexists. split.
  - destruct (oracle w _); cbn; reflexivity.
  - right. eexists; eexists; reflexivity.
Qed.

(** The whole pass, seen from one side that is above the threshold. *)
Lemma adjust_grid_strategy_long_conservative (cfg : Config) (g : GridCore)
    (w : World) :
  ~ long_position g == 0 -> POSITION_THRESHOLD cfg < long_position g ->
  exists new,
    trace (snd (adjust_grid_strategy cfg g w)) = trace w ++ new
    /\ Forall (fun c => replenishes "long" c = false) new.
Proof.
  intros Hnz Hth.
  apply (hoare_requests (positions_are (long_position g) (short_position g)));
    [|split; reflexivity].
  unfold adjust_grid_strategy.
  apply hoare_bind; [|intros _; apply hoare_bind; [|intros _]].
  - apply hoare_check_and_reduce_positions; reflexivity.
  - apply hoare_adjust_long_conservative; try assumption. reflexivity.
  - apply hoare_adjust_short; reflexivity.
Qed.

Lemma adjust_grid_strategy_short_conservative (cfg : Config) (g : GridCore)
    (w : World) :
  ~ short_position g == 0 -> POSITION_THRESHOLD cfg < short_position g ->
  exists new,
    trace (snd (adjust_grid_strategy cfg g w)) = trace w ++ new
    /\ Forall (fun c => replenishes "short" c = false) new.
Proof.
  intros Hnz Hth.
  apply (hoare_requests (positions_are (long_position g) (short_position g)));
    [|split; reflexivity].
  unfold adjust_grid_strategy.
  apply hoare_bind; [|intros _; apply hoare_bind; [|intros _]].
  - apply hoare_check_and_reduce_positions; reflexivity.
  - apply hoare_adjust_long; reflexivity.
  - apply hoare_adjust_short_conservative; try assumption. reflexivity.
Qed.

(** The claim C7 as stated fails in its second half: with both sides at 600
    (threshold 500) and no take-profit order counted as resting, one pass
    places two orders for the long side, and the first of them is not a
    take-profit order but the reduce-only close of
    [check_and_reduce_positions]. *)
Lemma conservative_pass_places_risk_valve_order :
  let g := set_latest_price 2
             (set_short_position 600
                (set_long_position 600 GridCore.init)) in
  let w := {| oracle := fun _ => RNone; trace := []; now := 100 |} in
  ~ long_position g == 0
  /\ POSITION_THRESHOLD config < long_position g
  /\ filter (places_order_for "long")
       (trace (snd (adjust_grid_strategy config g w)))
     = [ PlaceOrder "sell" (Some (latest_price g * (999 # 1000)))
           (py_min 600 600 * (5 # 10)) true "long" "limit";
         PlaceTakeProfitOrder "long"
           (latest_price g * (600 / py_max 600 1 / 100 + 1))
           (py_min 600 (INITIAL_QUANTITY config * 2)) ].
Proof.
  cbv zeta. split; [|split].
  - intro H. discriminate H.
  - reflexivity.
  - reflexivity.
Qed.

(** What that pass asks of the exchange: the long side (40, below the
    threshold) is resynchronised and re-gridded with a replenishment order,
    the short side (600) gets its single take-profit order and nothing
    else. *)
Example conservative_pass_trace :
  let g := set_latest_price 2
             (set_short_position 600
                (set_long_position 40 GridCore.init)) in
  let w := {| oracle := fun _ => ROrders []; trace := []; now := 100 |} in
  filter (fun c => places_order_for "long" c || places_order_for "short" c)
    (trace (snd (adjust_grid_strategy config g w)))
  = [ PlaceTakeProfitOrder "long" (2 * (1 + (1 # 1000))) (py_min 40 3);
      PlaceOrder "buy" (Some (2 * (1 - (1 # 1000)))) (py_min 40 3) false
        "long" "limit";
      PlaceTakeProfitOrder "short" (2 / (600 / py_max 40 1 / 100 + 1))
        (py_min 600 (3 * 2)) ].
Proof. reflexivity. Qed.

(** ** C8: positions are never negative *)

Lemma hoare_weaken_oracle {S A} (O : (nat -> Reply) -> Prop) (I : S -> Prop)
    (P : Call -> Prop) (m : M S A) :
  hoare (fun _ => True) I P m -> hoare O I P m.
Proof. intros H s w _ Hs. exact (H s w Logic.I Hs). Qed.









(** The invariant of the event loop, for what is known of the long position
    ([L]) under what is assumed of the exchange ([O]); the short position is
    non-negative throughout. *)
Section PositionInvariant.

Variable cfg : Config.
Variable O : (nat -> Reply) -> Prop.
Variable L : Q -> Prop.

Hypothesis L_zero : L 0.
Hypothesis L_add : forall l f, 0 <= f -> L l -> L (l + f).
Hypothesis L_clamp : forall x, L (py_max 0 x).
Hypothesis snapshot :
  forall (b : GridTradingBot) (w : World),
    O (oracle w) ->
    exists long short,
      get_position cfg b w
      = (Returned (long, short), b,
         {| oracle := oracle w; trace := trace w ++ [FetchPositions];
            now := now w |})
      /\ L long /\ 0 <= short.

Let P : Call -> Prop := fun _ => True.
Let J : GridCore -> Prop :=
  fun g => L (long_position g) /\ 0 <= short_position g.
Let I : GridTradingBot -> Prop := fun b => J (grid_core b).













End PositionInvariant.




(** The positions along a run on an exchange that answers nothing: a buy fill
    of 5 and then a sell fill of 8 on the long side leave 5 and then 0; a
    sync then copies the adapter's fallback snapshot (0, 0). *)
Example positions_along_a_run :
  let fill side' filled' :=
    OrderUpdateEvent
      {| symbol := Some "XRPUSDC"%string; side := Some side';
         position_side := Some "LONG"%string;
         order_status := Some "FILLED"%string;
         quantity := filled'; filled := filled' |} in
  let w := {| oracle := fun _ => RRaise; trace := []; now := 100 |} in
  let long_after events :=
    long_position (grid_core (snd (fst (run_events config events Bot.init w))))
  in
  long_after [fill "BUY"%string 5] = 0 + 5
  /\ long_after [fill "BUY"%string 5; fill "SELL"%string 8] = 0
  /\ long_after [fill "BUY"%string 5; PositionSyncEvent 100] = 0.
Proof. cbv zeta. repeat split. Qed.

(** * Further properties of the grid core *)

Import Exchange.

Lemma after_requests_nil (w : World) : after_requests w [] = w.
Proof.
  unfold after_requests. rewrite app_nil_r. destruct w; reflexivity.
Qed.

Lemma after_requests_app (w : World) (a b : list Call) :
  after_requests (after_requests w a) b = after_requests w (a ++ b).
Proof. unfold after_requests. cbn. rewrite app_assoc. reflexivity. Qed.

(** A request that does not raise returns the oracle's reply. *)
Lemma call_returns {S} (c : Call) (s : S) (w : World) :
  reply_at w 0 <> RRaise ->
  call c s w = (Returned (reply_at w 0), s, after_requests w [c]).
Proof.
  unfold reply_at, call, after_requests. rewrite Nat.add_0_r.
  destruct (oracle w _); intro H; try reflexivity. contradiction.
Qed.

Lemma call_raises {S} (c : Call) (s : S) (w : World) :
  reply_at w 0 = RRaise ->
  call c s w = (Raised, s, after_requests w [c]).
Proof.
  unfold reply_at, call, after_requests. rewrite Nat.add_0_r.
  intros ->. reflexivity.
Qed.

Lemma reply_at_after (w : World) (new : list Call) (k : nat) :
  reply_at (after_requests w new) k = reply_at w (List.length new + k).
Proof.
  unfold reply_at, after_requests. cbn. rewrite length_app.
  rewrite Nat.add_assoc. reflexivity.
Qed.

Lemma never_raises_reply_at (w : World) (k : nat) :
  never_raises (oracle w) -> reply_at w k <> RRaise.
Proof. intros H. apply H. Qed.

Lemma fetch_open_orders_run {S} (orders : list Order) (s : S) (w : World) :
  reply_at w 0 = ROrders orders ->
  fetch_open_orders s w
  = (Returned orders, s, after_requests w [FetchOpenOrders]).
Proof.
  intro H. unfold fetch_open_orders, bind.
  rewrite call_returns by (rewrite H; discriminate).
  rewrite H. reflexivity.
Qed.

(** ** Cancelling one side's orders *)

(** The loop of [cancel_orders_for_side] asks to cancel, in list order, the
    orders that pass the role test, and stops at the first request that
    raises. *)
Lemma cancel_each_run (position_side : string) (orders : list Order) :
  forall (g : GridCore) (w : World),
    exists r k,
      cancel_each position_side orders g w
      = (r, g,
         after_requests w
           (map CancelOrder (firstn k (cancel_targets position_side orders))))
      /\ (k <= List.length (cancel_targets position_side orders))%nat
      /\ (r = Returned tt ->
          k = List.length (cancel_targets position_side orders))
      /\ (r = Raised -> (0 < k)%nat /\ reply_at w (k - 1) = RRaise).
Proof.
  induction orders as [|order rest IH]; intros g w.
  - exists (Returned tt), 0%nat. cbn. rewrite after_requests_nil.
    split; [reflexivity|]. split; [lia|]. split; [reflexivity|discriminate].
  - cbn [cancel_each]. unfold cancel_targets. cbn [filter].
    destruct (cancels position_side order) eqn:Ec.
    + cbn [map]. unfold bind at 1, cancel_order, bind at 1.
      destruct (reply_at w 0) eqn:E0.
      7:{ rewrite call_raises by exact E0.
          exists Raised, 1%nat. cbn.
          split; [reflexivity|]. split; [lia|].
          split; [discriminate|]. intros _. split; [lia|exact E0]. }
      all: rewrite call_returns by (rewrite E0; discriminate);
        cbn [ret];
        destruct (IH g (after_requests w [CancelOrder (o_id order)]))
          as (r & k & E & Hk & Hr & Hx);
        exists r, (Datatypes.S k); unfold ret; rewrite E;
        rewrite after_requests_app; cbn [firstn map app List.length];
        (split; [reflexivity|]);
        (split; [unfold cancel_targets in Hk; lia|]);
        (split; [intro Hret; unfold cancel_targets in Hr;
                 rewrite (Hr Hret); reflexivity|]);
        intro Hret; destruct (Hx Hret) as [Hpos Hat];
        (split; [lia|]);
        rewrite reply_at_after in Hat; cbn [List.length] in Hat;
        replace (Datatypes.S k - 1)%nat with (1 + (k - 1))%nat by lia;
        exact Hat.
    + unfold bind at 1, ret at 1.
      destruct (IH g w) as (r & k & E & Hk & Hr & Hx).
      exists r, k. rewrite E. repeat split; try assumption; apply Hx; assumption.
Qed.


Lemma check_orders_status_run (g : GridCore) (w : World) :
  check_orders_status g w
  = match reply_at w 0 with
    | ROrders orders =>
        (Returned tt, store_counters (count_orders orders) g,
         after_requests w [FetchOpenOrders])
    | _ => (Raised, g, after_requests w [FetchOpenOrders])
    end.
Proof.
  unfold check_orders_status, fetch_open_orders, bind, call, modify, ret,
    raise, reply_at, after_requests.
  rewrite Nat.add_0_r. destruct (oracle w _); reflexivity.
Qed.

(** The run of [cancel_orders_for_side] once the exchange has listed the open
    orders: either every target is asked for, or the loop stops at the first
    cancel that raises and the counters are resynchronised. *)
Lemma cancel_orders_for_side_run (position_side : string)
    (orders : list Order) (g : GridCore) (w : World) :
  reply_at w 0 = ROrders orders ->
  let targets := cancel_targets position_side orders in
  cancel_orders_for_side position_side g w
  = (Returned tt, g,
     after_requests w (FetchOpenOrders :: map CancelOrder targets))
  \/ exists k,
       (0 < k <= List.length targets)%nat
       /\ reply_at w k = RRaise
       /\ cancel_orders_for_side position_side g w
          = match reply_at w (Datatypes.S k) with
            | ROrders orders' =>
                (Returned tt, store_counters (count_orders orders') g,
                 after_requests w
                   (FetchOpenOrders :: map CancelOrder (firstn k targets)
                    ++ [FetchOpenOrders]))
            | _ =>
                (Raised, g,
                 after_requests w
                   (FetchOpenOrders :: map CancelOrder (firstn k targets)
                    ++ [FetchOpenOrders]))
            end.
Proof.
  intros H0 targets. unfold cancel_orders_for_side, bind.
  rewrite (fetch_open_orders_run orders) by exact H0.
  destruct orders as [|o os].
  - left. reflexivity.
  - cbn [List.length Nat.eqb]. unfold try_except.
    destruct (cancel_each_run position_side (o :: os) g
                (after_requests w [FetchOpenOrders]))
      as (r & k & E & Hk & Hr & Hx).
    rewrite E. rewrite after_requests_app. cbn [app].
    destruct r as [[]|].
    + left. rewrite (Hr eq_refl), firstn_all. reflexivity.
    + right. destruct (Hx eq_refl) as [Hpos Hat].
      rewrite reply_at_after in Hat. cbn [List.length] in Hat.
      exists k. split; [fold targets in Hk; lia|].
      split; [replace k with (1 + (k - 1))%nat by lia; exact Hat|].
      rewrite check_orders_status_run.
      rewrite reply_at_after. cbn [List.length].
      rewrite length_map, length_firstn.
      fold targets in Hk.
      replace (Datatypes.S (Nat.min k (List.length (cancel_targets position_side (o :: os)))) + 0)%nat
        with (Datatypes.S k) by (unfold targets in Hk; lia).
      rewrite after_requests_app.
      change (FetchOpenOrders
              :: map CancelOrder
                   (firstn k (cancel_targets position_side (o :: os))))
        with ([FetchOpenOrders]
              ++ map CancelOrder
                   (firstn k (cancel_targets position_side (o :: os)))).
      rewrite <- !app_assoc. cbn [app].
      destruct (reply_at w (Datatypes.S k)); reflexivity.
Qed.

(** Which orders pass the role test. *)
Ltac role_cases order :=
  unfold cancels;
  destruct order as [id [s|] ro [ps|] q];
  cbn [o_side o_reduceOnly o_positionSide is_str];
  destruct ro; cbn [negb andb];
  repeat match goal with
         | |- context [String.eqb ?a ?b] =>
             destruct (String.eqb_spec a b); subst
         end;
  cbn [andb]; split; intro H; try discriminate; try reflexivity;
  intuition congruence.

Lemma cancels_long (order : Order) :
  cancels "long" order = true <->
  o_positionSide order = Some "LONG"%string
  /\ ((o_reduceOnly order = false /\ o_side order = Some "buy"%string)
      \/ (o_reduceOnly order = true /\ o_side order = Some "sell"%string)).
Proof. role_cases order. Qed.

Lemma cancels_short (order : Order) :
  cancels "short" order = true <->
  o_positionSide order = Some "SHORT"%string
  /\ ((o_reduceOnly order = false /\ o_side order = Some "sell"%string)
      \/ (o_reduceOnly order = true /\ o_side order = Some "buy"%string)).
Proof. role_cases order. Qed.


Import Roles.

Lemma cancels_belongs_to (position_side : string) (order : Order) :
  cancels position_side order = true <-> belongs_to position_side order.
Proof.
  unfold belongs_to.
  destruct (String.eqb_spec position_side "long") as [->|Hl].
  - apply cancels_long.
  - destruct (String.eqb_spec position_side "short") as [->|Hs].
    + apply cancels_short.
    + unfold cancels.
      apply String.eqb_neq in Hl, Hs. rewrite Hl, Hs.
      split; [discriminate|contradiction].
Qed.

(** X1.  When the exchange lists the open orders and no cancel request
    raises, [cancel_orders_for_side] asks to cancel exactly the listed orders
    that belong to the side (its entry and take-profit orders), in list
    order, touches no attribute, and asks for nothing else; orders of the
    other side, or with another position side, are never cancelled. *)
Theorem cancel_orders_for_side_cancels_the_side (position_side : string)
    (orders : list Order) (g : GridCore) (w : World) :
  reply_at w 0 = ROrders orders ->
  (forall k, reply_at w (Datatypes.S k) <> RRaise) ->
  cancel_orders_for_side position_side g w
  = (Returned tt, g,
     after_requests w
       (FetchOpenOrders
        :: map CancelOrder (cancel_targets position_side orders)))
  /\ (forall id,
        In id (cancel_targets position_side orders) <->
        exists order,
          In order orders /\ o_id order = id
          /\ belongs_to position_side order).
Proof.
  intros H0 Hn. split.
  - destruct (cancel_orders_for_side_run position_side orders g w H0)
      as [E|(k & [Hk _] & Hr & _)]; [exact E|].
    destruct k as [|k]; [lia|]. exfalso. exact (Hn k Hr).
  - intro id. unfold cancel_targets. rewrite in_map_iff.
    split.
    + intros (order & Hid & Hin). apply filter_In in Hin.
      destruct Hin as [Hin Hc].
      exists order. split; [exact Hin|]. split; [exact Hid|].
      apply cancels_belongs_to, Hc.
    + intros (order & Hin & Hid & Hb).
      exists order. split; [exact Hid|].
      apply filter_In. split; [exact Hin|].
      apply cancels_belongs_to, Hb.
Qed.

(** A long entry, a long take-profit, a short entry and an order without
    position side resting; the long side is cancelled. *)
Lemma cancel_orders_for_side_cancels_the_side_witness :
  let orders :=
    [ {| o_id := "e"; o_side := Some "buy"%string; o_reduceOnly := false;
         o_positionSide := Some "LONG"%string; o_origQty := 3 |};
      {| o_id := "s"; o_side := Some "sell"%string; o_reduceOnly := false;
         o_positionSide := Some "SHORT"%string; o_origQty := 3 |};
      {| o_id := "t"; o_side := Some "sell"%string; o_reduceOnly := true;
         o_positionSide := Some "LONG"%string; o_origQty := 3 |};
      {| o_id := "b"; o_side := Some "buy"%string; o_reduceOnly := false;
         o_positionSide := None; o_origQty := 3 |} ] in
  let w := {| oracle := fun _ => ROrders orders; trace := []; now := 0 |} in
  cancel_orders_for_side "long" GridCore.init w
  = (Returned tt, GridCore.init,
     after_requests w
       (FetchOpenOrders :: map CancelOrder (cancel_targets "long" orders)))
  /\ (forall id,
        In id (cancel_targets "long" orders) <->
        exists order,
          In order orders /\ o_id order = id /\ belongs_to "long" order).
Proof.
  cbv zeta.
  apply cancel_orders_for_side_cancels_the_side.
  - reflexivity.
  - intros k H. discriminate H.
Defined.

(** The loop stops at the first cancel that raises: the targets before it
    have been asked for, the later ones are not. *)
Lemma cancel_each_stops (position_side : string) (orders : list Order) :
  forall (g : GridCore) (w : World) (k : nat),
    (k < List.length (cancel_targets position_side orders))%nat ->
    (forall j, (j < k)%nat -> reply_at w j <> RRaise) ->
    reply_at w k = RRaise ->
    cancel_each position_side orders g w
    = (Raised, g,
       after_requests w
         (map CancelOrder
            (firstn (Datatypes.S k) (cancel_targets position_side orders)))).
Proof.
  induction orders as [|order rest IH]; intros g w k Hk Hbefore Hat.
  - cbn in Hk. lia.
  - cbn [cancel_each]. unfold cancel_targets in *. cbn [filter] in *.
    destruct (cancels position_side order) eqn:Ec.
    + cbn [map List.length] in *. unfold bind at 1, cancel_order, bind at 1.
      destruct k as [|k].
      * rewrite call_raises by exact Hat. reflexivity.
      * rewrite call_returns by (apply Hbefore; lia). cbn [ret].
        unfold ret.
        rewrite (IH g (after_requests w [CancelOrder (o_id order)]) k).
        -- rewrite after_requests_app. reflexivity.
        -- lia.
        -- intros j Hj. rewrite reply_at_after. cbn [List.length Nat.add].
           apply Hbefore. lia.
        -- rewrite reply_at_after. exact Hat.
    + unfold bind at 1, ret at 1. apply IH; assumption.
Qed.

(** X2.  When a cancel request raises, [cancel_orders_for_side] asks for no
    further cancel: with the open orders listed and the cancel of the
    [k]-th target the first to raise, the targets up to that one have been
    asked for and those after it are left alone; the method then falls back
    to one resync, whose order list replaces the counters (if the resync
    itself fails, the exception leaves the method and the attributes are
    unchanged). *)
Theorem cancel_orders_for_side_stops_at_failure (position_side : string)
    (orders : list Order) (g : GridCore) (w : World) (k : nat) :
  reply_at w 0 = ROrders orders ->
  (k < List.length (cancel_targets position_side orders))%nat ->
  (forall j, (j < k)%nat -> reply_at w (Datatypes.S j) <> RRaise) ->
  reply_at w (Datatypes.S k) = RRaise ->
  let asked :=
    FetchOpenOrders
    :: map CancelOrder
         (firstn (Datatypes.S k) (cancel_targets position_side orders))
    ++ [FetchOpenOrders] in
  cancel_orders_for_side position_side g w
  = match reply_at w (Datatypes.S (Datatypes.S k)) with
    | ROrders orders' =>
        (Returned tt, store_counters (count_orders orders') g,
         after_requests w asked)
    | _ => (Raised, g, after_requests w asked)
    end.
Proof.
  intros H0 Hk Hbefore Hat. cbv zeta.
  unfold cancel_orders_for_side, bind.
  rewrite (fetch_open_orders_run orders) by exact H0.
  destruct orders as [|o os]; [cbn in Hk; lia|].
  cbn [List.length Nat.eqb]. unfold try_except.
  rewrite (cancel_each_stops position_side (o :: os) g
             (after_requests w [FetchOpenOrders]) k Hk).
  - rewrite check_orders_status_run.
    rewrite !after_requests_app, !reply_at_after.
    rewrite length_app, length_map, length_firstn.
    cbn [List.length app].
    replace (1 + Nat.min (Datatypes.S k)
                   (List.length (cancel_targets position_side (o :: os)))
             + 0)%nat
      with (Datatypes.S (Datatypes.S k)) by lia.
    destruct (reply_at w (Datatypes.S (Datatypes.S k))); reflexivity.
  - intros j Hj. rewrite reply_at_after. cbn [List.length Nat.add].
    apply Hbefore. exact Hj.
  - rewrite reply_at_after. exact Hat.
Qed.

(** Three long-side orders resting; the second cancel raises, the resync
    sees two orders left. *)
Lemma cancel_orders_for_side_stops_at_failure_witness :
  let e := {| o_id := "e"; o_side := Some "buy"%string;
              o_reduceOnly := false; o_positionSide := Some "LONG"%string;
              o_origQty := 3 |} in
  let t := {| o_id := "t"; o_side := Some "sell"%string;
              o_reduceOnly := true; o_positionSide := Some "LONG"%string;
              o_origQty := 2 |} in
  let u := {| o_id := "u"; o_side := Some "sell"%string;
              o_reduceOnly := true; o_positionSide := Some "LONG"%string;
              o_origQty := 1 |} in
  let w := {| oracle := fun n => match n with
                                 | O => ROrders [e; t; u]
                                 | 1%nat => RNone
                                 | 2%nat => RRaise
                                 | _ => ROrders [t; u]
                                 end;
              trace := []; now := 0 |} in
  cancel_orders_for_side "long" GridCore.init w
  = (Returned tt, store_counters (count_orders [t; u]) GridCore.init,
     after_requests w
       [FetchOpenOrders; CancelOrder "e"; CancelOrder "t"; FetchOpenOrders]).
Proof.
  intros e t u w.
  pose proof (cancel_orders_for_side_stops_at_failure "long" [e; t; u]
                GridCore.init w 1) as H.
  assert (H0 : reply_at w 0 = ROrders [e; t; u]) by reflexivity.
  assert (Hk : (1 < List.length (cancel_targets "long" [e; t; u]))%nat)
    by (cbn; lia).
  assert (Hb : forall j, (j < 1)%nat ->
                         reply_at w (Datatypes.S j) <> RRaise).
  { intros j Hj. assert (j = 0)%nat as -> by lia. discriminate. }
  assert (Hat : reply_at w 2 = RRaise) by reflexivity.
  exact (H H0 Hk Hb Hat).
Defined.

(** The run of that example: one cancel asked for, then the resync. *)
Example cancel_orders_for_side_failure_trace :
  let e := {| o_id := "e"; o_side := Some "buy"%string;
              o_reduceOnly := false; o_positionSide := Some "LONG"%string;
              o_origQty := 3 |} in
  let t := {| o_id := "t"; o_side := Some "sell"%string;
              o_reduceOnly := true; o_positionSide := Some "LONG"%string;
              o_origQty := 2 |} in
  let w := {| oracle := fun n => match n with
                                 | O => ROrders [e; t]
                                 | 1%nat => RRaise
                                 | _ => ROrders [t]
                                 end;
              trace := []; now := 0 |} in
  let '(r, g, w') := cancel_orders_for_side "long" GridCore.init w in
  (r, trace w', buy_long_orders g, sell_long_orders g)
  = (Returned tt, [FetchOpenOrders; CancelOrder "e"; FetchOpenOrders],
     0, 0 + 2).
Proof. reflexivity. Qed.


(** ** Entry orders and their interval *)

Lemma place_order_returns {S} (side' : string) (price' : option Q)
    (quantity' : Q) (is_reduce_only : bool) (position_side' order_type : string)
    (s : S) (w : World) :
  reply_at w 0 <> RRaise ->
  place_order side' price' quantity' is_reduce_only position_side' order_type
    s w
  = (Returned tt, s,
     after_requests w
       [PlaceOrder side' price' quantity' is_reduce_only position_side'
          order_type]).
Proof.
  intro H. unfold place_order, bind. rewrite call_returns by exact H.
  reflexivity.
Qed.

Lemma place_order_raises {S} (side' : string) (price' : option Q)
    (quantity' : Q) (is_reduce_only : bool) (position_side' order_type : string)
    (s : S) (w : World) :
  reply_at w 0 = RRaise ->
  place_order side' price' quantity' is_reduce_only position_side' order_type
    s w
  = (Raised, s,
     after_requests w
       [PlaceOrder side' price' quantity' is_reduce_only position_side'
          order_type]).
Proof.
  intro H. unfold place_order, bind. rewrite call_raises by exact H.
  reflexivity.
Qed.

(** The entry order of a side, and the time its last placement was
    recorded. *)
Lemma initialize_long_orders_gated (cfg : Config) (g : GridCore) (w : World) :
  now w - last_long_order_time g < ORDER_FIRST_TIME cfg ->
  initialize_long_orders cfg g w = (Returned tt, g, w).
Proof.
  intro H. apply Qltb_lt in H.
  unfold initialize_long_orders, bind, time_time, get. rewrite H. reflexivity.
Qed.

Lemma initialize_short_orders_gated (cfg : Config) (g : GridCore) (w : World) :
  now w - last_short_order_time g < ORDER_FIRST_TIME cfg ->
  initialize_short_orders cfg g w = (Returned tt, g, w).
Proof.
  intro H. apply Qltb_lt in H.
  unfold initialize_short_orders, bind, time_time, get. rewrite H.
  reflexivity.
Qed.

Lemma initialize_long_orders_places (cfg : Config) (orders : list Order)
    (g : GridCore) (w : World) :
  ORDER_FIRST_TIME cfg <= now w - last_long_order_time g ->
  reply_at w 0 = ROrders orders ->
  (forall k, reply_at w (Datatypes.S k) <> RRaise) ->
  initialize_long_orders cfg g w
  = (Returned tt, set_last_long_order_time (now w) g,
     after_requests w
       (FetchOpenOrders :: map CancelOrder (cancel_targets "long" orders)
        ++ [PlaceOrder "buy" (best_bid_price g) (INITIAL_QUANTITY cfg) false
              "long" "limit"])).
Proof.
  intros Hdue H0 Hn. apply Qltb_ge in Hdue.
  unfold initialize_long_orders.
  unfold bind at 1, time_time at 1. unfold bind at 1, get at 1.
  rewrite Hdue. unfold bind at 1.
  destruct (cancel_orders_for_side_run "long" orders g w H0)
    as [E|(k & [Hk _] & Hr & _)];
    [|destruct k as [|k]; [lia|exfalso; exact (Hn k Hr)]].
  rewrite E. unfold bind at 1, get at 1. unfold bind at 1.
  rewrite place_order_returns.
  - unfold bind, time_time, modify. rewrite after_requests_app.
    cbn [app now after_requests]. reflexivity.
  - rewrite reply_at_after. cbn [List.length]. apply Hn.
Qed.

Lemma initialize_short_orders_places (cfg : Config) (orders : list Order)
    (g : GridCore) (w : World) :
  ORDER_FIRST_TIME cfg <= now w - last_short_order_time g ->
  reply_at w 0 = ROrders orders ->
  (forall k, reply_at w (Datatypes.S k) <> RRaise) ->
  initialize_short_orders cfg g w
  = (Returned tt, set_last_short_order_time (now w) g,
     after_requests w
       (FetchOpenOrders :: map CancelOrder (cancel_targets "short" orders)
        ++ [PlaceOrder "sell" (best_ask_price g) (INITIAL_QUANTITY cfg) false
              "short" "limit"])).
Proof.
  intros Hdue H0 Hn. apply Qltb_ge in Hdue.
  unfold initialize_short_orders.
  unfold bind at 1, time_time at 1. unfold bind at 1, get at 1.
  rewrite Hdue. unfold bind at 1.
  destruct (cancel_orders_for_side_run "short" orders g w H0)
    as [E|(k & [Hk _] & Hr & _)];
    [|destruct k as [|k]; [lia|exfalso; exact (Hn k Hr)]].
  rewrite E. unfold bind at 1, get at 1. unfold bind at 1.
  rewrite place_order_returns.
  - unfold bind, time_time, modify. rewrite after_requests_app.
    cbn [app now after_requests]. reflexivity.
  - rewrite reply_at_after. cbn [List.length]. apply Hn.
Qed.

(** X3.  When the interval since the last entry order of the long side has
    passed and the exchange answers, [initialize_long_orders] cancels the
    side's resting orders, places exactly one non-reduce-only buy for
    INITIAL_QUANTITY at the best bid and records the time; any further call
    made less than ORDER_FIRST_TIME seconds later does nothing at all. *)
Theorem initialize_long_orders_once_per_interval (cfg : Config)
    (orders : list Order) (g : GridCore) (w : World) :
  ORDER_FIRST_TIME cfg <= now w - last_long_order_time g ->
  reply_at w 0 = ROrders orders ->
  (forall k, reply_at w (Datatypes.S k) <> RRaise) ->
  exists g' w',
    initialize_long_orders cfg g w = (Returned tt, g', w')
    /\ trace w'
       = trace w
         ++ FetchOpenOrders :: map CancelOrder (cancel_targets "long" orders)
         ++ [PlaceOrder "buy" (best_bid_price g) (INITIAL_QUANTITY cfg) false
               "long" "limit"]
    /\ last_long_order_time g' = now w
    /\ forall later : World,
         now later - now w < ORDER_FIRST_TIME cfg ->
         initialize_long_orders cfg g' later = (Returned tt, g', later).
Proof.
  intros Hdue H0 Hn.
  eexists; eexists. split;
    [apply (initialize_long_orders_places cfg orders); assumption|].
  split; [reflexivity|]. split; [reflexivity|].
  intros later Hl. apply initialize_long_orders_gated. exact Hl.
Qed.

(** No resting orders, best bid 2, last entry order at time 0, clock at
    100. *)
Lemma initialize_long_orders_once_per_interval_witness :
  let g := set_best_bid_price (Some 2) GridCore.init in
  let w := {| oracle := fun _ => ROrders []; trace := []; now := 100 |} in
  exists g' w',
    initialize_long_orders config g w = (Returned tt, g', w')
    /\ trace w'
       = trace w
         ++ FetchOpenOrders :: map CancelOrder (cancel_targets "long" [])
         ++ [PlaceOrder "buy" (best_bid_price g) (INITIAL_QUANTITY config)
               false "long" "limit"]
    /\ last_long_order_time g' = now w
    /\ forall later : World,
         now later - now w < ORDER_FIRST_TIME config ->
         initialize_long_orders config g' later = (Returned tt, g', later).
Proof.
  cbv zeta.
  apply (initialize_long_orders_once_per_interval config []).
  - vm_compute. discriminate.
  - reflexivity.
  - intros k H. discriminate H.
Defined.

(** What [cancel_orders_for_side] can do to the attributes: nothing, or
    replace the four counters by those of a resync.  It leaves the clock
    alone. *)
Lemma cancel_orders_for_side_leaves (position_side : string) (g g1 : GridCore)
    (w w1 : World) (r : Outcome unit) :
  cancel_orders_for_side position_side g w = (r, g1, w1) ->
  (g1 = g \/ exists orders', g1 = store_counters (count_orders orders') g)
  /\ now w1 = now w.
Proof.
  unfold cancel_orders_for_side, bind at 1.
  destruct (reply_at w 0) as [orders| | | | | |] eqn:E0.
  2-7: unfold fetch_open_orders, bind;
       try (rewrite call_returns by (rewrite E0; discriminate); rewrite E0);
       try (rewrite call_raises by exact E0);
       unfold raise; intro H; inversion H; subst;
       (split; [left; reflexivity|reflexivity]).
  rewrite (fetch_open_orders_run orders) by exact E0.
  destruct (List.length orders =? 0)%nat.
  - unfold ret. intro H. inversion H; subst.
    split; [left; reflexivity|reflexivity].
  - unfold try_except.
    destruct (cancel_each_run position_side orders g
                (after_requests w [FetchOpenOrders])) as (rc & k & Ec & _).
    rewrite Ec. destruct rc as [[]|].
    + intro H. inversion H; subst.
      split; [left; reflexivity|reflexivity].
    + rewrite check_orders_status_run.
      match goal with
      | |- context [reply_at ?v 0] =>
          lazymatch v with
          | after_requests _ _ => set (w2 := v)
          end
      end.
      destruct (reply_at w2 0); intro H; inversion H; subst;
        (split; [|reflexivity]);
        first [left; reflexivity | right; eexists; reflexivity].
Qed.

(** X4.  [initialize_long_orders] records the time of placement only when
    the adapter call for the entry order returns.  When that call raises,
    the exception leaves the method before the assignment:
    [last_long_order_time] is unchanged and the attributes are as
    [cancel_orders_for_side] left them (unchanged, or with the four counters
    resynchronised after a failed cancel), so the interval does not start
    and a later call, on an answering exchange, places the entry order.
    When the call returns anything, also [None] for an order that the
    adapter reports as failed, the time is recorded. *)
Theorem initialize_long_orders_failure_keeps_time (cfg : Config)
    (g g1 : GridCore) (w w1 : World) :
  ORDER_FIRST_TIME cfg <= now w - last_long_order_time g ->
  cancel_orders_for_side "long" g w = (Returned tt, g1, w1) ->
  let entry :=
    PlaceOrder "buy" (best_bid_price g1) (INITIAL_QUANTITY cfg) false "long"
      "limit" in
  initialize_long_orders cfg g w
  = match reply_at w1 0 with
    | RRaise => (Raised, g1, after_requests w1 [entry])
    | _ =>
        (Returned tt, set_last_long_order_time (now w1) g1,
         after_requests w1 [entry])
    end
  /\ last_long_order_time g1 = last_long_order_time g
  /\ (g1 = g \/ exists orders', g1 = store_counters (count_orders orders') g)
  /\ forall (later : World) (orders : list Order),
       now w <= now later ->
       reply_at later 0 = ROrders orders ->
       (forall k, reply_at later (Datatypes.S k) <> RRaise) ->
       initialize_long_orders cfg g1 later
       = (Returned tt, set_last_long_order_time (now later) g1,
          after_requests later
            (FetchOpenOrders
             :: map CancelOrder (cancel_targets "long" orders)
             ++ [entry])).
Proof.
  intros Hdue Ec. cbv zeta.
  destruct (cancel_orders_for_side_leaves "long" g g1 w w1 _ Ec)
    as (Hshape & Hnow).
  assert (Htime : last_long_order_time g1 = last_long_order_time g).
  { destruct Hshape as [->|(orders' & ->)]; reflexivity. }
  split; [|split; [exact Htime|split; [exact Hshape|]]].
  - pose proof Hdue as Hd. apply Qltb_ge in Hd.
    unfold initialize_long_orders.
    unfold bind at 1, time_time at 1. unfold bind at 1, get at 1.
    rewrite Hd. unfold bind at 1. rewrite Ec.
    unfold bind at 1, get at 1. unfold bind at 1.
    destruct (reply_at w1 0) eqn:E1.
    7:{ rewrite place_order_raises by exact E1. reflexivity. }
    all: rewrite place_order_returns by (rewrite E1; discriminate);
      unfold bind, time_time, modify; reflexivity.
  - intros later orders Hl L0 Ln.
    apply (initialize_long_orders_places cfg orders g1 later);
      [|exact L0|exact Ln].
    rewrite Htime. lra.
Qed.

(** Two long-side orders resting at time 100: the cancel of the first one
    raises, the resync sees one order of 2 left, and the entry order then
    raises as well. *)
Lemma initialize_long_orders_failure_keeps_time_witness :
  let e := {| o_id := "e"; o_side := Some "buy"%string;
              o_reduceOnly := false; o_positionSide := Some "LONG"%string;
              o_origQty := 3 |} in
  let t := {| o_id := "t"; o_side := Some "sell"%string;
              o_reduceOnly := true; o_positionSide := Some "LONG"%string;
              o_origQty := 2 |} in
  let g := set_best_bid_price (Some 2) GridCore.init in
  let w := {| oracle := fun n => match n with
                                 | O => ROrders [e; t]
                                 | 2%nat => ROrders [t]
                                 | _ => RRaise
                                 end;
              trace := []; now := 100 |} in
  let g1 := store_counters (count_orders [t]) g in
  let w1 := after_requests w
              [FetchOpenOrders; CancelOrder "e"; FetchOpenOrders] in
  let entry :=
    PlaceOrder "buy" (Some 2) (INITIAL_QUANTITY config) false "long"
      "limit" in
  initialize_long_orders config g w
  = (Raised, g1, after_requests w1 [entry])
  /\ last_long_order_time g1 = last_long_order_time g
  /\ (g1 = g \/ exists orders', g1 = store_counters (count_orders orders') g)
  /\ forall (later : World) (orders : list Order),
       now w <= now later ->
       reply_at later 0 = ROrders orders ->
       (forall k, reply_at later (Datatypes.S k) <> RRaise) ->
       initialize_long_orders config g1 later
       = (Returned tt, set_last_long_order_time (now later) g1,
          after_requests later
            (FetchOpenOrders
             :: map CancelOrder (cancel_targets "long" orders)
             ++ [entry])).
Proof.
  intros e t g w g1 w1 entry.
  assert (Hdue : ORDER_FIRST_TIME config <= now w - last_long_order_time g)
    by (vm_compute; discriminate).
  assert (Ec : cancel_orders_for_side "long" g w = (Returned tt, g1, w1))
    by reflexivity.
  exact (initialize_long_orders_failure_keeps_time config g g1 w w1 Hdue Ec).
Defined.


(** ** The normal grid, the risk valve and the quiet pass *)

Import GridRequests.

Lemma place_take_profit_order_returns {S} (side' : string)
    (price' quantity' : Q) (s : S) (w : World) :
  reply_at w 0 <> RRaise ->
  place_take_profit_order side' price' quantity' s w
  = (Returned tt, s,
     after_requests w [PlaceTakeProfitOrder side' price' quantity']).
Proof.
  intro H. unfold place_take_profit_order, bind.
  rewrite call_returns by exact H. reflexivity.
Qed.

Lemma long_quantity_sized (cfg : Config) (position : Q) (g : GridCore) :
  long_initial_quantity (get_take_profit_quantity cfg position "long" g)
  = sized_quantity cfg position.
Proof.
  unfold get_take_profit_quantity, sized_quantity. cbn.
  destruct (Qltb _ _); cbn; apply py_min_Qmin.
Qed.

Lemma short_quantity_sized (cfg : Config) (position : Q) (g : GridCore) :
  short_initial_quantity (get_take_profit_quantity cfg position "short" g)
  = sized_quantity cfg position.
Proof.
  unfold get_take_profit_quantity, sized_quantity. cbn.
  destruct (Qltb _ _); cbn; apply py_min_Qmin.
Qed.

(** The order size never exceeds the position, nor twice the base
    quantity. *)
Lemma sized_quantity_bounds (cfg : Config) (position : Q) :
  0 <= INITIAL_QUANTITY cfg ->
  sized_quantity cfg position <= position
  /\ sized_quantity cfg position <= INITIAL_QUANTITY cfg * 2.
Proof.
  intro Hb. unfold sized_quantity.
  destruct (Qltb _ _); split;
    try apply Q.le_min_l; try apply Q.le_min_r.
  apply (Qle_trans _ (INITIAL_QUANTITY cfg)); [apply Q.le_min_r|lra].
Qed.

(** Sizing touches only the two quantity fields. *)
Lemma get_take_profit_quantity_frame (cfg : Config) (position : Q)
    (position_side' : string) (g : GridCore) :
  let g' := get_take_profit_quantity cfg position position_side' g in
  latest_price g' = latest_price g
  /\ long_grid_spacing g' = long_grid_spacing g
  /\ long_profit_spacing g' = long_profit_spacing g
  /\ short_grid_spacing g' = short_grid_spacing g
  /\ short_profit_spacing g' = short_profit_spacing g
  /\ buy_long_orders g' = buy_long_orders g
  /\ sell_long_orders g' = sell_long_orders g
  /\ buy_short_orders g' = buy_short_orders g
  /\ sell_short_orders g' = sell_short_orders g.
Proof.
  unfold get_take_profit_quantity.
  destruct (String.eqb position_side' "long");
    [destruct (Qltb _ _); cbn; repeat split|].
  destruct (String.eqb position_side' "short");
    [destruct (Qltb _ _); cbn; repeat split|].
  cbn. repeat split.
Qed.

(** X5.  In normal grid mode (a long position above zero and not above
    POSITION_THRESHOLD) with an answering exchange, [place_long_orders] moves
    the grid to the price it is given, cancels the side's resting orders and
    then places exactly two orders of the sized quantity: the take-profit
    order at price x (1 + long_profit_spacing) and, after it, a
    non-reduce-only buy at price x (1 - long_grid_spacing).  The size is at
    most the position and at most twice the base quantity. *)
Theorem place_long_orders_normal_grid (cfg : Config) (latest_price' : Q)
    (orders : list Order) (g : GridCore) (w : World) :
  0 < long_position g ->
  long_position g <= POSITION_THRESHOLD cfg ->
  reply_at w 0 = ROrders orders ->
  (forall k, reply_at w (Datatypes.S k) <> RRaise) ->
  let quantity' := sized_quantity cfg (long_position g) in
  exists g',
    place_long_orders cfg latest_price' g w
    = (Returned tt, g',
       after_requests w
         (FetchOpenOrders :: map CancelOrder (cancel_targets "long" orders)
          ++ [PlaceTakeProfitOrder "long"
                (latest_price' * (1 + long_profit_spacing g)) quantity';
              PlaceOrder "buy"
                (Some (latest_price' * (1 - long_grid_spacing g))) quantity'
                false "long" "limit"]))
    /\ mid_price_long g' = latest_price'
    /\ long_initial_quantity g' = quantity'
    /\ (0 <= INITIAL_QUANTITY cfg ->
        quantity' <= long_position g
        /\ quantity' <= INITIAL_QUANTITY cfg * 2).
Proof.
  intros Hpos Hth H0 Hn quantity'.
  apply Qltb_lt in Hpos. apply Qltb_ge in Hth.
  set (g1 := get_take_profit_quantity cfg (long_position g) "long" g).
  set (g2 := update_mid_price "long" latest_price' g1).
  exists g2.
  assert (Hl1 : long_position g1 = long_position g)
    by apply get_take_profit_quantity_positions.
  split; [|split; [reflexivity|split; [apply long_quantity_sized|]]].
  - unfold place_long_orders, try_except.
    unfold bind at 1, get at 1. unfold bind at 1, modify at 1.
    fold g1. unfold bind at 1, get at 1.
    rewrite Hl1, Hpos, Hth.
    unfold bind at 1, modify at 1. fold g2. unfold bind at 1.
    destruct (cancel_orders_for_side_run "long" orders g2 w H0)
      as [E|(k & [Hk _] & Hr & _)];
      [|destruct k as [|k]; [lia|exfalso; exact (Hn k Hr)]].
    rewrite E. unfold bind at 1, get at 1. unfold bind at 1.
    rewrite place_take_profit_order_returns
      by (rewrite reply_at_after; cbn [List.length]; apply Hn).
    rewrite place_order_returns
      by (rewrite !reply_at_after; cbn [List.length]; apply Hn).
    rewrite !after_requests_app.
    assert (Hq : long_initial_quantity g2 = quantity')
      by apply long_quantity_sized.
    rewrite Hq.
    destruct (get_take_profit_quantity_frame cfg (long_position g) "long" g)
      as (_ & Hs2 & Hs1 & _).
    fold g1 in Hs1, Hs2.
    change (upper_price_long g2)
      with (latest_price' * (1 + long_profit_spacing g1)).
    change (lower_price_long g2)
      with (latest_price' * (1 - long_grid_spacing g1)).
    rewrite Hs1, Hs2. reflexivity.
  - intro Hb. apply sized_quantity_bounds, Hb.
Qed.

(** A long position of 40 at price 2 with one stale long entry order
    resting. *)
Lemma place_long_orders_normal_grid_witness :
  let orders :=
    [ {| o_id := "e"; o_side := Some "buy"%string; o_reduceOnly := false;
         o_positionSide := Some "LONG"%string; o_origQty := 3 |} ] in
  let g := set_long_position 40 GridCore.init in
  let w := {| oracle := fun _ => ROrders orders; trace := []; now := 0 |} in
  let quantity' := sized_quantity config (long_position g) in
  exists g',
    place_long_orders config 2 g w
    = (Returned tt, g',
       after_requests w
         (FetchOpenOrders :: map CancelOrder (cancel_targets "long" orders)
          ++ [PlaceTakeProfitOrder "long" (2 * (1 + long_profit_spacing g))
                quantity';
              PlaceOrder "buy" (Some (2 * (1 - long_grid_spacing g)))
                quantity' false "long" "limit"]))
    /\ mid_price_long g' = 2
    /\ long_initial_quantity g' = quantity'
    /\ (0 <= INITIAL_QUANTITY config ->
        quantity' <= long_position g
        /\ quantity' <= INITIAL_QUANTITY config * 2).
Proof.
  cbv zeta.
  apply (place_long_orders_normal_grid config 2).
  - reflexivity.
  - vm_compute. discriminate.
  - reflexivity.
  - intros k H. discriminate H.
Defined.


(** X6.  The risk valve [check_and_reduce_positions] never changes an
    attribute and never lets an exception out.  It places orders only when
    both positions exceed POSITION_THRESHOLD (and half the smaller one is
    positive): a reduce-only sell on the long side 0.1 percent below the
    latest price and then a reduce-only buy on the short side 0.1 percent
    above it, both for half the smaller position; if the first request
    raises, the second is not made. *)
Theorem check_and_reduce_positions_valve (cfg : Config) (g : GridCore)
    (w : World) :
  let fires :=
    POSITION_THRESHOLD cfg < long_position g
    /\ POSITION_THRESHOLD cfg < short_position g
    /\ 0 < Qmin (long_position g) (short_position g) * (5 # 10) in
  exists requests,
    check_and_reduce_positions cfg g w
    = (Returned tt, g, after_requests w requests)
    /\ (fires ->
        requests = match reply_at w 0 with
                   | RRaise => [valve_sell g]
                   | _ => [valve_sell g; valve_buy g]
                   end)
    /\ (~ fires -> requests = []).
Proof.
  cbv zeta. unfold check_and_reduce_positions, try_except.
  unfold bind at 1, get at 1. rewrite py_min_Qmin.
  destruct (Qltb (POSITION_THRESHOLD cfg) (long_position g)) eqn:El;
    [destruct (Qltb (POSITION_THRESHOLD cfg) (short_position g)) eqn:Es;
     [destruct (Qltb 0 (Qmin (long_position g) (short_position g) * (5 # 10)))
        eqn:Eq|]|];
    cbn [andb].
  - apply Qltb_lt in El, Es, Eq.
    destruct (reply_at w 0) eqn:E0.
    7:{ unfold bind at 1.
        rewrite place_order_raises by exact E0.
        exists [valve_sell g]. split; [reflexivity|].
        split; [reflexivity|]. intro H. exfalso. apply H. tauto. }
    all: unfold bind at 1;
      rewrite place_order_returns by (rewrite E0; discriminate);
      unfold place_order, bind, call, ret;
      destruct (oracle (after_requests w _) _);
      exists [valve_sell g; valve_buy g];
      (split; [cbn; unfold after_requests; cbn; rewrite <- app_assoc;
               reflexivity|]);
      (split; [reflexivity|]); intro H; exfalso; apply H; tauto.
  - exists []. rewrite after_requests_nil. split; [reflexivity|].
    apply Qltb_ge in Eq.
    split; [intros (_ & _ & H); exfalso; exact (Qlt_not_le _ _ H Eq)
           |reflexivity].
  - exists []. rewrite after_requests_nil. split; [reflexivity|].
    apply Qltb_ge in Es.
    split; [intros (_ & H & _); exfalso; exact (Qlt_not_le _ _ H Es)
           |reflexivity].
  - exists []. rewrite after_requests_nil. split; [reflexivity|].
    apply Qltb_ge in El.
    split; [intros (H & _); exfalso; exact (Qlt_not_le _ _ H El)
           |reflexivity].
Qed.

(** The valve with both sides above the threshold, one side below it, and
    with an exchange that refuses the first order. *)
Example check_and_reduce_positions_runs :
  let g long short :=
    set_latest_price 2
      (set_short_position short (set_long_position long GridCore.init)) in
  let requests o long short :=
    trace (snd (check_and_reduce_positions config (g long short)
                  {| oracle := o; trace := []; now := 0 |})) in
  requests (fun _ => RNone) 700 600
  = [ PlaceOrder "sell" (Some (2 * (999 # 1000))) (600 * (5 # 10)) true
        "long" "limit";
      PlaceOrder "buy" (Some (2 * (1001 # 1000))) (600 * (5 # 10)) true
        "short" "limit" ]
  /\ requests (fun _ => RNone) 700 500 = []
  /\ requests (fun _ => RRaise) 700 600
     = [ PlaceOrder "sell" (Some (2 * (999 # 1000))) (600 * (5 # 10)) true
           "long" "limit" ].
Proof. cbv zeta. repeat split. Qed.

Lemma orders_valid_iff (entry take_profit quantity' : Q) :
  negb (within entry quantity') || negb (within take_profit quantity') = false
  <-> counters_consistent entry take_profit quantity'.
Proof.
  unfold within, counters_consistent.
  rewrite orb_false_iff, !negb_false_iff, !andb_true_iff.
  rewrite !Qltb_lt, !Qleb_le. tauto.
Qed.

Lemma Qeq_bool_false (a b : Q) : ~ a == b -> Qeq_bool a b = false.
Proof.
  intro H. destruct (Qeq_bool a b) eqn:E; [|reflexivity].
  apply Qeq_bool_iff in E. contradiction.
Qed.

(** X7.  Below the threshold, when the long side's counters look
    inconsistent, [adjust_long] resynchronises the counters and then places
    the side's orders in any case: the test made before the resync is not
    made again, so the counters the resync brings play no part in the
    decision. *)
Theorem adjust_long_acts_after_resync (cfg : Config) (orders : list Order)
    (g : GridCore) (w : World) :
  ~ long_position g == 0 ->
  long_position g < POSITION_THRESHOLD cfg ->
  ~ counters_consistent (buy_long_orders g) (sell_long_orders g)
      (long_initial_quantity g) ->
  reply_at w 0 = ROrders orders ->
  adjust_long cfg g w
  = place_long_orders cfg (latest_price g)
      (store_counters (count_orders orders) g)
      (after_requests w [FetchOpenOrders]).
Proof.
  intros Hnz Hth Hinc H0.
  unfold adjust_long. unfold bind at 1, get at 1.
  rewrite (Qeq_bool_false _ _ Hnz).
  destruct (negb (within (buy_long_orders g) (long_initial_quantity g))
            || negb (within (sell_long_orders g) (long_initial_quantity g)))
    eqn:Ev.
  - apply Qltb_lt in Hth. rewrite Hth.
    unfold bind at 1. rewrite check_orders_status_run, H0.
    unfold bind, get. reflexivity.
  - apply orders_valid_iff in Ev. contradiction.
Qed.

(** Stale counters of zero, a position of 40, and a resync that finds one
    entry and one take-profit order of 3 resting (consistent with the sized
    quantity): the side is re-gridded all the same. *)
Lemma adjust_long_acts_after_resync_witness :
  let orders :=
    [ {| o_id := "e"; o_side := Some "buy"%string; o_reduceOnly := false;
         o_positionSide := Some "LONG"%string; o_origQty := 3 |};
      {| o_id := "t"; o_side := Some "sell"%string; o_reduceOnly := true;
         o_positionSide := Some "LONG"%string; o_origQty := 3 |} ] in
  let g := set_long_initial_quantity 3
             (set_latest_price 2 (set_long_position 40 GridCore.init)) in
  let w := {| oracle := fun _ => ROrders orders; trace := []; now := 0 |} in
  adjust_long config g w
  = place_long_orders config (latest_price g)
      (store_counters (count_orders orders) g)
      (after_requests w [FetchOpenOrders]).
Proof.
  cbv zeta.
  apply (adjust_long_acts_after_resync config).
  - intro H. discriminate H.
  - reflexivity.
  - intros (H & _). discriminate H.
  - reflexivity.
Defined.

Example adjust_long_acts_after_resync_trace :
  let orders :=
    [ {| o_id := "e"; o_side := Some "buy"%string; o_reduceOnly := false;
         o_positionSide := Some "LONG"%string; o_origQty := 3 |};
      {| o_id := "t"; o_side := Some "sell"%string; o_reduceOnly := true;
         o_positionSide := Some "LONG"%string; o_origQty := 3 |} ] in
  let g := set_long_initial_quantity 3
             (set_latest_price 2 (set_long_position 40 GridCore.init)) in
  let w := {| oracle := fun _ => ROrders orders; trace := []; now := 0 |} in
  let '(_, g', w') := adjust_long config g w in
  (buy_long_orders g', sell_long_orders g', trace w')
  = (0 + 3, 0 + 3,
     [FetchOpenOrders; FetchOpenOrders; CancelOrder "e"; CancelOrder "t";
      PlaceTakeProfitOrder "long" (2 * (1 + (1 # 1000))) (Qmin 40 3);
      PlaceOrder "buy" (Some (2 * (1 - (1 # 1000)))) (Qmin 40 3) false "long"
        "limit"]).
Proof. reflexivity. Qed.

(** X8.  A pass is silent in the steady state: when both sides hold a
    position, the risk valve does not fire, and both counters of each side
    lie in (0, the side's order quantity], [adjust_grid_strategy] makes no
    request and changes no attribute. *)
Theorem adjust_grid_strategy_steady_state (cfg : Config) (g : GridCore)
    (w : World) :
  ~ long_position g == 0 ->
  ~ short_position g == 0 ->
  ~ (POSITION_THRESHOLD cfg < long_position g
     /\ POSITION_THRESHOLD cfg < short_position g) ->
  counters_consistent (buy_long_orders g) (sell_long_orders g)
    (long_initial_quantity g) ->
  counters_consistent (sell_short_orders g) (buy_short_orders g)
    (short_initial_quantity g) ->
  adjust_grid_strategy cfg g w = (Returned tt, g, w).
Proof.
  intros Hl Hs Hv Hcl Hcs.
  unfold adjust_grid_strategy.
  assert (Valve : check_and_reduce_positions cfg g w = (Returned tt, g, w)).
  { unfold check_and_reduce_positions, try_except, bind, get.
    destruct (Qltb (POSITION_THRESHOLD cfg) (long_position g)) eqn:El;
      [|reflexivity].
    destruct (Qltb (POSITION_THRESHOLD cfg) (short_position g)) eqn:Es;
      [|reflexivity].
    exfalso. apply Hv. split; apply Qltb_lt; assumption. }
  unfold bind at 1. rewrite Valve.
  unfold bind at 1, adjust_long, bind at 1, get at 1.
  rewrite (Qeq_bool_false _ _ Hl).
  apply orders_valid_iff in Hcl. rewrite Hcl.
  unfold ret at 1. unfold adjust_short, bind, get.
  rewrite (Qeq_bool_false _ _ Hs).
  apply orders_valid_iff in Hcs. rewrite Hcs. reflexivity.
Qed.

(** Positions 40 and 25, one entry and one take-profit order of 3 counted on
    each side. *)
Lemma adjust_grid_strategy_steady_state_witness :
  let g :=
    set_buy_short_orders 3
      (set_sell_short_orders 3
         (set_sell_long_orders 3
            (set_buy_long_orders 3
               (set_short_initial_quantity 3
                  (set_long_initial_quantity 3
                     (set_short_position 25
                        (set_long_position 40 GridCore.init))))))) in
  let w := {| oracle := fun _ => RRaise; trace := []; now := 0 |} in
  adjust_grid_strategy config g w = (Returned tt, g, w).
Proof.
  cbv zeta.
  apply adjust_grid_strategy_steady_state.
  - intro H. discriminate H.
  - intro H. discriminate H.
  - intros (H & _). discriminate H.
  - repeat split; try reflexivity; intro H; discriminate H.
  - repeat split; try reflexivity; intro H; discriminate H.
Defined.


Lemma initialize_long_orders_no_resting (cfg : Config) (g : GridCore)
    (w : World) :
  ORDER_FIRST_TIME cfg <= now w - last_long_order_time g ->
  reply_at w 0 = ROrders [] ->
  reply_at w 1 <> RRaise ->
  initialize_long_orders cfg g w
  = (Returned tt, set_last_long_order_time (now w) g,
     after_requests w
       [FetchOpenOrders;
        PlaceOrder "buy" (best_bid_price g) (INITIAL_QUANTITY cfg) false
          "long" "limit"]).
Proof.
  intros Hv Hv0 Hv1. apply Qltb_ge in Hv.
  unfold initialize_long_orders.
  unfold bind at 1, time_time at 1. unfold bind at 1, get at 1.
  rewrite Hv. unfold bind at 1.
  unfold cancel_orders_for_side, bind at 1.
  rewrite (fetch_open_orders_run []) by exact Hv0.
  cbn [List.length Nat.eqb]. unfold ret at 1.
  unfold bind at 1, get at 1. unfold bind at 1.
  rewrite place_order_returns by (rewrite reply_at_after; exact Hv1).
  unfold bind, time_time, modify. rewrite after_requests_app. reflexivity.
Qed.

Lemma initialize_short_orders_no_resting (cfg : Config) (g : GridCore)
    (w : World) :
  ORDER_FIRST_TIME cfg <= now w - last_short_order_time g ->
  reply_at w 0 = ROrders [] ->
  reply_at w 1 <> RRaise ->
  initialize_short_orders cfg g w
  = (Returned tt, set_last_short_order_time (now w) g,
     after_requests w
       [FetchOpenOrders;
        PlaceOrder "sell" (best_ask_price g) (INITIAL_QUANTITY cfg) false
          "short" "limit"]).
Proof.
  intros Hv Hv0 Hv1. apply Qltb_ge in Hv.
  unfold initialize_short_orders.
  unfold bind at 1, time_time at 1. unfold bind at 1, get at 1.
  rewrite Hv. unfold bind at 1.
  unfold cancel_orders_for_side, bind at 1.
  rewrite (fetch_open_orders_run []) by exact Hv0.
  cbn [List.length Nat.eqb]. unfold ret at 1.
  unfold bind at 1, get at 1. unfold bind at 1.
  rewrite place_order_returns by (rewrite reply_at_after; exact Hv1).
  unfold bind, time_time, modify. rewrite after_requests_app. reflexivity.
Qed.

(** X9.  With no position on either side, no resting orders and an answering
    exchange, one pass of [adjust_grid_strategy] places exactly one entry
    order per side (a buy at the best bid for the long side, then a sell at
    the best ask for the short side, each for INITIAL_QUANTITY and not
    reduce-only); a second pass less than ORDER_FIRST_TIME seconds later
    places nothing. *)
Theorem first_pass_places_one_entry_per_side (cfg : Config) (g : GridCore)
    (w : World) :
  long_position g == 0 ->
  short_position g == 0 ->
  0 <= POSITION_THRESHOLD cfg ->
  ORDER_FIRST_TIME cfg <= now w - last_long_order_time g ->
  ORDER_FIRST_TIME cfg <= now w - last_short_order_time g ->
  reply_at w 0 = ROrders [] ->
  reply_at w 1 <> RRaise ->
  reply_at w 2 = ROrders [] ->
  reply_at w 3 <> RRaise ->
  exists g',
    adjust_grid_strategy cfg g w
    = (Returned tt, g',
       after_requests w
         [FetchOpenOrders;
          PlaceOrder "buy" (best_bid_price g) (INITIAL_QUANTITY cfg) false
            "long" "limit";
          FetchOpenOrders;
          PlaceOrder "sell" (best_ask_price g) (INITIAL_QUANTITY cfg) false
            "short" "limit"])
    /\ forall later : World,
         now later - now w < ORDER_FIRST_TIME cfg ->
         adjust_grid_strategy cfg g' later = (Returned tt, g', later).
Proof.
  intros Hl Hs Hth Hdl Hds R0 R1 R2 R3.
  assert (Valve : forall (x : GridCore) (v : World),
            long_position x == 0 ->
            check_and_reduce_positions cfg x v = (Returned tt, x, v)).
  { intros x v Hx.
    unfold check_and_reduce_positions, try_except, bind, get.
    assert (E : Qltb (POSITION_THRESHOLD cfg) (long_position x) = false).
    { apply Qltb_ge. rewrite Hx. exact Hth. }
    rewrite E. reflexivity. }
  assert (Long : forall (x : GridCore) (v : World),
            long_position x == 0 ->
            adjust_long cfg x v = initialize_long_orders cfg x v).
  { intros x v Hx. unfold adjust_long, bind, get.
    apply Qeq_bool_iff in Hx. rewrite Hx. reflexivity. }
  assert (Short : forall (x : GridCore) (v : World),
            short_position x == 0 ->
            adjust_short cfg x v = initialize_short_orders cfg x v).
  { intros x v Hx. unfold adjust_short, bind, get.
    apply Qeq_bool_iff in Hx. rewrite Hx. reflexivity. }
  set (g1 := set_last_long_order_time (now w) g).
  set (g2 := set_last_short_order_time (now w) g1).
  exists g2. split.
  - unfold adjust_grid_strategy.
    unfold bind at 1. rewrite (Valve g w Hl).
    unfold bind at 1. rewrite (Long g w Hl).
    rewrite (initialize_long_orders_no_resting cfg g w Hdl R0 R1).
    fold g1. unfold bind. rewrite (Short g1) by exact Hs.
    rewrite initialize_short_orders_no_resting.
    + rewrite after_requests_app. reflexivity.
    + exact Hds.
    + rewrite reply_at_after. exact R2.
    + rewrite reply_at_after. exact R3.
  - intros later Hlater.
    unfold adjust_grid_strategy.
    unfold bind at 1. rewrite (Valve g2 later) by exact Hl.
    unfold bind at 1. rewrite (Long g2 later) by exact Hl.
    rewrite initialize_long_orders_gated by exact Hlater.
    unfold bind. rewrite (Short g2 later) by exact Hs.
    apply initialize_short_orders_gated. exact Hlater.
Qed.

(** A fresh bot at time 100 with best bid 1.99 and best ask 2.01. *)
Lemma first_pass_places_one_entry_per_side_witness :
  let g := set_best_ask_price (Some (201 # 100))
             (set_best_bid_price (Some (199 # 100)) GridCore.init) in
  let w := {| oracle := fun _ => ROrders []; trace := []; now := 100 |} in
  exists g',
    adjust_grid_strategy config g w
    = (Returned tt, g',
       after_requests w
         [FetchOpenOrders;
          PlaceOrder "buy" (best_bid_price g) (INITIAL_QUANTITY config) false
            "long" "limit";
          FetchOpenOrders;
          PlaceOrder "sell" (best_ask_price g) (INITIAL_QUANTITY config)
            false "short" "limit"])
    /\ forall later : World,
         now later - now w < ORDER_FIRST_TIME config ->
         adjust_grid_strategy config g' later = (Returned tt, g', later).
Proof.
  cbv zeta.
  apply first_pass_places_one_entry_per_side;
    try reflexivity; try (intro H; discriminate H);
    vm_compute; discriminate.
Defined.

(** X10.  In conservative mode with no take-profit order counted as resting
    and an answering exchange, the side's single take-profit order is priced
    away from the market in the side's favour: for the long side at the
    latest price times (long / max(short, 1) / 100 + 1), which is at least
    the latest price; for the short side at the latest price divided by
    (short / max(long, 1) / 100 + 1), which is at most the latest price.
    The quantity is the sized quantity. *)
Theorem conservative_take_profit_is_skewed (cfg : Config)
    (latest_price' : Q) (g : GridCore) (w : World) :
  0 <= latest_price g ->
  reply_at w 0 <> RRaise ->
  (0 < long_position g ->
   POSITION_THRESHOLD cfg < long_position g ->
   sell_long_orders g <= 0 ->
   exists price' g',
     place_long_orders cfg latest_price' g w
     = (Returned tt, g',
        after_requests w
          [PlaceTakeProfitOrder "long" price'
             (sized_quantity cfg (long_position g))])
     /\ price'
        = latest_price g
          * (long_position g / Qmax (short_position g) 1 / 100 + 1)
     /\ latest_price g <= price')
  /\ (0 < short_position g ->
      POSITION_THRESHOLD cfg < short_position g ->
      buy_short_orders g <= 0 ->
      exists price' g',
        place_short_orders cfg latest_price' g w
        = (Returned tt, g',
           after_requests w
             [PlaceTakeProfitOrder "short" price'
                (sized_quantity cfg (short_position g))])
        /\ price'
           = latest_price g
             / (short_position g / Qmax (long_position g) 1 / 100 + 1)
        /\ price' <= latest_price g).
Proof.
  intros Hp Hr.
  assert (Ratio : forall a b : Q, 0 < a -> 1 <= a / Qmax b 1 / 100 + 1).
  { intros a b Ha.
    assert (Hm : 0 < Qmax b 1).
    { apply (Qlt_le_trans _ 1); [reflexivity|apply Q.le_max_r]. }
    assert (Hd : 0 <= a / Qmax b 1).
    { apply Qle_shift_div_l; [exact Hm|]. lra. }
    assert (Hd' : 0 <= a / Qmax b 1 / 100).
    { apply Qle_shift_div_l; [reflexivity|]. lra. }
    lra. }
  split.
  - intros Hpos Hth Hno.
    apply Qltb_lt in Hth. apply Qleb_le in Hno.
    pose proof (Ratio _ (short_position g) Hpos) as Hratio.
    apply Qltb_lt in Hpos.
    set (g1 := get_take_profit_quantity cfg (long_position g) "long" g).
    destruct (get_take_profit_quantity_frame cfg (long_position g) "long" g)
      as (Hlp & _ & _ & _ & _ & _ & Hsl & _).
    destruct (get_take_profit_quantity_positions cfg (long_position g)
                "long" g) as [Hl1 Hs1].
    fold g1 in Hlp, Hsl, Hl1, Hs1.
    eexists; exists g1. split; [|split; [reflexivity|]].
    + unfold place_long_orders, try_except.
      unfold bind at 1, get at 1. unfold bind at 1, modify at 1. fold g1.
      unfold bind at 1, get at 1.
      rewrite Hl1, Hpos, Hth, Hsl, Hno.
      rewrite place_take_profit_order_returns by exact Hr.
      rewrite py_max_Qmax, Hlp, Hs1.
      assert (Hq : long_initial_quantity g1
                   = sized_quantity cfg (long_position g))
        by apply long_quantity_sized.
      rewrite Hq. reflexivity.
    + set (r := long_position g / Qmax (short_position g) 1 / 100 + 1) in *.
      nra.
  - intros Hpos Hth Hno.
    apply Qltb_lt in Hth. apply Qleb_le in Hno.
    pose proof (Ratio _ (long_position g) Hpos) as Hratio.
    apply Qltb_lt in Hpos.
    set (g1 := get_take_profit_quantity cfg (short_position g) "short" g).
    destruct (get_take_profit_quantity_frame cfg (short_position g) "short"
                g) as (Hlp & _ & _ & _ & _ & _ & _ & Hbs & _).
    destruct (get_take_profit_quantity_positions cfg (short_position g)
                "short" g) as [Hl1 Hs1].
    fold g1 in Hlp, Hbs, Hl1, Hs1.
    eexists; exists g1. split; [|split; [reflexivity|]].
    + unfold place_short_orders, try_except.
      unfold bind at 1, get at 1. unfold bind at 1, modify at 1. fold g1.
      unfold bind at 1, get at 1.
      rewrite Hs1, Hpos, Hth, Hbs, Hno.
      rewrite place_take_profit_order_returns by exact Hr.
      rewrite py_max_Qmax, Hlp, Hl1.
      assert (Hq : short_initial_quantity g1
                   = sized_quantity cfg (short_position g))
        by apply short_quantity_sized.
      rewrite Hq. reflexivity.
    + set (r := short_position g / Qmax (long_position g) 1 / 100 + 1) in *.
      apply Qle_shift_div_r; [lra|]. nra.
Qed.

(** Long 600 against short 200 at price 2, on an exchange that answers. *)
Lemma conservative_take_profit_is_skewed_witness :
  let g := set_latest_price 2
             (set_short_position 200
                (set_long_position 600 GridCore.init)) in
  let w := {| oracle := fun _ => RNone; trace := []; now := 0 |} in
  (0 < long_position g ->
   POSITION_THRESHOLD config < long_position g ->
   sell_long_orders g <= 0 ->
   exists price' g',
     place_long_orders config 2 g w
     = (Returned tt, g',
        after_requests w
          [PlaceTakeProfitOrder "long" price'
             (sized_quantity config (long_position g))])
     /\ price'
        = latest_price g
          * (long_position g / Qmax (short_position g) 1 / 100 + 1)
     /\ latest_price g <= price')
  /\ (0 < short_position g ->
      POSITION_THRESHOLD config < short_position g ->
      buy_short_orders g <= 0 ->
      exists price' g',
        place_short_orders config 2 g w
        = (Returned tt, g',
           after_requests w
             [PlaceTakeProfitOrder "short" price'
                (sized_quantity config (short_position g))])
        /\ price'
           = latest_price g
             / (short_position g / Qmax (long_position g) 1 / 100 + 1)
        /\ price' <= latest_price g).
Proof.
  cbv zeta.
  apply conservative_take_profit_is_skewed.
  - vm_compute. discriminate.
  - discriminate.
Defined.


(** ** C7: the orders of a conservative pass *)

(** Each half of the pass asks only for its own side: it lists and cancels
    orders and places orders of its own position side. *)
Section OwnSideRequests.

Variable cfg : Config.
Variables long short : Q.
Variable P : Call -> Prop.

Hypothesis P_fetch : P FetchOpenOrders.
Hypothesis P_cancel : forall id, P (CancelOrder id).

Let O : (nat -> Reply) -> Prop := fun _ => True.
Let I : GridCore -> Prop := positions_are long short.

Ltac keep_positions :=
  let g := fresh "g" in
  let Hl := fresh "Hl" in
  let Hs := fresh "Hs" in
  intros g [Hl Hs]; split;
  first
    [ rewrite (proj1 (store_counters_positions _ _)); exact Hl
    | rewrite (proj2 (store_counters_positions _ _)); exact Hs
    | rewrite (proj1 (get_take_profit_quantity_positions _ _ _ _)); exact Hl
    | rewrite (proj2 (get_take_profit_quantity_positions _ _ _ _)); exact Hs
    | rewrite (proj1 (update_mid_price_positions _ _ _)); exact Hl
    | rewrite (proj2 (update_mid_price_positions _ _ _)); exact Hs
    | exact Hl
    | exact Hs ].

Ltac own_step :=
  first
    [ lazymatch goal with
      | |- hoare _ _ _ (cancel_orders_for_side _) =>
          apply hoare_cancel_orders_for_side; assumption
      | |- hoare _ _ _ check_orders_status =>
          apply hoare_check_orders_status; assumption
      end
    | hoare_step
    | apply P_fetch | apply P_cancel
    | keep_positions ].

Section LongOnly.

Hypothesis P_long_take_profit :
  forall price' quantity', P (PlaceTakeProfitOrder "long" price' quantity').
Hypothesis P_long_order :
  forall side price' quantity' is_reduce_only order_type,
    P (PlaceOrder side price' quantity' is_reduce_only "long" order_type).

Lemma hoare_adjust_long_own : hoare O I P (adjust_long cfg).
Proof.
  unfold adjust_long, initialize_long_orders, place_long_orders, place_order,
    place_take_profit_order.
  repeat first [ own_step | apply P_long_take_profit | apply P_long_order ].
Qed.

End LongOnly.

Section ShortOnly.

Hypothesis P_short_take_profit :
  forall price' quantity', P (PlaceTakeProfitOrder "short" price' quantity').
Hypothesis P_short_order :
  forall side price' quantity' is_reduce_only order_type,
    P (PlaceOrder side price' quantity' is_reduce_only "short" order_type).

Lemma hoare_adjust_short_own : hoare O I P (adjust_short cfg).
Proof.
  unfold adjust_short, initialize_short_orders, place_short_orders,
    place_order, place_take_profit_order.
  repeat first [ own_step | apply P_short_take_profit | apply P_short_order ].
Qed.

End ShortOnly.

End OwnSideRequests.

Lemma filter_none {A} (f : A -> bool) (l : list A) :
  Forall (fun x => f x = false) l -> filter f l = [].
Proof.
  induction 1 as [|x l Hx _ IH]; [reflexivity|].
  cbn. rewrite Hx. exact IH.
Qed.

(** The requests of the risk valve: none unless it fires; when it fires,
    the close of the long side followed, unless that request raised, by the
    close of the short side. *)
Lemma check_and_reduce_positions_orders (cfg : Config) (g : GridCore)
    (w : World) :
  exists requests,
    check_and_reduce_positions cfg g w
    = (Returned tt, g, after_requests w requests)
    /\ ((~ valve_fires cfg g /\ requests = [])
        \/ (valve_fires cfg g
            /\ ((reply_at w 0 = RRaise /\ requests = [valve_sell g])
                \/ (reply_at w 0 <> RRaise
                    /\ requests = [valve_sell g; valve_buy g])))).
Proof.
  unfold check_and_reduce_positions, try_except.
  unfold bind at 1, get at 1. rewrite py_min_Qmin.
  destruct (Qltb (POSITION_THRESHOLD cfg) (long_position g)) eqn:El;
    [destruct (Qltb (POSITION_THRESHOLD cfg) (short_position g)) eqn:Es;
     [destruct (Qltb 0 (Qmin (long_position g) (short_position g) * (5 # 10)))
        eqn:Eq|]|];
    cbn [andb].
  2:{ exists []. rewrite after_requests_nil. split; [reflexivity|].
      left. split; [|reflexivity]. intros (_ & _ & H).
      apply Qltb_ge in Eq. exact (Qlt_not_le _ _ H Eq). }
  2:{ exists []. rewrite after_requests_nil. split; [reflexivity|].
      left. split; [|reflexivity]. intros (_ & H & _).
      apply Qltb_ge in Es. exact (Qlt_not_le _ _ H Es). }
  2:{ exists []. rewrite after_requests_nil. split; [reflexivity|].
      left. split; [|reflexivity]. intros (H & _).
      apply Qltb_ge in El. exact (Qlt_not_le _ _ H El). }
  apply Qltb_lt in El, Es, Eq.
  assert (Hf : valve_fires cfg g) by (repeat split; assumption).
  unfold bind at 1.
  destruct (reply_at w 0) eqn:E0.
  7:{ rewrite place_order_raises by exact E0.
      exists [valve_sell g]. split; [reflexivity|].
      right. split; [exact Hf|left; split; reflexivity]. }
  all: rewrite place_order_returns by (rewrite E0; discriminate);
    exists [valve_sell g; valve_buy g];
    (split;
     [|right; split; [exact Hf|right; split; [discriminate|reflexivity]]]);
    match goal with
    | |- context [place_order _ _ _ _ _ _ _ ?v] =>
        destruct (reply_at v 0) eqn:E1
    end;
    try (rewrite place_order_returns by (rewrite E1; discriminate);
         rewrite after_requests_app; reflexivity);
    rewrite place_order_raises by exact E1;
    unfold ret; rewrite after_requests_app; reflexivity.
Qed.

(** Above the threshold, the side's half of the pass returns with the
    positions as they were, having placed nothing or one take-profit order
    of the side. *)
Lemma adjust_long_conservative_run (cfg : Config) (g : GridCore) (w : World) :
  ~ long_position g == 0 -> POSITION_THRESHOLD cfg < long_position g ->
  exists g1 new,
    adjust_long cfg g w = (Returned tt, g1, after_requests w new)
    /\ positions_are (long_position g) (short_position g) g1
    /\ (new = []
        \/ exists price' quantity',
             new = [PlaceTakeProfitOrder "long" price' quantity']).
Proof.
  intros Hnz Hth.
  assert (Ez : Qeq_bool (long_position g) 0 = false)
    by (apply Qeq_bool_false; exact Hnz).
  assert (Et : Qltb (long_position g) (POSITION_THRESHOLD cfg) = false).
  { apply Qltb_ge, Qlt_le_weak, Hth. }
  apply Qltb_lt in Hth.
  unfold adjust_long, bind at 1, get at 1. rewrite Ez, Et.
  destruct (_ || _);
    [|exists g, []; rewrite after_requests_nil;
      split; [reflexivity|split; [split; reflexivity|left; reflexivity]]].
  unfold place_long_orders, try_except, bind at 1, get at 1.
  unfold bind at 1, modify at 1. unfold bind at 1, get at 1.
  destruct (get_take_profit_quantity_positions cfg (long_position g) "long" g)
    as [Pl Ps].
  set (g1 := get_take_profit_quantity cfg (long_position g) "long" g) in *.
  rewrite Pl, Hth.
  destruct (Qltb 0 (long_position g));
    [|exists g1, []; rewrite after_requests_nil;
      split; [reflexivity|split; [split; assumption|left; reflexivity]]].
  destruct (Qleb _ _);
    [|exists g1, []; rewrite after_requests_nil;
      split; [reflexivity|split; [split; assumption|left; reflexivity]]].
  unfold place_take_profit_order, bind, call, ret.
  eexists g1, _. split.
  - destruct (oracle w _); reflexivity.
  - split; [split; assumption|]. right. eexists; eexists; reflexivity.
Qed.

Lemma adjust_short_conservative_run (cfg : Config) (g : GridCore)
    (w : World) :
  ~ short_position g == 0 -> POSITION_THRESHOLD cfg < short_position g ->
  exists g1 new,
    adjust_short cfg g w = (Returned tt, g1, after_requests w new)
    /\ positions_are (long_position g) (short_position g) g1
    /\ (new = []
        \/ exists price' quantity',
             new = [PlaceTakeProfitOrder "short" price' quantity']).
Proof.
  intros Hnz Hth.
  assert (Ez : Qeq_bool (short_position g) 0 = false)
    by (apply Qeq_bool_false; exact Hnz).
  assert (Et : Qltb (short_position g) (POSITION_THRESHOLD cfg) = false).
  { apply Qltb_ge, Qlt_le_weak, Hth. }
  apply Qltb_lt in Hth.
  unfold adjust_short, bind at 1, get at 1. rewrite Ez, Et.
  destruct (_ || _);
    [|exists g, []; rewrite after_requests_nil;
      split; [reflexivity|split; [split; reflexivity|left; reflexivity]]].
  unfold place_short_orders, try_except, bind at 1, get at 1.
  unfold bind at 1, modify at 1. unfold bind at 1, get at 1.
  destruct (get_take_profit_quantity_positions cfg (short_position g) "short"
              g) as [Pl Ps].
  set (g1 := get_take_profit_quantity cfg (short_position g) "short" g) in *.
  rewrite Ps, Hth.
  destruct (Qltb 0 (short_position g));
    [|exists g1, []; rewrite after_requests_nil;
      split; [reflexivity|split; [split; assumption|left; reflexivity]]].
  destruct (Qleb _ _);
    [|exists g1, []; rewrite after_requests_nil;
      split; [reflexivity|split; [split; assumption|left; reflexivity]]].
  unfold place_take_profit_order, bind, call, ret.
  eexists g1, _. split.
  - destruct (oracle w _); reflexivity.
  - split; [split; assumption|]. right. eexists; eexists; reflexivity.
Qed.

Lemma places_none_replenishes_none (position_side : string) (c : Call) :
  places_order_for position_side c = false ->
  replenishes position_side c = false.
Proof.
  destruct c; cbn; try reflexivity.
  destruct is_reduce_only; [reflexivity|]. exact (fun H => H).
Qed.

(** C7 (amended).  For either side whose position is non-zero and exceeds
    POSITION_THRESHOLD, and for every exchange behaviour: no request of an
    adjustment pass is a non-reduce-only order for that side; the orders the
    pass places for that side are, in this order, at most the reduce-only
    close of the risk valve and at most one take-profit order of the side;
    the close is there only if the valve fires (both positions above the
    threshold and half the smaller one positive) and, when it fires, always
    for the long side and for the short side unless the close of the long
    side raised; and the side's own half of the pass places nothing or
    exactly one take-profit order for that side. *)
Theorem conservative_side_gets_no_replenishment (cfg : Config)
    (position_side : string) (g : GridCore) (w : World) :
  position_side = "long"%string \/ position_side = "short"%string ->
  ~ position_of position_side g == 0 ->
  POSITION_THRESHOLD cfg < position_of position_side g ->
  (exists new,
     trace (snd (adjust_grid_strategy cfg g w)) = trace w ++ new
     /\ Forall (fun c => replenishes position_side c = false) new
     /\ exists valve take_profit,
          filter (places_order_for position_side) new = valve ++ take_profit
          /\ (valve = []
              \/ (valve_fires cfg g
                  /\ valve = [valve_close position_side g]))
          /\ (valve_fires cfg g ->
              position_side = "long"%string \/ reply_at w 0 <> RRaise ->
              valve = [valve_close position_side g])
          /\ (take_profit = []
              \/ exists price' quantity',
                   take_profit
                   = [PlaceTakeProfitOrder position_side price' quantity']))
  /\ (exists new,
        trace (snd (adjust_side cfg position_side g w)) = trace w ++ new
        /\ (new = []
            \/ exists price' quantity',
                 new = [PlaceTakeProfitOrder position_side price' quantity'])).
Proof.
  intros [-> | ->] Hnz Hth; cbn in Hnz, Hth; split;
    try (apply adjust_long_conservative_requests; assumption);
    try (apply adjust_short_conservative_requests; assumption).
  - destruct (check_and_reduce_positions_orders cfg g w)
      as (requests & Er & Hreq).
    destruct (adjust_long_conservative_run cfg g (after_requests w requests)
                Hnz Hth) as (g1 & new1 & E1 & [Hl Hs] & Hnew1).
    pose proof (hoare_adjust_short_own cfg (long_position g)
                  (short_position g)
                  (fun c => places_order_for "long" c = false)
                  eq_refl (fun _ => eq_refl) (fun _ _ => eq_refl)
                  (fun _ _ _ _ _ => eq_refl)
                  g1 (after_requests (after_requests w requests) new1)
                  Logic.I (conj Hl Hs)) as H2.
    destruct (adjust_short cfg g1
                (after_requests (after_requests w requests) new1))
      as [[r2 g2] w2] eqn:E2.
    destruct H2 as (_ & _ & new2 & Ht2 & Hp2).
    assert (Erun : adjust_grid_strategy cfg g w = (r2, g2, w2)).
    { unfold adjust_grid_strategy, bind. rewrite Er, E1, E2. reflexivity. }
    exists (requests ++ new1 ++ new2).
    rewrite Erun. cbn [snd]. rewrite Ht2. cbn [trace after_requests].
    rewrite <- !app_assoc. split; [reflexivity|]. split.
    + apply Forall_app. split; [|apply Forall_app; split].
      * destruct Hreq as [[_ ->] | [_ [[_ ->] | [_ ->]]]];
          repeat constructor.
      * destruct Hnew1 as [-> | (price' & quantity' & ->)];
          repeat constructor.
      * revert Hp2. apply Forall_impl. intro c.
        apply places_none_replenishes_none.
    + rewrite !filter_app, (filter_none _ new2 Hp2), app_nil_r.
      exists (filter (places_order_for "long") requests),
        (filter (places_order_for "long") new1).
      split; [reflexivity|]. split; [|split].
      * destruct Hreq as [[_ ->] | [Hf [[_ ->] | [_ ->]]]];
          [left; reflexivity| |]; right; split; try exact Hf; reflexivity.
      * intros Hf _.
        destruct Hreq as [[Hn _] | [_ [[_ ->] | [_ ->]]]];
          [contradiction| |]; reflexivity.
      * destruct Hnew1 as [-> | (price' & quantity' & ->)];
          [left; reflexivity|].
        right. exists price', quantity'. reflexivity.
  - destruct (check_and_reduce_positions_orders cfg g w)
      as (requests & Er & Hreq).
    pose proof (hoare_adjust_long_own cfg (long_position g)
                  (short_position g)
                  (fun c => places_order_for "short" c = false)
                  eq_refl (fun _ => eq_refl) (fun _ _ => eq_refl)
                  (fun _ _ _ _ _ => eq_refl)
                  g (after_requests w requests)
                  Logic.I (conj eq_refl eq_refl)) as H1.
    destruct (adjust_long cfg g (after_requests w requests))
      as [[r1 g1] w1] eqn:E1.
    destruct H1 as ([Hl Hs] & _ & new1 & Ht1 & Hp1).
    assert (Hvalve :
      (filter (places_order_for "short") requests = []
       \/ (valve_fires cfg g
           /\ filter (places_order_for "short") requests
              = [valve_close "short" g]))
      /\ (valve_fires cfg g ->
          "short"%string = "long"%string \/ reply_at w 0 <> RRaise ->
          filter (places_order_for "short") requests
          = [valve_close "short" g])).
    { destruct Hreq as [[Hn ->] | [Hf [[E0 ->] | [_ ->]]]]; split;
        try (left; reflexivity);
        try (right; split; [exact Hf|reflexivity]);
        try (intros; reflexivity).
      - intros Hf _. contradiction.
      - intros _ [H | H]; [discriminate H|contradiction]. }
    assert (Hrequests :
      Forall (fun c => replenishes "short" c = false) requests).
    { destruct Hreq as [[_ ->] | [_ [[_ ->] | [_ ->]]]];
        repeat constructor. }
    assert (Hnew1 : Forall (fun c => replenishes "short" c = false) new1).
    { revert Hp1. apply Forall_impl. intro c.
      apply places_none_replenishes_none. }
    destruct r1 as [[]|].
    + rewrite <- Hs in Hnz, Hth.
      destruct (adjust_short_conservative_run cfg g1 w1 Hnz Hth)
        as (g2 & new2 & E2 & _ & Hnew2).
      assert (Erun : adjust_grid_strategy cfg g w
                     = (Returned tt, g2, after_requests w1 new2)).
      { unfold adjust_grid_strategy, bind. rewrite Er, E1, E2.
        reflexivity. }
      exists (requests ++ new1 ++ new2).
      rewrite Erun. cbn [snd trace after_requests]. rewrite Ht1.
      cbn [trace after_requests].
      rewrite <- !app_assoc. split; [reflexivity|]. split.
      * apply Forall_app. split; [exact Hrequests|].
        apply Forall_app. split; [exact Hnew1|].
        destruct Hnew2 as [-> | (price' & quantity' & ->)];
          repeat constructor.
      * rewrite !filter_app, (filter_none _ new1 Hp1), app_nil_l.
        exists (filter (places_order_for "short") requests),
          (filter (places_order_for "short") new2).
        split; [reflexivity|]. split; [exact (proj1 Hvalve)|].
        split; [exact (proj2 Hvalve)|].
        destruct Hnew2 as [-> | (price' & quantity' & ->)];
          [left; reflexivity|].
        right. exists price', quantity'. reflexivity.
    + assert (Erun : adjust_grid_strategy cfg g w = (Raised, g1, w1)).
      { unfold adjust_grid_strategy, bind. rewrite Er, E1. reflexivity. }
      exists (requests ++ new1).
      rewrite Erun. cbn [snd]. rewrite Ht1. cbn [trace after_requests].
      rewrite <- !app_assoc. split; [reflexivity|]. split.
      * apply Forall_app. split; [exact Hrequests|exact Hnew1].
      * rewrite !filter_app, (filter_none _ new1 Hp1), app_nil_r.
        exists (filter (places_order_for "short") requests), [].
        rewrite app_nil_r.
        split; [reflexivity|]. split; [exact (proj1 Hvalve)|].
        split; [exact (proj2 Hvalve)|]. left. reflexivity.
Qed.

(** Both sides at 600 (threshold 500), seen from the short side, on an
    exchange that lists no open orders. *)
Lemma conservative_side_gets_no_replenishment_witness :
  let g := set_latest_price 2
             (set_short_position 600
                (set_long_position 600 GridCore.init)) in
  let w := {| oracle := fun _ => ROrders []; trace := []; now := 100 |} in
  (exists new,
     trace (snd (adjust_grid_strategy config g w)) = trace w ++ new
     /\ Forall (fun c => replenishes "short" c = false) new
     /\ exists valve take_profit,
          filter (places_order_for "short") new = valve ++ take_profit
          /\ (valve = []
              \/ (valve_fires config g /\ valve = [valve_close "short" g]))
          /\ (valve_fires config g ->
              "short"%string = "long"%string \/ reply_at w 0 <> RRaise ->
              valve = [valve_close "short" g])
          /\ (take_profit = []
              \/ exists price' quantity',
                   take_profit
                   = [PlaceTakeProfitOrder "short" price' quantity']))
  /\ (exists new,
        trace (snd (adjust_side config "short" g w)) = trace w ++ new
        /\ (new = []
            \/ exists price' quantity',
                 new = [PlaceTakeProfitOrder "short" price' quantity'])).
Proof.
  cbv zeta.
  apply (conservative_side_gets_no_replenishment config "short").
  - right. reflexivity.
  - intro H. discriminate H.
  - reflexivity.
Defined.

(** In that pass the valve fires, and the orders placed for the short side
    are its close followed by the take-profit order. *)
Example conservative_pass_valve_then_take_profit :
  let g := set_latest_price 2
             (set_short_position 600
                (set_long_position 600 GridCore.init)) in
  let w := {| oracle := fun _ => ROrders []; trace := []; now := 100 |} in
  valve_fires config g
  /\ filter (places_order_for "short")
       (trace (snd (adjust_grid_strategy config g w)))
     = [ valve_close "short" g;
         PlaceTakeProfitOrder "short"
           (latest_price g / (600 / py_max 600 1 / 100 + 1))
           (py_min 600 (INITIAL_QUANTITY config * 2)) ].
Proof.
  cbv zeta. split; [repeat split|reflexivity].
Qed.

(** * Further properties of the protection machine *)

Import KlineFeed.

(** What [update_kline_data] does to state and world, and what it
    reports. *)
Lemma process_bar_run (b : Bar) (p : ExtremeMarketProtection) (w : World) :
  let current_time :=
    match bar_timestamp b with Some t => t | None => now w end in
  let p' := after_bar current_time b p in
  (bar_open b == 0 /\ process_bar b p w = (Raised, p, w))
  \/ (~ bar_open b == 0
      /\ exists ms,
           process_bar b p w = (Returned ms, p', w)
           /\ atr_value ms = fst (_calculate_atr 14 (with_bar current_time b p))
           /\ is_extreme ms
              = Qleb (extreme_threshold (self_config p'))
                  (Qabs (cumulative_change_percent p'))
           /\ trend_magnitude ms = cumulative_change_percent p'
           /\ consecutive_klines ms = consecutive_kline_count p'
           /\ trend_direction ms = consecutive_trend_direction p'
           /\ price ms = bar_close b
           /\ protection_triggered ms = protection_active p').
Proof.
  cbv zeta.
  unfold process_bar, update_kline_data, after_bar, with_bar, bind, modify,
    get, ret, time_time, raise.
  destruct (bar_timestamp b) as [t|];
    (destruct (Qeq_bool (bar_open b) 0) eqn:Ez;
     [ left; split; [apply Qeq_bool_iff; exact Ez|reflexivity]
     | right; split; [apply Qeq_bool_neq; exact Ez|] ]);
    match goal with
    | |- context [_calculate_atr 14 ?q] =>
        destruct (_calculate_atr 14 q) as [atr q'] eqn:E
    end;
    eexists; repeat split; reflexivity.
Qed.

(** An invariant of accepted bars is an invariant of every feed. *)
Lemma feed_invariant (J : ExtremeMarketProtection -> Prop) :
  (forall current_time b p, ~ bar_open b == 0 -> J p ->
     J (after_bar current_time b p)) ->
  forall bars p w,
    J p ->
    J (snd (fst (feed bars p w))) /\ snd (feed bars p w) = w.
Proof.
  intros Step bars. induction bars as [|b rest IH]; intros p w Hp.
  - cbn. split; [exact Hp|reflexivity].
  - cbn [feed]. unfold bind, try_except, ret.
    destruct (process_bar_run b p w) as [[_ E]|[Hnz [ms [E _]]]]; rewrite E.
    + apply IH. exact Hp.
    + apply IH. apply Step; assumption.
Qed.

Lemma append_capped_length {A} (cap : nat) (l : list A) (x : A) :
  (List.length l <= cap)%nat ->
  (List.length (append_capped cap l x) <= cap)%nat.
Proof.
  intro H. unfold append_capped.
  destruct (cap <? List.length (l ++ [x]))%nat eqn:E.
  - destruct l as [|a l]; cbn in *; [lia|].
    rewrite length_app. cbn. lia.
  - apply Nat.ltb_ge in E. exact E.
Qed.

Lemma _detect_consecutive_trend_buffers (kline_data : KlineData)
    (p : ExtremeMarketProtection) :
  let p' := _detect_consecutive_trend kline_data p in
  kline_buffer p' = kline_buffer p
  /\ price_buffer p' = price_buffer p
  /\ last_atr_values p' = last_atr_values p.
Proof.
  unfold _detect_consecutive_trend.
  destruct (_ && _).
  - cbn. destruct (consecutive_trend_start_price p) as [start|];
      [|repeat split].
    destruct (truthy start); [|repeat split].
    destruct (Direction_eqb _ _); repeat split.
  - destruct (_ && _); [repeat split|].
    destruct (Direction_eqb _ _); repeat split.
Qed.

Lemma _calculate_atr_buffers (period : nat) (p : ExtremeMarketProtection) :
  let p' := snd (_calculate_atr period p) in
  kline_buffer p' = kline_buffer p
  /\ price_buffer p' = price_buffer p
  /\ ((List.length (last_atr_values p) <= 50)%nat ->
      (List.length (last_atr_values p') <= 50)%nat).
Proof.
  unfold _calculate_atr.
  destruct (_ <? _)%nat; [cbn; tauto|].
  destruct (true_ranges _ _) as [|r rs]; [cbn; tauto|].
  cbn [snd set_last_atr_values baseline_atr].
  assert (G : forall q : ExtremeMarketProtection,
            kline_buffer q = kline_buffer p ->
            price_buffer q = price_buffer p ->
            let q' := match baseline_atr p with
                      | Some _ => q
                      | None =>
                          if (20 <=? List.length (last_atr_values q))%nat
                          then set_baseline_atr
                                 (Some (py_sum (last_atr_values q)
                                        / py_len (last_atr_values q))) q
                          else q
                      end in
            kline_buffer q' = kline_buffer p
            /\ price_buffer q' = price_buffer p
            /\ last_atr_values q' = last_atr_values q).
  { intros q Hk Hp. cbv zeta.
    destruct (baseline_atr p); [tauto|].
    destruct (20 <=? _)%nat; cbn; tauto. }
  match goal with
  | |- context [set_last_atr_values ?l p] =>
      destruct (G (set_last_atr_values l p) eq_refl eq_refl)
        as (Gk & Gp & Ga)
  end.
  split; [exact Gk|]. split; [exact Gp|].
  intro Hlen. rewrite Ga. cbn. apply append_capped_length. exact Hlen.
Qed.

(** X11.  The buffers never outgrow their capacities: starting within 168
    bars, 100 prices and 50 ATR samples (as the fresh state is), every
    sequence of bars, including bars that raise, leaves the three buffers
    within these bounds; feeding bars makes no request. *)
Theorem feed_keeps_buffers_bounded (bars : list Bar)
    (p : ExtremeMarketProtection) (w : World) :
  buffers_bounded p ->
  buffers_bounded (snd (fst (feed bars p w)))
  /\ snd (feed bars p w) = w.
Proof.
  apply feed_invariant.
  intros current_time b q _ (Hk & Hp & Ha).
  unfold after_bar, with_bar.
  match goal with
  | |- buffers_bounded (snd (_calculate_atr 14 ?x)) =>
      destruct (_calculate_atr_buffers 14 x) as (Ck & Cp & Ca);
      set (y := x) in *
  end.
  unfold buffers_bounded. rewrite Ck, Cp.
  match goal with
  | y := set_price_buffer _ (_detect_consecutive_trend ?kd ?z) |- _ =>
      destruct (_detect_consecutive_trend_buffers kd z) as (Dk & Dp & Da)
  end.
  split; [|split].
  - subst y. cbn [kline_buffer set_price_buffer]. rewrite Dk. cbn.
    apply append_capped_length. exact Hk.
  - subst y. cbn [price_buffer set_price_buffer]. rewrite Dp. cbn.
    apply append_capped_length. exact Hp.
  - apply Ca. subst y. cbn [last_atr_values set_price_buffer].
    rewrite Da. cbn. exact Ha.
Qed.

(** Thirty bars into the fresh state. *)
Lemma feed_keeps_buffers_bounded_witness :
  let bars :=
    repeat {| bar_open := 100; bar_high := 101; bar_low := 99;
              bar_close := 101; bar_volume := 1; bar_timestamp := None |} 30 in
  let p := Protection.init default_config in
  let w := {| oracle := fun _ => RNone; trace := []; now := 0 |} in
  buffers_bounded (snd (fst (feed bars p w)))
  /\ snd (feed bars p w) = w.
Proof.
  cbv zeta. apply feed_keeps_buffers_bounded.
  unfold buffers_bounded, max_kline_buffer_size, max_buffer_size. cbn. lia.
Defined.

Lemma _calculate_atr_baseline (period : nat) (p : ExtremeMarketProtection)
    (baseline : Q) :
  baseline_atr p = Some baseline ->
  baseline_atr (snd (_calculate_atr period p)) = Some baseline.
Proof.
  intro Hb. unfold _calculate_atr.
  destruct (_ <? _)%nat; [exact Hb|].
  destruct (true_ranges _ _); [exact Hb|].
  cbn [snd set_last_atr_values baseline_atr]. rewrite Hb. exact Hb.
Qed.

(** X12.  The recovery baseline is fixed once: after a baseline ATR has been
    established, no sequence of bars changes it, however the volatility
    evolves afterwards. *)
Theorem baseline_atr_is_never_recomputed (bars : list Bar)
    (p : ExtremeMarketProtection) (w : World) (baseline : Q) :
  baseline_atr p = Some baseline ->
  baseline_atr (snd (fst (feed bars p w))) = Some baseline.
Proof.
  intro Hb.
  apply (feed_invariant (fun q => baseline_atr q = Some baseline));
    [|exact Hb].
  intros current_time b q _ Hq. unfold after_bar, with_bar.
  apply _calculate_atr_baseline. cbn [baseline_atr set_price_buffer].
  match goal with
  | |- baseline_atr (_detect_consecutive_trend ?kd ?z) = _ =>
      destruct (_detect_consecutive_trend_frame kd z) as (_ & _ & _ & F)
  end.
  rewrite F. exact Hq.
Qed.

(** A baseline of 0.002 and forty volatile bars. *)
Lemma baseline_atr_is_never_recomputed_witness :
  let bars :=
    repeat {| bar_open := 100; bar_high := 130; bar_low := 90;
              bar_close := 120; bar_volume := 1; bar_timestamp := None |} 40 in
  let p := set_baseline_atr (Some (2 # 1000)) (Protection.init default_config) in
  let w := {| oracle := fun _ => RNone; trace := []; now := 0 |} in
  baseline_atr (snd (fst (feed bars p w))) = Some (2 # 1000).
Proof.
  cbv zeta. apply baseline_atr_is_never_recomputed. reflexivity.
Defined.

Lemma _detect_consecutive_trend_well_formed (current_time o h l c v : Q)
    (p : ExtremeMarketProtection) :
  ~ o == 0 ->
  run_well_formed p ->
  run_well_formed
    (_detect_consecutive_trend (make_kline_data current_time o h l c v) p).
Proof.
  intros Ho Hp.
  assert (Truthy : forall start, ~ start == 0 -> truthy start = true).
  { intros start Hnz. unfold truthy. apply negb_true_iff.
    destruct (Qeq_bool start 0) eqn:E; [|reflexivity].
    apply Qeq_bool_iff in E. contradiction. }
  unfold _detect_consecutive_trend, make_kline_data.
  cbn [direction open_price close_price timestamp change_percent].
  unfold run_well_formed in Hp.
  destruct (bar_direction ((c - o) / o * 100)) eqn:Ed;
    destruct (consecutive_trend_direction p) eqn:Ep;
    cbn [Direction_eqb andb negb].
  - (* an up-run goes on *)
    destruct Hp as (Hc & start & Hs & Hnz).
    cbn [consecutive_trend_start_price set_consecutive_kline_count].
    rewrite Hs, (Truthy start Hnz).
    cbn [consecutive_trend_direction set_cumulative_change_percent
         set_consecutive_kline_count].
    rewrite Ep. cbn [Direction_eqb].
    unfold run_well_formed.
    cbn [consecutive_trend_direction set_cumulative_change_percent
         set_consecutive_kline_count consecutive_kline_count
         consecutive_trend_start_price].
    rewrite Ep. split; [lia|]. exists start. split; assumption.
  - unfold run_well_formed. cbn -[Qabs Qdiv Qmult Qminus].
    split; [lia|]. exists o. split; [reflexivity|exact Ho].
  - unfold run_well_formed. cbn -[Qabs Qdiv Qmult Qminus].
    split; [lia|]. exists o. split; [reflexivity|exact Ho].
  - unfold run_well_formed. cbn -[Qabs Qdiv Qmult Qminus].
    split; [lia|]. split; [apply Qabs_nonneg|].
    exists o. split; [reflexivity|exact Ho].
  - (* a down-run goes on *)
    destruct Hp as (Hc & Hm & start & Hs & Hnz).
    cbn [consecutive_trend_start_price set_consecutive_kline_count].
    rewrite Hs, (Truthy start Hnz).
    cbn [consecutive_trend_direction set_cumulative_change_percent
         set_consecutive_kline_count].
    rewrite Ep. cbn [Direction_eqb].
    unfold run_well_formed.
    cbn [consecutive_trend_direction set_cumulative_change_percent
         set_consecutive_kline_count consecutive_kline_count
         consecutive_trend_start_price cumulative_change_percent].
    rewrite Ep. split; [lia|]. split; [apply Qabs_nonneg|].
    exists start. split; assumption.
  - unfold run_well_formed. cbn -[Qabs Qdiv Qmult Qminus].
    split; [lia|]. split; [apply Qabs_nonneg|].
    exists o. split; [reflexivity|exact Ho].
  - unfold run_well_formed, _reset_consecutive_trend. cbn.
    repeat split; reflexivity.
  - unfold run_well_formed, _reset_consecutive_trend. cbn.
    repeat split; reflexivity.
  - unfold run_well_formed, _reset_consecutive_trend. cbn.
    repeat split; reflexivity.
Qed.

Lemma run_well_formed_ext (p q : ExtremeMarketProtection) :
  consecutive_trend_direction q = consecutive_trend_direction p ->
  consecutive_kline_count q = consecutive_kline_count p ->
  cumulative_change_percent q = cumulative_change_percent p ->
  consecutive_trend_start_price q = consecutive_trend_start_price p ->
  consecutive_trend_start_time q = consecutive_trend_start_time p ->
  run_well_formed p -> run_well_formed q.
Proof.
  intros Hd Hc Hm Hs Ht. unfold run_well_formed.
  rewrite Hd, Hc, Hm, Hs, Ht. tauto.
Qed.

Lemma after_bar_well_formed (current_time : Q) (b : Bar)
    (p : ExtremeMarketProtection) :
  ~ bar_open b == 0 ->
  run_well_formed p ->
  run_well_formed (after_bar current_time b p).
Proof.
  intros Ho Hp. unfold after_bar, with_bar.
  match goal with
  | |- run_well_formed (snd (_calculate_atr 14 ?x)) =>
      destruct (_calculate_atr_frame 14 x) as (_ & Fd & Fc & Fm & Fs & Ft & _);
      apply (run_well_formed_ext x); try assumption
  end.
  match goal with
  | |- run_well_formed (set_price_buffer _ ?x) =>
      apply (run_well_formed_ext x); try reflexivity
  end.
  apply _detect_consecutive_trend_well_formed; [exact Ho|].
  match goal with
  | |- run_well_formed (set_kline_buffer _ ?x) =>
      apply (run_well_formed_ext x); try reflexivity
  end.
  exact Hp.
Qed.

(** X13.  The consecutive-run state keeps its shape over every sequence of
    bars: either there is no run (direction neutral, 0 bars, cumulative move
    0, no start price or time) or the run has at least one bar and a non-zero
    start price; the cumulative move of a down-run is a magnitude (never
    negative). *)
Theorem feed_keeps_run_well_formed (bars : list Bar)
    (p : ExtremeMarketProtection) (w : World) :
  run_well_formed p ->
  run_well_formed (snd (fst (feed bars p w))).
Proof.
  intro Hp.
  apply (feed_invariant run_well_formed); [|exact Hp].
  intros current_time b q Ho Hq. apply after_bar_well_formed; assumption.
Qed.

(** Two falling bars, a bar that raises and a rising bar into the fresh
    state. *)
Lemma feed_keeps_run_well_formed_witness :
  let bar o c := {| bar_open := o; bar_high := o; bar_low := c;
                    bar_close := c; bar_volume := 1;
                    bar_timestamp := None |} in
  let bars := [bar 100 98; bar 98 95; bar 0 1; bar 95 99] in
  let p := Protection.init default_config in
  let w := {| oracle := fun _ => RNone; trace := []; now := 0 |} in
  run_well_formed (snd (fst (feed bars p w))).
Proof.
  cbv zeta. apply feed_keeps_run_well_formed.
  unfold run_well_formed. cbn. repeat split; reflexivity.
Defined.

Lemma after_bar_frame (current_time : Q) (b : Bar)
    (p : ExtremeMarketProtection) :
  let p' := after_bar current_time b p in
  self_config p' = self_config p
  /\ protection_active p' = protection_active p
  /\ hibernation_start_time p' = hibernation_start_time p.
Proof.
  cbv zeta. unfold after_bar.
  destruct (_calculate_atr_frame 14 (with_bar current_time b p))
    as (Fc & _ & _ & _ & _ & _ & Fa & Fh).
  rewrite Fc, Fa, Fh. unfold with_bar.
  cbn [self_config protection_active hibernation_start_time set_price_buffer].
  match goal with
  | |- context [_detect_consecutive_trend ?kd ?z] =>
      destruct (_detect_consecutive_trend_frame kd z) as (Dc & Da & Dh & _)
  end.
  rewrite Dc, Da, Dh. repeat split.
Qed.

(** X14.  For market states built from bars the trend-duration guard of
    [check_extreme_protection] plays no part: with a positive threshold and
    a well-formed run, an accepted bar that is reported extreme always
    carries a run of at least one bar, so an inactive machine goes straight
    to the emergency sequence, whatever [min_trend_duration] is; a bar that
    is not reported extreme changes nothing and makes no request. *)
Theorem kline_state_bypasses_duration_guard (b : Bar)
    (p : ExtremeMarketProtection) (w : World) :
  run_well_formed p ->
  0 < extreme_threshold (self_config p) ->
  ~ bar_open b == 0 ->
  protection_active p = false ->
  let current_time :=
    match bar_timestamp b with Some t => t | None => now w end in
  let p' := after_bar current_time b p in
  exists ms,
    process_bar b p w = (Returned ms, p', w)
    /\ (is_extreme ms = true ->
        (1 <= consecutive_klines ms)%Z
        /\ check_extreme_protection ms p' w
           = _trigger_emergency_protection ms p' w)
    /\ (is_extreme ms = false ->
        check_extreme_protection ms p' w = (Returned false, p', w)).
Proof.
  intros Hwf Hthr Ho Hinactive. cbv zeta.
  destruct (process_bar_run b p w) as [[Hz _]|[_ (ms & E & _ & He & _ & Hc & _)]];
    [contradiction|].
  cbv zeta in E, He, Hc.
  set (p' := after_bar _ b p) in *.
  destruct (after_bar_frame (match bar_timestamp b with
                             | Some t => t | None => now w end) b p)
    as (Fc & Fa & _).
  fold p' in Fc, Fa.
  assert (Hwf' : run_well_formed p')
    by (apply after_bar_well_formed; assumption).
  exists ms. split; [exact E|].
  unfold check_extreme_protection, bind, get, ret.
  rewrite Fa, Hinactive. cbn [negb].
  split.
  - intro Hext. rewrite Hext. cbn [andb].
    assert (Hcount : (1 <= consecutive_klines ms)%Z).
    { rewrite Hc. rewrite Hext in He. symmetry in He.
      apply Qleb_le in He. rewrite Fc in He.
      unfold run_well_formed in Hwf'.
      destruct (consecutive_trend_direction p').
      - tauto.
      - tauto.
      - destruct Hwf' as (_ & Hm & _). rewrite Hm in He.
        change (Qabs 0) with 0 in He. lra. }
    split; [exact Hcount|].
    assert (Hpos : (0 <? consecutive_klines ms)%Z = true)
      by (apply Z.ltb_lt; lia).
    rewrite Hpos. reflexivity.
  - intro Hext. rewrite Hext. reflexivity.
Qed.

(** A first bar from 100 to 111 with the default threshold 11. *)
Lemma kline_state_bypasses_duration_guard_witness :
  let b := {| bar_open := 100; bar_high := 111; bar_low := 100;
              bar_close := 111; bar_volume := 1; bar_timestamp := Some 0 |} in
  let p := Protection.init default_config in
  let w := {| oracle := fun _ => RNone; trace := []; now := 0 |} in
  let p' := after_bar 0 b p in
  exists ms,
    process_bar b p w = (Returned ms, p', w)
    /\ (is_extreme ms = true ->
        (1 <= consecutive_klines ms)%Z
        /\ check_extreme_protection ms p' w
           = _trigger_emergency_protection ms p' w)
    /\ (is_extreme ms = false ->
        check_extreme_protection ms p' w = (Returned false, p', w)).
Proof.
  cbv zeta.
  apply (kline_state_bypasses_duration_guard
           {| bar_open := 100; bar_high := 111; bar_low := 100;
              bar_close := 111; bar_volume := 1; bar_timestamp := Some 0 |}
           (Protection.init default_config)
           {| oracle := fun _ => RNone; trace := []; now := 0 |}).
  - unfold run_well_formed. cbn. repeat split; reflexivity.
  - reflexivity.
  - intro H. discriminate H.
  - reflexivity.
Defined.

(** X15.  While the protection is active, [check_extreme_protection] does
    nothing but evaluate the end of hibernation, however extreme the market
    state is: either it returns false with state and world untouched, or the
    hibernation time has elapsed and the volatility has recovered, and then
    it clears the flag and the hibernation start and writes the state file
    (its only request; the exchange is never contacted).  An active machine
    without a hibernation start never leaves the active state this way. *)
Theorem active_protection_only_evaluates_hibernation (ms : MarketState)
    (p : ExtremeMarketProtection) (w : World) :
  protection_active p = true ->
  (check_extreme_protection ms p w = (Returned false, p, w)
   \/ (hibernation_elapsed p w /\ volatility_recovered ms p
       /\ let p' := set_hibernation_start_time None
                      (set_protection_active false p) in
          check_extreme_protection ms p w
          = (Returned true, p',
             after_requests w [SaveState (saved_state p' (now w))])))
  /\ (hibernation_start_time p = None ->
      check_extreme_protection ms p w = (Returned false, p, w)).
Proof.
  intro Hactive.
  assert (E : check_extreme_protection ms p w = _check_hibernation_end ms p w).
  { unfold check_extreme_protection, bind, get. rewrite Hactive.
    reflexivity. }
  rewrite E. clear E. cbv zeta.
  unfold _check_hibernation_end, bind, get, time_time, ret, modify.
  split.
  - destruct (hibernation_start_time p) as [start|] eqn:Hs;
      [|left; reflexivity].
    destruct (Qltb _ _) eqn:Ht; [left; reflexivity|].
    destruct (_is_atr_recovered _ _) eqn:Hr; [|left; reflexivity].
    right. split; [|split].
    + exists start. split; [exact Hs|]. apply Qltb_ge. exact Ht.
    + apply _is_atr_recovered_sound. exact Hr.
    + rewrite _save_state_run. reflexivity.
  - intro Hnone. rewrite Hnone. reflexivity.
Qed.

(** Protection active for 30 hours, volatility back at the baseline, while
    the market state is flagged extreme. *)
Lemma active_protection_only_evaluates_hibernation_witness :
  let p := set_baseline_atr (Some (2 # 1000))
             (set_hibernation_start_time (Some 0)
                (set_protection_active true
                   (Protection.init default_config))) in
  let w := {| oracle := fun _ => RRaise; trace := []; now := 108000 |} in
  let ms := {| ms_timestamp := 108000; price := 1; trend_start_price := 1;
               trend_start_time := 0; trend_direction := down;
               trend_magnitude := 20; consecutive_klines := 5%Z;
               atr_value := 2 # 1000; is_extreme := true;
               protection_triggered := true |} in
  (check_extreme_protection ms p w = (Returned false, p, w)
   \/ (hibernation_elapsed p w /\ volatility_recovered ms p
       /\ let p' := set_hibernation_start_time None
                      (set_protection_active false p) in
          check_extreme_protection ms p w
          = (Returned true, p',
             after_requests w [SaveState (saved_state p' (now w))])))
  /\ (hibernation_start_time p = None ->
      check_extreme_protection ms p w = (Returned false, p, w)).
Proof.
  cbv zeta.
  apply active_protection_only_evaluates_hibernation.
  reflexivity.
Defined.

(** ** The ATR and its baseline *)

Lemma true_ranges_nonneg (newest_first : list Q) :
  forall n, Forall (fun x => 0 <= x) (true_ranges newest_first n).
Proof.
  induction newest_first as [|current_price rest IH]; intros [|k];
    cbn [true_ranges]; try constructor.
  destruct rest as [|previous_price rest']; [constructor|].
  constructor; [apply Qabs_nonneg|apply IH].
Qed.

Lemma py_sum_nonneg (l : list Q) :
  Forall (fun x => 0 <= x) l -> 0 <= py_sum l.
Proof.
  unfold py_sum.
  assert (G : forall a, 0 <= a -> Forall (fun x => 0 <= x) l ->
                        0 <= fold_left Qplus l a).
  { induction l as [|x l IH]; intros a Ha Hl; cbn; [exact Ha|].
    inversion Hl; subst. apply IH; [lra|assumption]. }
  apply G. lra.
Qed.

Lemma py_len_pos {A} (x : A) (l : list A) : 0 < py_len (x :: l).
Proof.
  unfold py_len. change 0 with (inject_Z 0). rewrite <- Zlt_Qlt.
  cbn [List.length]. lia.
Qed.

Lemma _calculate_atr_nonneg (period : nat) (p : ExtremeMarketProtection) :
  0 <= fst (_calculate_atr period p).
Proof.
  unfold _calculate_atr.
  destruct (_ <? _)%nat; [cbn; lra|].
  pose proof (true_ranges_nonneg (rev (map snd (price_buffer p)))
                (Nat.min (List.length (price_buffer p)) (period + 1) - 1))
    as Hn.
  destruct (true_ranges _ _) as [|r rs]; [cbn; lra|].
  cbn [fst].
  apply Qle_shift_div_l; [apply py_len_pos|].
  pose proof (py_sum_nonneg _ Hn). lra.
Qed.

Lemma append_capped_length_le {A} (cap : nat) (l : list A) (x : A) :
  (List.length (append_capped cap l x) <= List.length l + 1)%nat.
Proof.
  unfold append_capped.
  destruct (cap <? _)%nat.
  - destruct l as [|a l]; cbn; [lia|]. rewrite length_app. cbn. lia.
  - rewrite length_app. cbn. lia.
Qed.

Lemma with_bar_buffers (current_time : Q) (b : Bar)
    (p : ExtremeMarketProtection) :
  let p' := with_bar current_time b p in
  (List.length (price_buffer p') <= List.length (price_buffer p) + 1)%nat
  /\ last_atr_values p' = last_atr_values p
  /\ baseline_atr p' = baseline_atr p.
Proof.
  cbv zeta. unfold with_bar.
  cbn [price_buffer last_atr_values baseline_atr set_price_buffer].
  match goal with
  | |- context [_detect_consecutive_trend ?kd ?z] =>
      destruct (_detect_consecutive_trend_buffers kd z) as (_ & Dp & Da);
      destruct (_detect_consecutive_trend_frame kd z) as (_ & _ & _ & Db)
  end.
  rewrite Dp, Da, Db. cbn. split; [apply append_capped_length_le|].
  split; reflexivity.
Qed.

(** X16.  The ATR reported for a bar is never negative, and it is exactly 0,
    with no sample recorded and the baseline untouched, as long as fewer
    than 14 closing prices were stored before the bar. *)
Theorem atr_is_never_negative (b : Bar) (p : ExtremeMarketProtection)
    (w : World) :
  ~ bar_open b == 0 ->
  let current_time :=
    match bar_timestamp b with Some t => t | None => now w end in
  let p' := after_bar current_time b p in
  exists ms,
    process_bar b p w = (Returned ms, p', w)
    /\ 0 <= atr_value ms
    /\ ((List.length (price_buffer p) < 14)%nat ->
        atr_value ms = 0
        /\ last_atr_values p' = last_atr_values p
        /\ baseline_atr p' = baseline_atr p).
Proof.
  intro Ho. cbv zeta.
  destruct (process_bar_run b p w) as [[Hz _]|[_ (ms & E & Ha & _)]];
    [contradiction|].
  cbv zeta in E, Ha.
  exists ms. split; [exact E|].
  rewrite Ha. split; [apply _calculate_atr_nonneg|].
  intro Hlen. unfold after_bar.
  set (t := match bar_timestamp b with Some t => t | None => now w end).
  destruct (with_bar_buffers t b p) as (Hp & Hl & Hb).
  assert (Short : _calculate_atr 14 (with_bar t b p) = (0, with_bar t b p)).
  { unfold _calculate_atr.
    assert (Hlt : (List.length (price_buffer (with_bar t b p)) <? 14 + 1)%nat
                  = true) by (apply Nat.ltb_lt; lia).
    rewrite Hlt. reflexivity. }
  rewrite Short. cbn [fst snd]. repeat split; assumption.
Qed.

(** The third bar of a feed. *)
Lemma atr_is_never_negative_witness :
  let b := {| bar_open := 100; bar_high := 103; bar_low := 99;
              bar_close := 102; bar_volume := 1; bar_timestamp := Some 120 |} in
  let p := set_price_buffer [(0, 100); (60, 101)]
             (Protection.init default_config) in
  let w := {| oracle := fun _ => RNone; trace := []; now := 120 |} in
  let p' := after_bar 120 b p in
  exists ms,
    process_bar b p w = (Returned ms, p', w)
    /\ 0 <= atr_value ms
    /\ ((List.length (price_buffer p) < 14)%nat ->
        atr_value ms = 0
        /\ last_atr_values p' = last_atr_values p
        /\ baseline_atr p' = baseline_atr p).
Proof.
  cbv zeta.
  apply (atr_is_never_negative
           {| bar_open := 100; bar_high := 103; bar_low := 99;
              bar_close := 102; bar_volume := 1; bar_timestamp := Some 120 |}
           (set_price_buffer [(0, 100); (60, 101)]
              (Protection.init default_config))
           {| oracle := fun _ => RNone; trace := []; now := 120 |}).
  intro H. discriminate H.
Defined.

Lemma _calculate_atr_counts (p : ExtremeMarketProtection) (k : nat) :
  (List.length (price_buffer p) <= k + 1)%nat ->
  (List.length (last_atr_values p) <= k - 14)%nat ->
  baseline_atr p = None ->
  (k + 1 < 34)%nat ->
  let p' := snd (_calculate_atr 14 p) in
  (List.length (last_atr_values p') <= k + 1 - 14)%nat
  /\ baseline_atr p' = None.
Proof.
  intros Hp Ha Hb Hk. cbv zeta. unfold _calculate_atr.
  destruct (_ <? _)%nat eqn:Elt; [cbn; split; [lia|exact Hb]|].
  apply Nat.ltb_ge in Elt.
  destruct (true_ranges _ _) as [|r rs]; [cbn; split; [lia|exact Hb]|].
  cbn [snd set_last_atr_values baseline_atr last_atr_values]. rewrite Hb.
  set (l := append_capped 50 (last_atr_values p) _).
  assert (Hl : (List.length l <= k + 1 - 14)%nat).
  { pose proof (append_capped_length_le 50 (last_atr_values p)
                  (py_sum (r :: rs) / py_len (r :: rs))) as H.
    fold l in H. lia. }
  destruct (20 <=? List.length l)%nat eqn:E.
  - apply Nat.leb_le in E. lia.
  - cbn. split; [exact Hl|exact Hb].
Qed.

Lemma feed_no_baseline (bars : list Bar) :
  forall (p : ExtremeMarketProtection) (w : World) (k : nat),
    (List.length (price_buffer p) <= k)%nat ->
    (List.length (last_atr_values p) <= k - 14)%nat ->
    baseline_atr p = None ->
    (k + List.length bars < 34)%nat ->
    baseline_atr (snd (fst (feed bars p w))) = None.
Proof.
  induction bars as [|b rest IH]; intros p w k Hp Ha Hb Hk.
  - exact Hb.
  - cbn [feed]. unfold bind, try_except, ret.
    cbn [List.length] in Hk.
    destruct (process_bar_run b p w) as [[_ E]|[_ (ms & E & _)]];
      cbv zeta in E; rewrite E.
    + apply (IH p w k); try assumption. lia.
    + set (t := match bar_timestamp b with Some t => t | None => now w end).
      destruct (with_bar_buffers t b p) as (Wp & Wl & Wb).
      destruct (_calculate_atr_counts (with_bar t b p) k) as (Ca & Cb);
        [lia|rewrite Wl; exact Ha|rewrite Wb; exact Hb|lia|].
      destruct (_calculate_atr_buffers 14 (with_bar t b p)) as (_ & Cp & _).
      apply (IH _ w (k + 1)%nat).
      * unfold after_bar. rewrite Cp. lia.
      * exact Ca.
      * exact Cb.
      * lia.
Qed.

(** X17.  A machine started without a state file has no recovery baseline
    until it has been fed at least 34 bars: 14 closing prices are needed
    before the first ATR sample and 20 samples before the baseline. *)
Theorem baseline_needs_34_bars (c : ProtectionConfig) (bars : list Bar)
    (w : World) :
  (List.length bars < 34)%nat ->
  baseline_atr (snd (fst (feed bars (Protection.init c) w))) = None.
Proof.
  intro H. apply (feed_no_baseline bars _ w 0%nat); cbn; try lia.
  reflexivity.
Qed.

(** Thirty-three volatile bars. *)
Lemma baseline_needs_34_bars_witness :
  let bars :=
    repeat {| bar_open := 100; bar_high := 130; bar_low := 90;
              bar_close := 120; bar_volume := 1; bar_timestamp := None |} 33 in
  let w := {| oracle := fun _ => RNone; trace := []; now := 0 |} in
  baseline_atr (snd (fst (feed bars (Protection.init default_config) w)))
  = None.
Proof.
  cbv zeta. apply baseline_needs_34_bars. cbn. lia.
Defined.

(** * Further properties of the emergency sequence *)

Import Emergency.

Lemma forallb_filter_length {A} (f : A -> bool) (l : list A) :
  (List.length (filter f l) =? List.length l)%nat = forallb f l.
Proof.
  induction l as [|a l IH]; [reflexivity|].
  cbn. destruct (f a); cbn; [exact IH|].
  apply Nat.eqb_neq. pose proof (filter_length_le f l). lia.
Qed.

Lemma forallb_pointwise {A} (f g : A -> bool) (l : list A) :
  (forall x, f x = g x) -> forallb f l = forallb g l.
Proof.
  intro H. induction l as [|a l IH]; [reflexivity|].
  cbn. rewrite H, IH. reflexivity.
Qed.

Lemma success_count_map {A} (f : A -> bool) (l : list A) :
  success_count (map (fun k => Returned (f k)) l)
  = List.length (filter f l).
Proof.
  unfold success_count.
  induction l as [|a l IH]; [reflexivity|].
  cbn. destruct (f a); cbn; rewrite IH; reflexivity.
Qed.

Lemma _cancel_single_order_run {S} (order_id : string) (s : S) (w : World) :
  _cancel_single_order order_id s w
  = (Returned (negb (is_raise (reply_at w 0))), s,
     after_requests w [ExCancelOrder order_id]).
Proof.
  unfold _cancel_single_order, try_except, bind.
  destruct (is_raise (reply_at w 0)) eqn:E.
  - rewrite call_raises by (destruct (reply_at w 0); try discriminate E;
                            reflexivity).
    reflexivity.
  - rewrite call_returns by (intro H; rewrite H in E; discriminate E).
    reflexivity.
Qed.

(** The cancel tasks are all run, one request each, whatever the earlier
    ones did. *)
Lemma gather_cancel_run {S} (orders : list Order) :
  forall (s : S) (w : World),
    gather (map (fun order => _cancel_single_order (o_id order)) orders) s w
    = (Returned
         (map (fun k => Returned (negb (is_raise (reply_at w k))))
            (seq 0 (List.length orders))),
       s, after_requests w (map ExCancelOrder (map o_id orders))).
Proof.
  induction orders as [|order rest IH]; intros s w.
  - cbn. rewrite after_requests_nil. reflexivity.
  - cbn [map gather List.length seq].
    rewrite _cancel_single_order_run, IH.
    rewrite after_requests_app. cbn [app].
    rewrite <- seq_shift.
    f_equal. f_equal. f_equal.
    rewrite (map_map Datatypes.S). f_equal. apply map_ext.
    intro k. rewrite reply_at_after. reflexivity.
Qed.

(** X18.  The cancel-all step of the emergency sequence lists the open
    orders once and then asks to cancel every one of them, in order, going
    on after a cancel that fails; it reports success exactly when no cancel
    request raised.  An empty or missing list is a success; a listing that
    fails is a failure with no cancel attempted.  No attribute changes. *)
Theorem _cancel_all_orders_tries_every_order {S} (s : S) (w : World) :
  _cancel_all_orders s w
  = match reply_at w 0 with
    | ROrders orders =>
        (Returned
           (forallb (fun k => negb (is_raise (reply_at w (Datatypes.S k))))
              (seq 0 (List.length orders))),
         s,
         after_requests w
           (GetOpenOrders :: map ExCancelOrder (map o_id orders)))
    | RNone => (Returned true, s, after_requests w [GetOpenOrders])
    | _ => (Returned false, s, after_requests w [GetOpenOrders])
    end.
Proof.
  unfold _cancel_all_orders, try_except, bind at 1.
  destruct (reply_at w 0) as [orders| | | | | |] eqn:E;
    try (rewrite call_returns by (rewrite E; discriminate);
         rewrite E; reflexivity);
    try (rewrite call_raises by exact E; reflexivity).
  rewrite call_returns by (rewrite E; discriminate). rewrite E.
  destruct orders as [|order rest]; [reflexivity|].
  unfold bind. rewrite gather_cancel_run. unfold ret.
  rewrite after_requests_app. cbn [app].
  rewrite success_count_map.
  set (n := List.length (order :: rest)).
  pose proof (forallb_filter_length
                (fun k => negb (is_raise
                                  (reply_at (after_requests w [GetOpenOrders])
                                     k)))
                (seq 0 n)) as Hc.
  rewrite length_seq in Hc. rewrite Hc.
  f_equal. f_equal. f_equal.
  apply forallb_pointwise. intro k. rewrite reply_at_after. reflexivity.
Qed.

(** Three open orders; the cancel of the second one raises. *)
Example _cancel_all_orders_goes_on_after_failure :
  let order id := {| o_id := id; o_side := Some "buy"%string;
                     o_reduceOnly := false;
                     o_positionSide := Some "LONG"%string; o_origQty := 1 |} in
  let w := {| oracle := fun n =>
                match n with
                | 0%nat => ROrders [order "1"; order "2"; order "3"]%string
                | 2%nat => RRaise
                | _ => RNone
                end;
              trace := []; now := 0 |} in
  match _cancel_all_orders tt w with
  | (r, _, w') => (r, trace w')
  end
  = (Returned false,
     [GetOpenOrders; ExCancelOrder "1"; ExCancelOrder "2";
      ExCancelOrder "3"]%string).
Proof. reflexivity. Qed.

(** ** Waiting for a fill *)

Lemma wait_loop_bounded {S} (order_id : option string)
    (start_time timeout : Q) (fuel : nat) :
  forall (s : S) (w : World),
    exists n r w',
      (n <= fuel)%nat
      /\ wait_loop fuel order_id start_time timeout s w = (Returned r, s, w')
      /\ trace w' = trace w ++ repeat (GetOrderStatus order_id) n
      /\ oracle w' = oracle w
      /\ now w <= now w'
      /\ (now w' == now w \/ now w' < start_time + timeout + 1)
      /\ (r = true ->
          exists k, n = Datatypes.S k
                    /\ reply_at w k = RStatus (Some "filled"%string))
      /\ (timeout <= now w - start_time -> n = 0%nat /\ r = false).
Proof.
  induction fuel as [|fuel IH]; intros s w.
  - exists 0%nat, false, w. cbn [repeat wait_loop]. rewrite app_nil_r.
    split; [lia|]. split; [reflexivity|]. split; [reflexivity|].
    split; [reflexivity|]. split; [lra|]. split; [left; reflexivity|].
    split; [discriminate|]. intros _. split; reflexivity.
  - assert (Stop : forall r w',
              (Returned r, s, w')
              = (Returned false, s, w) ->
              exists n r0 w0,
                (n <= Datatypes.S fuel)%nat
                /\ (Returned r, s, w') = (Returned r0, s, w0)
                /\ trace w0 = trace w ++ repeat (GetOrderStatus order_id) n
                /\ oracle w0 = oracle w
                /\ now w <= now w0
                /\ (now w0 == now w \/ now w0 < start_time + timeout + 1)
                /\ (r0 = true ->
                    exists k, n = Datatypes.S k
                              /\ reply_at w k = RStatus (Some "filled"%string))
                /\ (timeout <= now w - start_time -> n = 0%nat /\ r0 = false)).
    { intros r w' H. inversion H; subst.
      exists 0%nat, false, w. cbn [repeat]. rewrite app_nil_r.
      split; [lia|]. split; [reflexivity|]. split; [reflexivity|].
      split; [reflexivity|]. split; [lra|]. split; [left; reflexivity|].
      split; [discriminate|]. intros _. split; reflexivity. }
    rewrite wait_loop_pass. cbv zeta.
    destruct (Qltb (now w - start_time) timeout) eqn:Et;
      [|apply Stop; reflexivity].
    apply Qltb_lt in Et.
    set (asked := {| oracle := oracle w;
                     trace := trace w ++ [GetOrderStatus order_id];
                     now := now w |}).
    set (slept := {| oracle := oracle w;
                     trace := trace w ++ [GetOrderStatus order_id];
                     now := now w + 1 |}).
    assert (Again :
      exists n r w',
        (n <= Datatypes.S fuel)%nat
        /\ wait_loop fuel order_id start_time timeout s slept
           = (Returned r, s, w')
        /\ trace w' = trace w ++ repeat (GetOrderStatus order_id) n
        /\ oracle w' = oracle w
        /\ now w <= now w'
        /\ (now w' == now w \/ now w' < start_time + timeout + 1)
        /\ (r = true ->
            exists k, n = Datatypes.S k
                      /\ reply_at w k = RStatus (Some "filled"%string))
        /\ (timeout <= now w - start_time -> n = 0%nat /\ r = false)).
    { destruct (IH s slept) as (n & r & w' & Hn & E & Ht & Ho & Hc & Hb & Hr & _).
      exists (Datatypes.S n), r, w'.
      split; [lia|]. split; [exact E|].
      split.
      { rewrite Ht. subst slept. cbn [trace repeat].
        rewrite <- app_assoc. reflexivity. }
      split; [exact Ho|].
      subst slept. cbn [now] in Hc, Hb.
      split; [lra|].
      split; [right; destruct Hb as [Hb|Hb]; lra|].
      split.
      - intro Htrue. destruct (Hr Htrue) as (k & Hk & Hreply).
        subst n. exists (Datatypes.S k). split; [reflexivity|].
        unfold reply_at in *. cbn [trace oracle] in Hreply.
        rewrite length_app in Hreply. cbn [List.length] in Hreply.
        replace (List.length (trace w) + Datatypes.S k)%nat
          with (List.length (trace w) + 1 + k)%nat by lia.
        exact Hreply.
      - intro Hge. lra. }
    destruct (oracle w (List.length (trace w))) as [| | | |status| |] eqn:Er;
      try exact Again.
    destruct (is_str status "filled") eqn:Ef.
    + exists 1%nat, true, asked.
      split; [lia|]. split; [reflexivity|].
      split; [reflexivity|]. split; [reflexivity|].
      cbn [now asked]. split; [lra|]. split; [left; reflexivity|].
      split.
      * intros _. exists 0%nat. split; [reflexivity|].
        unfold reply_at. rewrite Nat.add_0_r, Er.
        destruct status as [st|]; [|discriminate Ef].
        cbn in Ef. apply String.eqb_eq in Ef. subst st. reflexivity.
      * intro Hge. lra.
    + destruct (is_str status "canceled" || is_str status "rejected");
        [|exact Again].
      exists 1%nat, false, asked.
      split; [lia|]. split; [reflexivity|].
      split; [reflexivity|]. split; [reflexivity|].
      cbn [now asked]. split; [lra|]. split; [left; reflexivity|].
      split; [discriminate|]. intro Hge. lra.
Qed.

Lemma _wait_for_order_fill_requests {S} (order_id : option string)
    (timeout : Q) (s : S) (w : World) :
  exists n r w',
    (n <= passes timeout)%nat
    /\ _wait_for_order_fill order_id timeout s w = (Returned r, s, w')
    /\ trace w' = trace w ++ repeat (GetOrderStatus order_id) n
    /\ oracle w' = oracle w.
Proof.
  unfold _wait_for_order_fill, bind, time_time.
  destruct (wait_loop_bounded order_id (now w) timeout (passes timeout) s w)
    as (n & r & w' & Hn & E & Ht & Ho & _).
  exists n, r, w'. repeat split; assumption.
Qed.

(** X19.  [_wait_for_order_fill] always returns: it makes at most
    ceil(timeout) + 1 status requests and nothing else, changes no
    attribute, and lets the clock advance by less than timeout + 1 seconds.
    It returns true only when its last request was answered "filled"; with
    a timeout of zero or less it asks nothing and returns false. *)
Theorem _wait_for_order_fill_bounded {S} (order_id : option string)
    (timeout : Q) (s : S) (w : World) :
  exists n r w',
    (n <= passes timeout)%nat
    /\ _wait_for_order_fill order_id timeout s w = (Returned r, s, w')
    /\ w' = {| oracle := oracle w;
               trace := trace w ++ repeat (GetOrderStatus order_id) n;
               now := now w' |}
    /\ now w <= now w'
    /\ (now w' == now w \/ now w' < now w + timeout + 1)
    /\ (r = true ->
        exists k, n = Datatypes.S k
                  /\ reply_at w k = RStatus (Some "filled"%string))
    /\ (timeout <= 0 -> n = 0%nat /\ r = false).
Proof.
  unfold _wait_for_order_fill, bind, time_time.
  destruct (wait_loop_bounded order_id (now w) timeout (passes timeout) s w)
    as (n & r & w' & Hn & E & Ht & Ho & Hc & Hb & Hr & Hz).
  exists n, r, w'.
  split; [exact Hn|]. split; [exact E|].
  split; [destruct w'; cbn in *; subst; reflexivity|].
  split; [exact Hc|]. split; [exact Hb|]. split; [exact Hr|].
  intro H. apply Hz. lra.
Qed.

(** ** Flattening *)

(** X20.  An emergency close order counts as a success as soon as the
    exchange accepts it: the order is a reduce-only limit order priced 0.5%
    through the market (below it for a sell, above it for a buy), and once
    an order object comes back the method returns true whatever the status
    polling sees afterwards (fill, rejection, cancellation or timeout).  It
    returns false, after the single order request, when the exchange returns
    nothing or raises.  No attribute changes. *)
Theorem _place_emergency_close_order_success_is_acceptance (side : string)
    (quantity price' : Q) (position_side : string)
    (p : ExtremeMarketProtection) (w : World) :
  let request :=
    ExPlaceOrder side
      (if String.eqb side "sell" then price' * (995 # 1000)
       else price' * (1005 # 1000))
      quantity true position_side "limit" in
  match reply_at w 0 with
  | ROrderResult id =>
      exists n w',
        (n <= passes (emergency_close_timeout (self_config p)))%nat
        /\ _place_emergency_close_order side quantity price' position_side p w
           = (Returned true, p, w')
        /\ trace w' = trace w ++ request :: repeat (GetOrderStatus id) n
        /\ oracle w' = oracle w
  | _ =>
      _place_emergency_close_order side quantity price' position_side p w
      = (Returned false, p, after_requests w [request])
  end.
Proof.
  unfold _place_emergency_close_order. cbv zeta.
  destruct (reply_at w 0) as [| | |id| | |] eqn:E;
    unfold try_except, bind at 1;
    try (rewrite call_returns by (rewrite E; discriminate);
         rewrite E; reflexivity);
    try (rewrite call_raises by exact E; reflexivity).
  rewrite call_returns by (rewrite E; discriminate). rewrite E.
  unfold bind at 1, get. unfold bind at 1.
  match goal with
  | |- context [_wait_for_order_fill id ?t p ?w1] =>
      destruct (_wait_for_order_fill_requests id t p w1)
        as (n & r & w' & Hn & Ew & Ht & Ho)
  end.
  exists n, w'. split; [exact Hn|].
  rewrite Ew. unfold ret.
  split; [reflexivity|].
  split.
  - rewrite Ht. cbn [trace after_requests]. rewrite <- app_assoc.
    reflexivity.
  - rewrite Ho. reflexivity.
Qed.

(** An accepted order that the exchange then reports as rejected. *)
Example _place_emergency_close_order_rejected_is_success :
  let w := {| oracle := fun n =>
                match n with
                | 0%nat => ROrderResult (Some "9"%string)
                | _ => RStatus (Some "rejected"%string)
                end;
              trace := []; now := 0 |} in
  match _place_emergency_close_order "sell" 50 2 "long"
          (Protection.init default_config) w with
  | (r, _, w') => (r, trace w')
  end
  = (Returned true,
     [ExPlaceOrder "sell" (2 * (995 # 1000)) 50 true "long" "limit";
      GetOrderStatus (Some "9"%string)]).
Proof. reflexivity. Qed.

Section EmergencyRequests.

Let O : (nat -> Reply) -> Prop := fun _ => True.
Let I : ExtremeMarketProtection -> Prop := fun _ => True.
Let P : Call -> Prop := emergency_request.

Lemma hoare_gather (tasks : list (M ExtremeMarketProtection bool)) :
  Forall (hoare O I P) tasks -> hoare O I P (gather tasks).
Proof.
  induction tasks as [|task rest IH]; intro H.
  - cbn [gather]. apply hoare_ret.
  - inversion H as [|? ? Ht Hr]; subst.
    intros s w Ho Hs. cbn [gather].
    specialize (Ht s w Ho Hs).
    destruct (task s w) as [[r s1] w1].
    destruct Ht as (Hs1 & Ho1 & n1 & Ht1 & Hp1).
    specialize (IH Hr s1 w1 Logic.I Hs1).
    destruct (gather rest s1 w1) as [[rs s2] w2].
    destruct IH as (Hs2 & Ho2 & n2 & Ht2 & Hp2).
    assert (G : I s2 /\ oracle w2 = oracle w
                /\ exists new, trace w2 = trace w ++ new /\ Forall P new).
    { split; [exact Hs2|]. split; [congruence|].
      exists (n1 ++ n2). split.
      - rewrite Ht2, Ht1, app_assoc. reflexivity.
      - apply Forall_app. split; assumption. }
    destruct rs; exact G.
Qed.

Ltac hoare_auto := repeat (hoare_step; try exact Logic.I).

Lemma hoare__cancel_all_orders : hoare O I P _cancel_all_orders.
Proof.
  unfold _cancel_all_orders.
  hoare_step; [|hoare_step].
  hoare_step; [hoare_step; exact Logic.I|].
  destruct a as [orders| | | | | |]; cbv iota; try solve [hoare_step].
  destruct orders as [|order rest]; [hoare_step|].
  hoare_step; [|hoare_step].
  apply hoare_gather. apply Forall_forall. intros task Hin.
  apply in_map_iff in Hin. destruct Hin as (o & <- & _).
  unfold _cancel_single_order. hoare_auto.
Qed.

Lemma hoare_wait_loop (order_id : option string) (start_time timeout : Q)
    (fuel : nat) :
  hoare O I P (wait_loop fuel order_id start_time timeout).
Proof.
  induction fuel as [|fuel IH]; cbn [wait_loop]; [hoare_step|].
  hoare_auto. exact IH.
Qed.

Lemma hoare__place_emergency_close_order (side : string)
    (quantity price' : Q) (position_side : string) :
  0 < quantity ->
  (side = "sell"%string /\ position_side = "long"%string)
  \/ (side = "buy"%string /\ position_side = "short"%string) ->
  hoare O I P
    (_place_emergency_close_order side quantity price' position_side).
Proof.
  intros Hq Hside. unfold _place_emergency_close_order. cbv zeta.
  hoare_step; [|hoare_step].
  hoare_step.
  - hoare_step. cbn. repeat split; assumption.
  - destruct a as [| | |id| | |]; cbv iota; try solve [hoare_step].
    hoare_step. hoare_step; [|hoare_step].
    unfold _wait_for_order_fill.
    hoare_step; [hoare_step|]. apply hoare_wait_loop.
Qed.

Lemma hoare__emergency_close_all_positions (current_price : Q) :
  hoare O I P (_emergency_close_all_positions current_price).
Proof.
  unfold _emergency_close_all_positions.
  hoare_step; [|hoare_step].
  hoare_step; [hoare_step; exact Logic.I|].
  destruct a as [| |long short| | | |]; cbv iota; try solve [hoare_step].
  cbv zeta.
  assert (Tasks :
    Forall (hoare O I P)
      (if Qltb 0 (dict_get short)
       then (if Qltb 0 (dict_get long)
             then [_place_emergency_close_order "sell" (dict_get long)
                     current_price "long"]
             else []) ++
            [_place_emergency_close_order "buy" (dict_get short)
               current_price "short"]
       else if Qltb 0 (dict_get long)
            then [_place_emergency_close_order "sell" (dict_get long)
                    current_price "long"]
            else [])).
  { destruct (Qltb 0 (dict_get short)) eqn:Es;
      destruct (Qltb 0 (dict_get long)) eqn:El;
      cbn [app];
      repeat constructor;
      apply hoare__place_emergency_close_order;
      try (apply Qltb_lt; assumption);
      try (left; split; reflexivity);
      try (right; split; reflexivity). }
  match goal with
  | |- hoare _ _ _ (match ?l with [] => _ | _ => _ end) =>
      set (tasks := l) in *
  end.
  destruct tasks as [|task rest] eqn:Et; [hoare_step|].
  hoare_step; [|hoare_step].
  apply hoare_gather. exact Tasks.
Qed.

Lemma hoare__save_state : hoare O I P _save_state.
Proof. unfold _save_state. hoare_auto. Qed.

Lemma hoare__trigger_emergency_protection (ms : MarketState) :
  hoare O I P (_trigger_emergency_protection ms).
Proof.
  unfold _trigger_emergency_protection.
  hoare_step; [|hoare_step].
  hoare_step; [apply hoare__cancel_all_orders|].
  hoare_step; [apply hoare__emergency_close_all_positions|].
  hoare_step; [|hoare_step].
  hoare_step; [hoare_step; intros; exact Logic.I|].
  hoare_step; [hoare_step|].
  hoare_step; [hoare_step; intros; exact Logic.I|].
  hoare_step; [apply hoare__save_state|hoare_step].
Qed.

End EmergencyRequests.

(** X21.  The emergency sequence never adds exposure: for every state and
    every behaviour of the exchange, the requests made by
    [_trigger_emergency_protection] are listing and cancelling open orders,
    reading the positions, polling orders, writing the state file, and
    reduce-only limit orders of a positive quantity that sell the long side
    or buy the short side; no entry order is ever placed. *)
Theorem emergency_sequence_only_reduces (ms : MarketState)
    (p : ExtremeMarketProtection) (w : World) :
  exists new,
    trace (snd (_trigger_emergency_protection ms p w)) = trace w ++ new
    /\ Forall emergency_request new.
Proof.
  apply (hoare_requests (fun _ => True)).
  - apply hoare__trigger_emergency_protection.
  - exact Logic.I.
Qed.


(** * Further properties: the state file *)

Import StateFile.

Lemma _load_state_written (p q : ExtremeMarketProtection)
    (last_update : Q) (w : World) :
  _load_state (Json (json_dump (saved_state p last_update))) q w
  = (Returned tt,
     set_consecutive_trend_start_price (consecutive_trend_start_price p)
       (match consecutive_trend_start_time p with
        | Some t => set_consecutive_trend_start_time (Some t)
        | None => fun x => x
        end
          (set_cumulative_change_percent (cumulative_change_percent p)
             (set_consecutive_kline_count (consecutive_kline_count p)
                (set_consecutive_trend_direction
                   (consecutive_trend_direction p)
                   (set_baseline_atr (baseline_atr p)
                      (match hibernation_start_time p with
                       | Some t => set_hibernation_start_time (Some t)
                       | None => fun x => x
                       end (set_protection_active (protection_active p)
                              q))))))),
     w).
Proof.
  unfold _load_state, try_except, bind, modify, ret, json_dump, saved_state,
    isoformat, fromisoformat, get_or.
  cbn.
  destruct (hibernation_start_time p) as [h|];
    destruct (consecutive_trend_start_time p) as [s|]; reflexivity.
Qed.

(** X22.  Saving and loading round-trip: a machine constructed over the
    file that [_save_state] wrote for a state [p] holds the same protection
    flag, hibernation start, baseline ATR and consecutive-run state as [p]
    (what it would save is what [p] would save).  What is not in the file
    is lost: the new machine starts with empty bar, price and ATR
    histories and a neutral real-time trend. *)
Theorem construct_restores_saved_state (c : ProtectionConfig)
    (p : ExtremeMarketProtection) (last_update : Q) :
  let p' := construct c (Json (json_dump (saved_state p last_update))) in
  (forall t, saved_state p' t = saved_state p t)
  /\ self_config p' = c
  /\ kline_buffer p' = []
  /\ price_buffer p' = []
  /\ last_atr_values p' = []
  /\ current_trend_direction p' = neutral
  /\ current_trend_start_price p' = None.
Proof.
  cbv zeta. unfold construct. rewrite _load_state_written. cbn [fst snd].
  destruct (hibernation_start_time p) as [h|] eqn:Eh;
    destruct (consecutive_trend_start_time p) as [s|] eqn:Es;
    (split; [intro t; unfold saved_state; cbn; rewrite ?Eh, ?Es; reflexivity|]);
    repeat split; reflexivity.
Qed.

(** A loaded state is active without a hibernation start when the file says
    so, or when its hibernation timestamp cannot be parsed. *)
Lemma _load_state_active_without_start (state : JsonState)
    (q : ExtremeMarketProtection) (w : World) :
  js_protection_active state = Some true ->
  (forall t, js_hibernation_start_time state <> Iso t) ->
  hibernation_start_time q = None ->
  let p' := snd (fst (_load_state (Json state) q w)) in
  protection_active p' = true /\ hibernation_start_time p' = None.
Proof.
  intros Ha Hh Hq. cbv zeta.
  unfold _load_state, try_except, bind, modify, ret, fromisoformat, get_or,
    raise.
  rewrite Ha.
  destruct (js_hibernation_start_time state) as [| |t] eqn:Eh.
  - destruct (js_consecutive_trend_start_time state); cbn;
      split; try reflexivity; exact Hq.
  - cbn. split; [reflexivity|exact Hq].
  - exfalso. apply (Hh t). reflexivity.
Qed.

(** X23.  A state file that marks the protection active but carries no
    usable hibernation timestamp (missing, null, or not an ISO string)
    leaves the constructed machine active with no hibernation start; such a
    machine never ends hibernation: [check_extreme_protection] returns
    false and changes nothing for every market state, at every time. *)
Theorem active_file_without_start_never_recovers (c : ProtectionConfig)
    (state : JsonState) :
  js_protection_active state = Some true ->
  (forall t, js_hibernation_start_time state <> Iso t) ->
  let p' := construct c (Json state) in
  protection_active p' = true
  /\ hibernation_start_time p' = None
  /\ forall ms w, check_extreme_protection ms p' w = (Returned false, p', w).
Proof.
  intros Ha Hh. cbv zeta. unfold construct.
  destruct (_load_state_active_without_start state (Protection.init c)
              {| oracle := fun _ => RNone; trace := []; now := 0 |} Ha Hh
              eq_refl) as (Hact & Hnone).
  split; [exact Hact|]. split; [exact Hnone|].
  intros ms w.
  unfold check_extreme_protection, bind, get. rewrite Hact.
  unfold _check_hibernation_end, bind, get, ret. rewrite Hnone.
  reflexivity.
Qed.

(** A file with the flag set and a damaged timestamp. *)
Lemma active_file_without_start_never_recovers_witness :
  let state := {| js_protection_active := Some true;
                  js_hibernation_start_time := NotIso;
                  js_baseline_atr := Some (2 # 1000);
                  js_consecutive_trend_direction := Some down;
                  js_consecutive_kline_count := Some 4%Z;
                  js_cumulative_change_percent := Some 12;
                  js_consecutive_trend_start_time := Iso 0;
                  js_consecutive_trend_start_price := Some 3 |} in
  let p' := construct default_config (Json state) in
  protection_active p' = true
  /\ hibernation_start_time p' = None
  /\ forall ms w, check_extreme_protection ms p' w = (Returned false, p', w).
Proof.
  cbv zeta.
  apply active_file_without_start_never_recovers.
  - reflexivity.
  - intros t H. discriminate H.
Defined.

(** * Further properties: the real-time price mode *)

Import Realtime.

Lemma _calculate_atr_current_trend (period : nat)
    (p : ExtremeMarketProtection) :
  let p' := snd (_calculate_atr period p) in
  current_trend_direction p' = current_trend_direction p
  /\ current_trend_start_price p' = current_trend_start_price p
  /\ current_trend_start_time p' = current_trend_start_time p.
Proof.
  unfold _calculate_atr.
  destruct (_ <? _)%nat; [cbn; tauto|].
  destruct (true_ranges _ _); [cbn; tauto|].
  cbn [snd set_last_atr_values baseline_atr].
  destruct (baseline_atr p); [cbn; tauto|].
  cbn [last_atr_values].
  destruct (20 <=? _)%nat; cbn; tauto.
Qed.

(** The state in which [update_market_data] looks for a trend change. *)
Lemma update_market_data_run (price' : Q) (p : ExtremeMarketProtection)
    (w : World) :
  exists p2 atr,
    self_config p2 = self_config p
    /\ protection_active p2 = protection_active p
    /\ current_trend_direction p2 = current_trend_direction p
    /\ current_trend_start_price p2 = current_trend_start_price p
    /\ current_trend_start_time p2 = current_trend_start_time p
    /\ update_market_data price' p w
       = match _detect_trend_change price' (now w) p2 w with
         | (Returned _, p3, w3) =>
             (Returned
                {| ms_timestamp := now w;
                   price := price';
                   trend_start_price :=
                     match current_trend_start_price p3 with
                     | Some x => if truthy x then x else price'
                     | None => price'
                     end;
                   trend_start_time :=
                     match current_trend_start_time p3 with
                     | Some t => t | None => now w end;
                   trend_direction := current_trend_direction p3;
                   trend_magnitude := current_trend_magnitude price' p3;
                   consecutive_klines := 0%Z;
                   atr_value := atr;
                   is_extreme :=
                     Qleb (extreme_threshold (self_config p3))
                       (Qabs (current_trend_magnitude price' p3));
                   protection_triggered := protection_active p3 |},
              p3, w3)
         | (Raised, p3, w3) => (Raised, p3, w3)
         end.
Proof.
  set (p1 := set_price_buffer
               (append_capped max_buffer_size (price_buffer p)
                  (now w, price')) p).
  exists (snd (_calculate_atr 14 p1)), (fst (_calculate_atr 14 p1)).
  destruct (_calculate_atr_frame 14 p1) as (Fc & _ & _ & _ & _ & _ & Fa & _).
  destruct (_calculate_atr_current_trend 14 p1) as (Fd & Fs & Ft).
  rewrite Fc, Fa, Fd, Fs, Ft.
  repeat (split; [reflexivity|]).
  unfold update_market_data, bind at 1, time_time.
  unfold bind at 1, modify at 1. fold p1.
  unfold bind at 1, get at 1.
  destruct (_calculate_atr 14 p1) as [atr p2] eqn:E. cbn [fst snd].
  unfold bind at 1, modify at 1.
  unfold bind at 1.
  destruct (_detect_trend_change price' (now w) p2 w) as [[[u|] p3] w3];
    [|reflexivity].
  unfold bind, get, ret. reflexivity.
Qed.

(** [_detect_trend_change] either leaves the state alone or starts a trend
    in a new, non-neutral direction at the current price and time. *)
Lemma _detect_trend_change_run (current_price current_time : Q)
    (p : ExtremeMarketProtection) (w : World) :
  exists r p',
    _detect_trend_change current_price current_time p w = (r, p', w)
    /\ (p' = p
        \/ exists d,
             d <> neutral /\ d <> current_trend_direction p
             /\ r = Returned tt
             /\ p' = set_current_trend_start_time (Some current_time)
                       (set_current_trend_start_price (Some current_price)
                          (set_current_trend_direction d p))).
Proof.
  unfold _detect_trend_change, bind at 1, get at 1. cbv zeta.
  destruct (_ <? _)%Z; [eexists; eexists; split; [reflexivity|left; reflexivity]|].
  destruct (map snd _) as [|first rest];
    [eexists; eexists; split; [reflexivity|left; reflexivity]|].
  set (d := window_direction _ current_price).
  destruct (negb (Direction_eqb d (current_trend_direction p))
            && negb (Direction_eqb d neutral)) eqn:E;
    [|eexists; eexists; split; [reflexivity|left; reflexivity]].
  apply andb_true_iff in E. destruct E as [E1 E2].
  eexists. eexists. split; [reflexivity|].
  right. exists d.
  split; [intro H; rewrite H in E2; discriminate E2|].
  split; [intro H; rewrite H in E1;
          destruct (current_trend_direction p); discriminate E1|].
  split; reflexivity.
Qed.

(** X24.  In the real-time mode a trend, once detected, never goes back to
    neutral: [update_market_data] changes the trend direction only to the
    opposite, non-neutral direction, and then restarts the trend at the
    current price and time; otherwise direction, start price and start time
    stay as they were.  It makes no request. *)
Theorem update_market_data_trend_never_neutral (price' : Q)
    (p : ExtremeMarketProtection) (w : World) :
  let p' := snd (fst (update_market_data price' p w)) in
  (current_trend_direction p <> neutral ->
   current_trend_direction p' <> neutral)
  /\ (current_trend_direction p' <> current_trend_direction p ->
      current_trend_direction p' <> neutral
      /\ current_trend_start_price p' = Some price'
      /\ current_trend_start_time p' = Some (now w))
  /\ (current_trend_direction p' = current_trend_direction p ->
      current_trend_start_price p' = current_trend_start_price p
      /\ current_trend_start_time p' = current_trend_start_time p)
  /\ snd (update_market_data price' p w) = w.
Proof.
  cbv zeta.
  destruct (update_market_data_run price' p w)
    as (p2 & atr & _ & _ & Hd & Hs & Ht & E).
  rewrite E. clear E.
  destruct (_detect_trend_change_run price' (now w) p2 w)
    as (r & p3 & E & Hcase).
  rewrite E.
  assert (G :
    (current_trend_direction p <> neutral ->
     current_trend_direction p3 <> neutral)
    /\ (current_trend_direction p3 <> current_trend_direction p ->
        current_trend_direction p3 <> neutral
        /\ current_trend_start_price p3 = Some price'
        /\ current_trend_start_time p3 = Some (now w))
    /\ (current_trend_direction p3 = current_trend_direction p ->
        current_trend_start_price p3 = current_trend_start_price p
        /\ current_trend_start_time p3 = current_trend_start_time p)).
  { destruct Hcase as [->|(d & Hn & Hne & _ & ->)].
    - rewrite Hd, Hs, Ht. split; [tauto|].
      split; [intro H; exfalso; apply H; reflexivity|].
      intros _. split; reflexivity.
    - cbn. rewrite Hd in Hne.
      split; [intros _; exact Hn|].
      split; [intros _; repeat split; [exact Hn]|].
      intro H. exfalso. apply Hne. exact H. }
  destruct r as [u|]; cbn [fst snd]; tauto.
Qed.

(** The manual reset clears the flag, the hibernation start and the
    real-time trend, keeps the consecutive run and the baseline, and writes
    the state file. *)
Lemma force_reset_protection_run (p : ExtremeMarketProtection) (w : World) :
  let p' := set_current_trend_start_time None
              (set_current_trend_start_price None
                 (set_current_trend_direction neutral
                    (set_hibernation_start_time None
                       (set_protection_active false p)))) in
  force_reset_protection p w
  = (Returned tt, p',
     after_requests w [SaveState (saved_state p' (now w))]).
Proof.
  cbv zeta. unfold force_reset_protection, bind, modify.
  rewrite _save_state_run. reflexivity.
Qed.

Lemma Qleb_zero_magnitude (threshold magnitude : Q) :
  0 < threshold -> magnitude == 0 -> Qleb threshold (Qabs magnitude) = false.
Proof.
  intros Ht Hm. apply Qleb_gt. rewrite Hm. exact Ht.
Qed.

(** X25.  A market state built from a price tick carries no bar count, so
    for it the trend-duration guard of [check_extreme_protection] decides:
    on an inactive machine an extreme state whose trend is younger than
    [min_trend_duration] minutes changes nothing and makes no request, and
    an older one starts the emergency sequence.  The tick that starts or
    flips a trend is never extreme (with a positive threshold), since the
    move is measured from that very price. *)
Theorem realtime_state_waits_for_trend_duration (price' : Q)
    (p : ExtremeMarketProtection) (w : World) :
  protection_active p = false ->
  0 < extreme_threshold (self_config p) ->
  match update_market_data price' p w with
  | (Returned ms, p', w') =>
      consecutive_klines ms = 0%Z
      /\ (current_trend_direction p' <> current_trend_direction p ->
          is_extreme ms = false)
      /\ ((ms_timestamp ms - trend_start_time ms) / 60
          < min_trend_duration (self_config p') ->
          check_extreme_protection ms p' w' = (Returned false, p', w'))
      /\ (is_extreme ms = true ->
          min_trend_duration (self_config p')
          <= (ms_timestamp ms - trend_start_time ms) / 60 ->
          check_extreme_protection ms p' w'
          = _trigger_emergency_protection ms p' w')
  | (Raised, _, _) => True
  end.
Proof.
  intros Hinactive Hthr.
  destruct (update_market_data_run price' p w)
    as (p2 & atr & Hc & Ha & Hd & Hs & Ht & E).
  rewrite E. clear E.
  destruct (_detect_trend_change_run price' (now w) p2 w)
    as (r & p3 & E & Hcase).
  rewrite E.
  destruct r as [u|]; [|exact Logic.I].
  assert (Hc3 : self_config p3 = self_config p
                /\ protection_active p3 = false).
  { destruct Hcase as [->|(d & _ & _ & _ & ->)]; cbn;
      rewrite Hc, Ha; split; (reflexivity || exact Hinactive). }
  destruct Hc3 as (Hc3 & Ha3).
  split; [reflexivity|].
  split.
  - intro Hflip. cbn [is_extreme].
    destruct Hcase as [->|(d & Hn & Hne & _ & ->)].
    + exfalso. apply Hflip. exact Hd.
    + apply Qleb_zero_magnitude.
      * cbn. rewrite Hc. exact Hthr.
      * unfold current_trend_magnitude.
        cbn [current_trend_start_price current_trend_direction
             set_current_trend_start_time set_current_trend_start_price
             set_current_trend_direction].
        destruct (truthy price' && negb (Direction_eqb d neutral));
          [|reflexivity].
        destruct (Direction_eqb d down).
        -- assert (Hz : (price' - price') / price' * 100 == 0)
             by (unfold Qdiv; ring).
           transitivity (Qabs 0); [apply Qabs_wd; exact Hz|reflexivity].
        -- unfold Qdiv. ring.
  - unfold check_extreme_protection, bind, get, ret.
    rewrite Ha3. cbn [negb consecutive_klines Z.ltb Z.compare].
    split.
    + intro Hyoung. apply Qleb_gt in Hyoung.
      cbn [ms_timestamp trend_start_time] in *.
      rewrite Hyoung.
      destruct (is_extreme _ && true); reflexivity.
    + intros Hext Hold. rewrite Hext. cbn [andb].
      apply Qleb_le in Hold.
      cbn [ms_timestamp trend_start_time] in *.
      rewrite Hold. reflexivity.
Qed.

(** Twenty ticks at 100 have been seen; the next tick is 105. *)
Lemma realtime_state_waits_for_trend_duration_witness :
  let p := set_price_buffer (repeat (0, 100) 20)
             (Protection.init default_config) in
  let w := {| oracle := fun _ => RNone; trace := []; now := 60 |} in
  match update_market_data 105 p w with
  | (Returned ms, p', w') =>
      consecutive_klines ms = 0%Z
      /\ (current_trend_direction p' <> current_trend_direction p ->
          is_extreme ms = false)
      /\ ((ms_timestamp ms - trend_start_time ms) / 60
          < min_trend_duration (self_config p') ->
          check_extreme_protection ms p' w' = (Returned false, p', w'))
      /\ (is_extreme ms = true ->
          min_trend_duration (self_config p')
          <= (ms_timestamp ms - trend_start_time ms) / 60 ->
          check_extreme_protection ms p' w'
          = _trigger_emergency_protection ms p' w')
  | (Raised, _, _) => True
  end.
Proof.
  cbv zeta.
  apply (realtime_state_waits_for_trend_duration 105
           (set_price_buffer (repeat (0, 100) 20)
              (Protection.init default_config))
           {| oracle := fun _ => RNone; trace := []; now := 60 |}).
  - reflexivity.
  - reflexivity.
Defined.

(** The tick of the witness above starts an up trend at 105. *)
Example update_market_data_starts_trend :
  let p := set_price_buffer (repeat (0, 100) 20)
             (Protection.init default_config) in
  let w := {| oracle := fun _ => RNone; trace := []; now := 60 |} in
  match update_market_data 105 p w with
  | (Returned ms, p', _) =>
      (trend_direction ms, current_trend_start_price p', is_extreme ms)
      = (up, Some 105, false)
  | _ => False
  end.
Proof. vm_compute. reflexivity. Qed.

(** * Further properties: the price cache of the exchange interface *)

Import PriceCache.

Lemma _validate_price_within_band (e : ExchangeInterface) (last price' : Q) :
  last_valid_price e = Some last ->
  0 < last ->
  (_validate_price (Some price') e = true <-> within_band last price').
Proof.
  intros Hl Hpos. unfold _validate_price, within_band. rewrite Hl.
  assert (Htruthy : truthy last = true).
  { unfold truthy. destruct (Qeq_bool last 0) eqn:E; [|reflexivity].
    apply Qeq_bool_iff in E. lra. }
  rewrite Htruthy.
  set (x := Qabs (price' - last)).
  assert (Hx : x / last * last == x) by (field; lra).
  destruct (Qleb price' 0) eqn:E0.
  - apply Qleb_le in E0. split; [discriminate|]. intros [H _]. lra.
  - apply Qleb_gt in E0.
    destruct (Qltb (1 # 10) (x / last)) eqn:E1.
    + apply Qltb_lt in E1. split; [discriminate|]. intros [_ H].
      exfalso. nra.
    + apply Qltb_ge in E1. split; [|reflexivity]. intros _.
      split; [exact E0|]. nra.
Qed.

Lemma _validate_price_positive (e : ExchangeInterface) (price' : Q) :
  _validate_price (Some price') e = true -> 0 < price'.
Proof.
  unfold _validate_price.
  destruct (Qleb price' 0) eqn:E0; [discriminate|].
  intros _. apply Qleb_gt. exact E0.
Qed.

(** One price from the stream: it is taken over by both price attributes,
    or nothing changes. *)
Lemma update_websocket_price_run (price' : Q) (e : ExchangeInterface)
    (w : World) :
  update_websocket_price (Some price') e w
  = if _validate_price (Some price') e then
      (Returned tt,
       {| websocket_price := Some price'; last_valid_price := Some price';
          last_price_update_time := now w |}, w)
    else (Returned tt, e, w).
Proof.
  unfold update_websocket_price, bind at 1, get at 1.
  destruct (_validate_price (Some price') e) eqn:E; [|reflexivity].
  unfold bind at 1, modify at 1.
  unfold update_price_cache, bind at 1, get at 1.
  assert (E' : _validate_price (Some price')
                 (set_websocket_price (Some price') e) = true) by exact E.
  rewrite E'. reflexivity.
Qed.

(** X26.  The price cache fed by the ticker stream stays coherent: after
    any sequence of mid prices handed to [update_websocket_price], the
    WebSocket price and the last valid price are the same, and a cached
    price is positive.  Feeding the cache makes no request. *)
Theorem stream_keeps_prices_coherent (prices : list Q) (w : World) :
  let e' := snd (fst (stream prices PriceCache.init w)) in
  websocket_price e' = last_valid_price e'
  /\ (forall v, last_valid_price e' = Some v -> 0 < v)
  /\ snd (stream prices PriceCache.init w) = w.
Proof.
  cbv zeta.
  assert (G : forall e,
            websocket_price e = last_valid_price e ->
            (forall v, last_valid_price e = Some v -> 0 < v) ->
            websocket_price (snd (fst (stream prices e w)))
            = last_valid_price (snd (fst (stream prices e w)))
            /\ (forall v,
                  last_valid_price (snd (fst (stream prices e w))) = Some v ->
                  0 < v)
            /\ snd (stream prices e w) = w).
  { induction prices as [|price' rest IH]; intros e Hc Hp.
    - cbn. repeat split; assumption.
    - cbn [stream]. unfold bind. rewrite update_websocket_price_run.
      destruct (_validate_price (Some price') e) eqn:E.
      + apply IH; [reflexivity|].
        cbn. intros v Hv. inversion Hv; subst.
        apply (_validate_price_positive e). exact E.
      + apply IH; assumption. }
  apply G; [reflexivity|]. cbn. discriminate.
Qed.

(** X27.  The cached price moves by at most 10% at a time and cannot
    follow a larger jump: with a positive cached price, a streamed price is
    taken over exactly when it is positive and within 10% of the cached
    one, and as long as every streamed price lies outside that band the
    cache stays where it is, however long the stream. *)
Theorem price_cache_cannot_follow_a_jump (e : ExchangeInterface) (last : Q)
    (prices : list Q) (w : World) :
  last_valid_price e = Some last ->
  0 < last ->
  (forall price',
     (within_band last price' ->
      last_valid_price
        (snd (fst (update_websocket_price (Some price') e w)))
      = Some price')
     /\ (~ within_band last price' ->
         update_websocket_price (Some price') e w = (Returned tt, e, w)))
  /\ (Forall (fun price' => ~ within_band last price') prices ->
      stream prices e w = (Returned tt, e, w)).
Proof.
  intros Hl Hpos.
  assert (Step : forall price',
            ~ within_band last price' ->
            update_websocket_price (Some price') e w = (Returned tt, e, w)).
  { intros price' Hout. rewrite update_websocket_price_run.
    destruct (_validate_price (Some price') e) eqn:E; [|reflexivity].
    exfalso. apply Hout.
    apply (_validate_price_within_band e last price' Hl Hpos). exact E. }
  split.
  - intro price'. split; [|apply Step].
    intro Hin. rewrite update_websocket_price_run.
    apply (_validate_price_within_band e last price' Hl Hpos) in Hin.
    rewrite Hin. reflexivity.
  - intro Hall. induction Hall as [|price' rest Hout _ IH]; [reflexivity|].
    cbn [stream]. unfold bind. rewrite (Step price' Hout). exact IH.
Qed.

(** The cache holds 2.00; the market has moved to 2.30 and stays there. *)
Lemma price_cache_cannot_follow_a_jump_witness :
  let e := {| websocket_price := Some 2; last_valid_price := Some 2;
              last_price_update_time := 0 |} in
  let w := {| oracle := fun _ => RNone; trace := []; now := 10 |} in
  let prices := [23 # 10; 231 # 100; 229 # 100] in
  (forall price',
     (within_band 2 price' ->
      last_valid_price
        (snd (fst (update_websocket_price (Some price') e w)))
      = Some price')
     /\ (~ within_band 2 price' ->
         update_websocket_price (Some price') e w = (Returned tt, e, w)))
  /\ (Forall (fun price' => ~ within_band 2 price') prices ->
      stream prices e w = (Returned tt, e, w)).
Proof.
  cbv zeta.
  apply price_cache_cannot_follow_a_jump.
  - reflexivity.
  - reflexivity.
Defined.

(** The stream of the witness indeed leaves the cache at 2.00. *)
Example price_cache_stays_behind :
  let e := {| websocket_price := Some 2; last_valid_price := Some 2;
              last_price_update_time := 0 |} in
  let w := {| oracle := fun _ => RNone; trace := []; now := 10 |} in
  stream [23 # 10; 231 # 100; 229 # 100] e w = (Returned tt, e, w).
Proof. reflexivity. Qed.

(** * Further properties: the signal-driven grid adjustment *)

Import SignalAdjustment.

Lemma kline_of_candle_run {S} (candle : list Q) (s : S) (w : World) :
  exists r,
    kline_of_candle candle s w = (r, s, w)
    /\ match r with
       | Returned kline => name_keyed kline
       | Raised => (List.length candle < 6)%nat
       end.
Proof.
  unfold kline_of_candle, index, bind, ret, raise.
  destruct candle as [|c0 [|c1 [|c2 [|c3 [|c4 [|c5 rest]]]]]];
    cbn [nth_error];
    try (exists Raised; split; [reflexivity|cbn; lia]).
  eexists. split; [reflexivity|]. intro i. reflexivity.
Qed.

Lemma for_each_kline_of_candle {S} (candles : list (list Q)) (s : S)
    (w : World) :
  exists r,
    for_each kline_of_candle candles s w = (r, s, w)
    /\ match r with
       | Returned klines =>
           List.length klines = List.length candles
           /\ Forall name_keyed klines
       | Raised => Exists (fun candle => (List.length candle < 6)%nat) candles
       end.
Proof.
  induction candles as [|candle rest IH].
  - exists (Returned []). split; [reflexivity|]. split; [reflexivity|constructor].
  - cbn [for_each]. unfold bind at 1.
    destruct (kline_of_candle_run candle s w) as ([kline|] & E & H);
      rewrite E.
    + unfold bind at 1. destruct IH as ([klines|] & E' & H'); rewrite E'.
      * exists (Returned (kline :: klines)). split; [reflexivity|].
        destruct H' as [Hlen Hall]. split; [cbn; congruence|].
        constructor; assumption.
      * exists Raised. split; [reflexivity|]. apply Exists_cons_tl, H'.
    + exists Raised. split; [reflexivity|]. apply Exists_cons_hd, H.
Qed.

(** [get_klines] returns, with the state as it was: the empty list after
    any failure, otherwise one name-keyed dictionary per candle. *)
Lemma get_klines_run {S} (ohlcv : Outcome (list (list Q))) (s : S)
    (w : World) :
  exists klines,
    get_klines ohlcv s w = (Returned klines, s, w)
    /\ Forall name_keyed klines
    /\ match ohlcv with
       | Returned candles =>
           (Forall (fun candle => (6 <= List.length candle)%nat) candles ->
            List.length klines = List.length candles)
       | Raised => klines = []
       end.
Proof.
  unfold get_klines, try_except. destruct ohlcv as [candles|].
  - unfold bind at 1, ret at 1.
    destruct (for_each_kline_of_candle candles s w) as ([klines|] & E & H);
      rewrite E.
    + exists klines. split; [reflexivity|]. destruct H as [Hlen Hall].
      split; [exact Hall|]. intros _. exact Hlen.
    + exists []. split; [reflexivity|]. split; [constructor|].
      intro Hall. exfalso. apply Exists_exists in H.
      destruct H as (candle & Hin & Hlt).
      rewrite Forall_forall in Hall. specialize (Hall candle Hin). lia.
  - exists []. split; [reflexivity|]. split; [constructor|reflexivity].
Qed.

(** Reading a name-keyed kline by position raises. *)
Lemma row_of_kline_raises {S} (kline : Dict) (s : S) (w : World) :
  name_keyed kline -> row_of_kline kline s w = (Raised, s, w).
Proof.
  intro H. unfold row_of_kline, bind at 1, getitem at 1.
  rewrite (H 0%Z). reflexivity.
Qed.

(** X28.  The hourly signal check never changes anything: whatever the
    exchange answers to the kline request and whatever
    [calculate_signals] would compute, [update_signal_and_adjust_grid]
    returns with the signal module and the grid core, its four spacings
    included, exactly as they were.  [get_klines] returns an empty list
    after any failure, which ends the method, and otherwise dictionaries
    keyed by name; with 200 klines or more the method reads the first one
    by position ([kline[0]]), which raises, and its [except] clause only
    logs.  So no signal is stored and no recommendation is applied. *)
Theorem update_signal_and_adjust_grid_never_adjusts
    (calculate_signals : M SignalModule Z) (ohlcv : Outcome (list (list Q)))
    (self : SignalModule * GridCore) (w : World) :
  update_signal_and_adjust_grid calculate_signals ohlcv self w
  = (Returned tt, self, w)
  /\ (forall candles,
        ohlcv = Returned candles ->
        Forall (fun candle => (6 <= List.length candle)%nat) candles ->
        exists klines,
          get_klines ohlcv self w = (Returned klines, self, w)
          /\ List.length klines = List.length candles
          /\ forall kline, In kline klines ->
               row_of_kline kline self w = (Raised, self, w)).
Proof.
  destruct (get_klines_run ohlcv self w) as (klines & E & Hall & Hlen).
  split.
  - unfold update_signal_and_adjust_grid, try_except, bind at 1.
    rewrite E.
    destruct klines as [|kline rest]; [reflexivity|].
    cbn [orb]. destruct (_ <? _)%nat; [reflexivity|].
    cbn [for_each]. unfold bind at 1. unfold bind at 1.
    rewrite row_of_kline_raises by (inversion Hall; assumption).
    reflexivity.
  - intros candles -> Hwf. exists klines. split; [exact E|].
    split; [exact (Hlen Hwf)|].
    intros kline Hin. apply row_of_kline_raises.
    rewrite Forall_forall in Hall. exact (Hall kline Hin).
Qed.

(** 200 well-formed candles: the klines are built, the conversion of the
    first one raises, and a module that would report a strong up-trend is
    never asked. *)
Example update_signal_and_adjust_grid_runs :
  let candles := repeat [1700000000000; 2; 2; 2; 2; 10] 200 in
  let m := {| current_signal := 0; signal_start_time := None;
              data_buffer := [] |} in
  let w := {| oracle := fun _ => RNone; trace := []; now := 100 |} in
  List.length (match @get_klines unit (Returned candles) tt w with
               | (Returned klines, _, _) => klines
               | _ => []
               end) = 200%nat
  /\ update_signal_and_adjust_grid (ret 1%Z) (Returned candles)
       (m, GridCore.init) w
     = (Returned tt, (m, GridCore.init), w).
Proof. cbv zeta. split; vm_compute; reflexivity. Qed.

(** * Further properties of the bot's bookkeeping *)

Import Snapshot.

Lemma get_position_run {S} (cfg : Config) (s : S) (w : World) :
  get_position cfg s w
  = (Returned (reported_positions cfg (reply_at w 0)), s,
     after_requests w [FetchPositions]).
Proof.
  unfold get_position, try_except, bind, call, ret, raise, reply_at,
    after_requests, reported_positions.
  rewrite Nat.add_0_r. destruct (oracle w _); reflexivity.
Qed.

Lemma reconcile_position_run (cfg : Config) (b : GridTradingBot) (w : World) :
  let snapshot := reported_positions cfg (reply_at w 0) in
  reconcile_position cfg b w
  = (Returned tt,
     set_grid_core
       (set_short_position (snd snapshot)
          (set_long_position (fst snapshot) (grid_core b))) b,
     after_requests w [FetchPositions]).
Proof.
  cbv zeta. unfold reconcile_position, bind at 1.
  rewrite get_position_run.
  destruct (reported_positions cfg (reply_at w 0)) as [long short].
  reflexivity.
Qed.

(** X29.  A position request that fails reads as a flat account: when the
    exchange raises or returns anything but a position list,
    [get_position] yields (0, 0) and the reconciliation overwrites both
    positions of the grid core with 0, whatever they were; nothing else
    changes and no exception reaches the caller. *)
Theorem failed_position_request_reads_as_flat (cfg : Config)
    (b : GridTradingBot) (w : World) :
  (forall positions, reply_at w 0 <> RPositions positions) ->
  exists b',
    reconcile_position cfg b w
    = (Returned tt, b', after_requests w [FetchPositions])
    /\ long_position (grid_core b') = 0
    /\ short_position (grid_core b') = 0
    /\ grid_core b'
       = set_short_position 0 (set_long_position 0 (grid_core b))
    /\ is_sleeping b' = is_sleeping b
    /\ sleep_start_time b' = sleep_start_time b.
Proof.
  intro Hfail. rewrite reconcile_position_run. cbv zeta.
  assert (E : reported_positions cfg (reply_at w 0) = (0, 0)).
  { unfold reported_positions.
    destruct (reply_at w 0) as [|positions| | | | |]; try reflexivity.
    exfalso. apply (Hfail positions). reflexivity. }
  rewrite E. eexists. split; [reflexivity|].
  repeat split; reflexivity.
Qed.

(** A bot holding 120 long and 80 short whose position request times out. *)
Lemma failed_position_request_reads_as_flat_witness :
  let b := set_grid_core
             (set_short_position 80
                (set_long_position 120 GridCore.init)) Bot.init in
  let w := {| oracle := fun _ => RRaise; trace := []; now := 0 |} in
  exists b',
    reconcile_position config b w
    = (Returned tt, b', after_requests w [FetchPositions])
    /\ long_position (grid_core b') = 0
    /\ short_position (grid_core b') = 0
    /\ grid_core b'
       = set_short_position 0 (set_long_position 0 (grid_core b))
    /\ is_sleeping b' = is_sleeping b
    /\ sleep_start_time b' = sleep_start_time b.
Proof.
  cbv zeta.
  apply failed_position_request_reads_as_flat.
  intros positions H. discriminate H.
Defined.

(** X30.  After a FILLED order update for the traded symbol, answered by
    the exchange, the bot's books are the exchange's snapshot: the four
    pending-order counters are the totals of the open-order list and both
    positions are the reported positions, whatever the side, position side
    and filled quantity of the update were and whatever the books held
    before.  The handler makes exactly the two requests, in this order. *)
Theorem filled_update_ends_with_exchange_snapshot (cfg : Config)
    (u : OrderUpdate) (b : GridTradingBot) (w : World)
    (orders : list Order) :
  is_str (symbol u) (COIN_NAME cfg ++ CONTRACT_TYPE cfg) = true ->
  is_str (order_status u) "FILLED" = true ->
  reply_at w 0 = ROrders orders ->
  exists b',
    handle_order_update cfg u b w
    = (Returned tt, b',
       after_requests w [FetchOpenOrders; FetchPositions])
    /\ buy_long_orders (grid_core b') = c_buy_long_orders (count_orders orders)
    /\ sell_long_orders (grid_core b')
       = c_sell_long_orders (count_orders orders)
    /\ buy_short_orders (grid_core b')
       = c_buy_short_orders (count_orders orders)
    /\ sell_short_orders (grid_core b')
       = c_sell_short_orders (count_orders orders)
    /\ (long_position (grid_core b'), short_position (grid_core b'))
       = reported_positions cfg (reply_at w 1)
    /\ is_sleeping b' = is_sleeping b
    /\ sleep_start_time b' = sleep_start_time b.
Proof.
  intros Hsym Hfilled Horders.
  assert (Hnew : is_str (order_status u) "NEW" = false).
  { destruct (order_status u) as [st|]; [|discriminate Hfilled].
    cbn in *. apply String.eqb_eq in Hfilled. subst st. reflexivity. }
  unfold handle_order_update. cbv zeta.
  rewrite Hsym, Hnew, Hfilled. cbn [negb orb].
  unfold try_except, bind at 1, modify_grid at 1, modify at 1.
  unfold bind at 1, on_grid, zoom.
  cbn [grid_core set_grid_core].
  rewrite check_orders_status_run, Horders.
  rewrite reconcile_position_run. cbv zeta.
  rewrite after_requests_app. cbn [app].
  rewrite reply_at_after. cbn [List.length Nat.add].
  destruct (reported_positions cfg (reply_at w 1)) as [long short].
  eexists. split; [reflexivity|].
  cbn. repeat split; reflexivity.
Qed.

(** A sell fill of 7 on the long side, while the exchange lists one resting
    buy order of 3 and reports 50 long contracts. *)
Lemma filled_update_ends_with_exchange_snapshot_witness :
  let u := {| symbol := Some "XRPUSDC"%string; side := Some "SELL"%string;
              position_side := Some "LONG"%string;
              order_status := Some "FILLED"%string;
              quantity := 7; filled := 7 |} in
  let orders := [{| o_id := "1"%string; o_side := Some "buy"%string;
                   o_reduceOnly := false;
                   o_positionSide := Some "LONG"%string; o_origQty := 3 |}] in
  let positions := [{| rp_symbol := get_ccxt_symbol config;
                      rp_side := Some "long"%string; rp_contracts := 50 |}] in
  let w := {| oracle := fun n =>
                match n with
                | 0%nat => ROrders orders
                | _ => RPositions positions
                end;
              trace := []; now := 0 |} in
  let b := set_grid_core
             (set_buy_long_orders 9 (set_long_position 64 GridCore.init))
             Bot.init in
  exists b',
    handle_order_update config u b w
    = (Returned tt, b',
       after_requests w [FetchOpenOrders; FetchPositions])
    /\ buy_long_orders (grid_core b') = c_buy_long_orders (count_orders orders)
    /\ sell_long_orders (grid_core b')
       = c_sell_long_orders (count_orders orders)
    /\ buy_short_orders (grid_core b')
       = c_buy_short_orders (count_orders orders)
    /\ sell_short_orders (grid_core b')
       = c_sell_short_orders (count_orders orders)
    /\ (long_position (grid_core b'), short_position (grid_core b'))
       = reported_positions config (reply_at w 1)
    /\ is_sleeping b' = is_sleeping b
    /\ sleep_start_time b' = sleep_start_time b.
Proof.
  cbv zeta.
  apply filled_update_ends_with_exchange_snapshot.
  - reflexivity.
  - reflexivity.
  - reflexivity.
Defined.
